(** * ClawWatch session store: archive, restore, retention and labels

    A shallow embedding of the session-lifecycle core of [server.py] and of
    [scripts/archive-sessions.py], together with the properties the
    specification states about it, and of the code around that core (the
    POST interface and its authentication, the settings, the transcript
    views, the version comparison and the update check) with further
    properties of it.

    Conventions of the embedding.
    - Python [int] is [Z] (unbounded). A JSON number is an integer: floats
      are not part of [json], and what the code computes in floats (sizes
      in KB, the usage percentage) stays outside the definitions.
    - Python [str] is [string], one [ascii] to a character, so a length
      or a slice counts characters; text with characters beyond that range
      is outside the embedding. The character classes ([isdigit], [lower],
      [title], [strip]) are the ASCII ones.
    - A decoded JSON object is an association list in file order (Python
      dictionaries keep insertion order, and the sweep iterates in it).
    - The sessions directory is a finite map from file names to contents;
      names are single path components.
    - sessions.json is missing, undecodable, or decodes to an object of
      session records or to a value that is no object ([None], a boolean,
      a number, a string), on which [in], [del], item assignment and
      [.items()] raise as Python's do.
    - What the code takes from the Python library and from the operating
      system (value formatting, [glob], the gzip codec, text decoding and
      [json.loads]) is a [Variable] of a section; a theorem is
      generalised over the ones it uses, and [Ref] gives one concrete
      choice of them to run the definitions on. *)

From Stdlib Require Import ZArith String Ascii List Lia Bool.
From stdpp Require Import gmap strings list.

Set Warnings "-register-all".

Local Open Scope Z_scope.
Local Open Scope string_scope.

(* ===================================================================== *)
(** * Python values and exceptions *)
(* ===================================================================== *)

(** The exceptions the modelled paths can raise. *)
Inductive exn : Type :=
| TypeError
| AttributeError
| JSONDecodeError
| OSError
| ValueError.

(** A Python computation: it returns a value or raises. *)
Inductive py (A : Type) : Type :=
| Return (a : A)
| Raise (e : exn).
Arguments Return {A} a.
Arguments Raise {A} e.

#[global] Instance py_ret : MRet py := fun A a => Return a.
#[global] Instance py_bind : MBind py := fun A B f m =>
  match m with
  | Return a => f a
  | Raise e => Raise e
  end.

(** What [json.load] produces (floats apart). *)
Inductive json : Type :=
| JNull
| JBool (b : bool)
| JNum (z : Z)
| JStr (s : string)
| JArr (items : list json)
| JObj (fields : list (string * json)).

(** A Python [dict] with string keys, in insertion order. *)
Definition dict (V : Type) : Type := list (string * V).

(** [d.get(k)] as an option; [k in d] is [is_Some] of it. *)
Fixpoint dict_get {V} (k : string) (d : dict V) : option V :=
  match d with
  | [] => None
  | (k', v) :: rest => if String.eqb k k' then Some v else dict_get k rest
  end.

(** [del d[k]]. *)
Fixpoint dict_del {V} (k : string) (d : dict V) : dict V :=
  match d with
  | [] => []
  | (k', v) :: rest =>
      if String.eqb k k' then dict_del k rest else (k', v) :: dict_del k rest
  end.

(** [d[k] = v]: an existing key keeps its position, a new one goes last. *)
Fixpoint dict_set {V} (k : string) (v : V) (d : dict V) : dict V :=
  match d with
  | [] => [(k, v)]
  | (k', v') :: rest =>
      if String.eqb k k' then (k', v) :: rest else (k', v') :: dict_set k v rest
  end.

(** [list(d.keys())]. *)
Definition dict_keys {V} (d : dict V) : list string := map fst d.

(** A session record: the JSON object stored under a key of sessions.json. *)
Definition record : Type := dict json.

(** [d.get(k)]: [None] when the key is absent. *)
Definition py_get (k : string) (d : record) : json :=
  match dict_get k d with
  | Some v => v
  | None => JNull
  end.

(** [d.get(k, default)]. *)
Definition py_get_d (k : string) (default : json) (d : record) : json :=
  match dict_get k d with
  | Some v => v
  | None => default
  end.

(** [bool(v)]. *)
Definition py_truthy (v : json) : bool :=
  match v with
  | JNull => false
  | JBool b => b
  | JNum z => negb (Z.eqb z 0)
  | JStr s => negb (String.eqb s "")
  | JArr items => match items with [] => false | _ => true end
  | JObj fields => match fields with [] => false | _ => true end
  end.

(** [a or b]. *)
Definition py_or (a b : json) : json := if py_truthy a then a else b.

(** [v == s] for a string [s]: only an equal string is equal to it. *)
Definition py_eq_str (v : json) (s : string) : bool :=
  match v with
  | JStr t => String.eqb t s
  | _ => false
  end.

(** [v < n] for an integer [n]: defined on integers and booleans, a
    [TypeError] on everything else. *)
Definition py_lt_int (v : json) (n : Z) : py bool :=
  match v with
  | JNum z => Return (Z.ltb z n)
  | JBool b => Return (Z.ltb (Z.b2z b) n)
  | _ => Raise TypeError
  end.

(** [if v: ... v.startswith(...)]: a falsy value skips the branch, a
    non-empty string enters it, and any other truthy value raises in it.
    [on_number] is what a number raises: [AttributeError] where a [str]
    method comes first, [TypeError] where [' id:' in v] does. *)
Definition truthy_str (on_number : exn) (v : json) : py (option string) :=
  if py_truthy v then
    match v with
    | JStr s => Return (Some s)
    | JNum _ | JBool _ => Raise on_number
    | _ => Raise AttributeError
    end
  else Return None.

(** [v.get] needs a dictionary. *)
Definition as_dict (v : json) : py record :=
  match v with
  | JObj fields => Return fields
  | _ => Raise AttributeError
  end.

(** The truth value of a two-element tuple: a non-empty tuple is true
    whatever it holds. *)
Definition tuple_truthy {A B} (t : A * B) : bool := true.

(* ===================================================================== *)
(** * Strings *)
(* ===================================================================== *)

Module Str.

(** [s.startswith(p)]. *)
Fixpoint startswith (p s : string) : bool :=
  match p, s with
  | EmptyString, _ => true
  | String a p', String b s' => if Ascii.eqb a b then startswith p' s' else false
  | String _ _, EmptyString => false
  end.

(** [sub in s]. *)
Fixpoint contains (sub s : string) : bool :=
  if startswith sub s then true
  else match s with
       | EmptyString => false
       | String _ s' => contains sub s'
       end.

(** [s[n:]]. *)
Fixpoint drop (n : nat) (s : string) : string :=
  match n, s with
  | O, _ => s
  | S n', String _ s' => drop n' s'
  | S _, EmptyString => EmptyString
  end.

(** [s[:n]]. *)
Fixpoint take (n : nat) (s : string) : string :=
  match n, s with
  | O, _ => EmptyString
  | S n', String a s' => String a (take n' s')
  | S _, EmptyString => EmptyString
  end.

(** [s[i:j]]. *)
Definition slice (i j : nat) (s : string) : string := take (j - i) (drop i s).

(** [c.isdigit()]. *)
Definition isdigit (c : ascii) : bool :=
  let n := nat_of_ascii c in (48 <=? n)%nat && (n <=? 57)%nat.

Definition is_lower (c : ascii) : bool :=
  let n := nat_of_ascii c in (97 <=? n)%nat && (n <=? 122)%nat.

Definition is_upper (c : ascii) : bool :=
  let n := nat_of_ascii c in (65 <=? n)%nat && (n <=? 90)%nat.

(** [c.isspace()]: tab to carriage return, the four separators and space. *)
Definition isspace (c : ascii) : bool :=
  let n := nat_of_ascii c in
  ((9 <=? n)%nat && (n <=? 13)%nat) || ((28 <=? n)%nat && (n <=? 32)%nat).

Definition to_lower (c : ascii) : ascii :=
  if is_upper c then ascii_of_nat (nat_of_ascii c + 32) else c.

Definition to_upper (c : ascii) : ascii :=
  if is_lower c then ascii_of_nat (nat_of_ascii c - 32) else c.

Fixpoint map_chars (f : ascii -> ascii) (s : string) : string :=
  match s with
  | EmptyString => EmptyString
  | String a s' => String (f a) (map_chars f s')
  end.

Fixpoint filter_chars (f : ascii -> bool) (s : string) : string :=
  match s with
  | EmptyString => EmptyString
  | String a s' => if f a then String a (filter_chars f s') else filter_chars f s'
  end.

Fixpoint all_chars (f : ascii -> bool) (s : string) : bool :=
  match s with
  | EmptyString => true
  | String a s' => f a && all_chars f s'
  end.

(** [s.lower()]. *)
Definition lower (s : string) : string := map_chars to_lower s.

(** [s.replace(a, b)] for single characters. *)
Definition replace_char (a b : ascii) (s : string) : string :=
  map_chars (fun c => if Ascii.eqb c a then b else c) s.

(** [s.title()]: a letter that follows a letter is lowered, any other
    letter is raised. *)
Fixpoint title_from (prev_cased : bool) (s : string) : string :=
  match s with
  | EmptyString => EmptyString
  | String a s' =>
      if is_lower a || is_upper a
      then String (if prev_cased then to_lower a else to_upper a) (title_from true s')
      else String a (title_from false s')
  end.

Definition title (s : string) : string := title_from false s.

Fixpoint lstrip (s : string) : string :=
  match s with
  | EmptyString => EmptyString
  | String a s' => if isspace a then lstrip s' else s
  end.

Fixpoint rstrip (s : string) : string :=
  match s with
  | EmptyString => EmptyString
  | String a s' =>
      match rstrip s' with
      | EmptyString => if isspace a then EmptyString else String a EmptyString
      | r => String a r
      end
  end.

(** [s.strip()]. *)
Definition strip (s : string) : string := rstrip (lstrip s).

(** [s.split(sep)] for a non-empty separator: the pieces between its
    occurrences, scanning left to right. [cur] is the piece being read,
    reversed; [skip] counts the characters of a matched separator still to
    pass over. *)
Fixpoint split_from (sep cur : string) (skip : nat) (s : string) : list string :=
  match s with
  | EmptyString => [String.rev cur]
  | String a s' =>
      match skip with
      | S k => split_from sep cur k s'
      | O =>
          if startswith sep s
          then String.rev cur
                 :: split_from sep EmptyString (Nat.pred (String.length sep)) s'
          else split_from sep (String a cur) O s'
      end
  end.

Definition split (sep s : string) : list string := split_from sep EmptyString O s.

(** [sep.join(parts)]. *)
Fixpoint join (sep : string) (parts : list string) : string :=
  match parts with
  | [] => EmptyString
  | [p] => p
  | p :: rest => p +:+ sep +:+ join sep rest
  end.

(** [s.endswith(p)]. *)
Definition endswith (p s : string) : bool :=
  startswith (String.rev p) (String.rev s).

End Str.

(* ===================================================================== *)
(** * Files *)
(* ===================================================================== *)

(** File contents. *)
Abbreviation bytes := (list Byte.byte) (only parsing).

(** A JSON file on disk: absent, present but not decodable, or decoded. *)
Inductive json_file (A : Type) : Type :=
| Missing
| Corrupt
| Parsed (a : A).
Arguments Missing {A}.
Arguments Corrupt {A}.
Arguments Parsed {A} a.

(** What reading a gzip file to its end yields: the whole content, or the
    bytes produced before the stream turned out to be damaged. *)
Inductive gunzip_result : Type :=
| Inflated (data : bytes)
| Broken (partial : bytes).

(** One row of archive-index.json, as [archive_session] writes it (lines
    892-903): always these ten fields. The values carried over from the
    session record stay JSON values. *)
Record ArchiveEntry : Type := {
  ae_key : string;
  ae_sessionId : json;
  ae_label : json;
  ae_archivedAt : Z;
  ae_originalSize : Z;
  ae_compressedSize : Z;
  ae_updatedAt : json;
  ae_model : json;
  ae_channel : json;
  ae_task : json
}.

(** archive-index.json: [{sessions: [...], totalSize: n}]. *)
Record ArchiveIndex : Type := {
  idx_sessions : list ArchiveEntry;
  idx_totalSize : Z
}.

(** A decoded value that is neither an object nor a list. *)
Inductive scalar : Type :=
| SNull
| SBool (b : bool)
| SNum (z : Z)
| SStr (s : string).

(** What sessions.json decodes to: the object of the session records, or a
    value that is no object. (A list is left out: a numeric [sessionKey]
    of a request would index it, and the index row written for the element
    would hold a key that is no string.) *)
Inductive catalog : Type :=
| Catalog (sessions : dict record)
| NoCatalog (v : scalar).

(** [key in v] for a string [key]: a substring test on a string, a
    [TypeError] on [None], a boolean or a number. *)
Definition scalar_has (v : scalar) (key : string) : py bool :=
  match v with
  | SStr s => Return (Str.contains key s)
  | SNull | SBool _ | SNum _ => Raise TypeError
  end.

(** The session-storage root: [SESSIONS_DIR] and [ARCHIVE_DIR] below it. *)
Record FS : Type := {
  (** the regular files of [SESSIONS_DIR] other than sessions.json *)
  transcripts : gmap string bytes;
  (** the regular files of [ARCHIVE_DIR] other than archive-index.json *)
  artifacts : gmap string bytes;
  (** [SESSIONS_DIR / 'sessions.json'] *)
  sessions_json : json_file catalog;
  (** [ARCHIVE_INDEX_FILE] *)
  archive_index_json : json_file ArchiveIndex
}.

Definition set_transcripts (t : gmap string bytes) (fs : FS) : FS :=
  {| transcripts := t; artifacts := artifacts fs;
     sessions_json := sessions_json fs; archive_index_json := archive_index_json fs |}.

Definition set_artifacts (a : gmap string bytes) (fs : FS) : FS :=
  {| transcripts := transcripts fs; artifacts := a;
     sessions_json := sessions_json fs; archive_index_json := archive_index_json fs |}.

Definition set_sessions_json (c : json_file catalog) (fs : FS) : FS :=
  {| transcripts := transcripts fs; artifacts := artifacts fs;
     sessions_json := c; archive_index_json := archive_index_json fs |}.

Definition set_archive_index_json (i : json_file ArchiveIndex) (fs : FS) : FS :=
  {| transcripts := transcripts fs; artifacts := artifacts fs;
     sessions_json := sessions_json fs; archive_index_json := i |}.

(** [Path.stem] of a file name: the part after the last slash, without its
    last suffix; a leading or a trailing dot starts no suffix. *)
Fixpoint after_last_slash (acc s : string) : string :=
  match s with
  | EmptyString => acc
  | String a s' =>
      if Ascii.eqb a "/" then after_last_slash s' s' else after_last_slash acc s'
  end.

Definition path_name (p : string) : string := after_last_slash p p.

(** [name.rfind('.')], counted from the left; [None] for -1. *)
Fixpoint rfind_dot (i : nat) (s : string) : option nat :=
  match s with
  | EmptyString => None
  | String a s' =>
      match rfind_dot (S i) s' with
      | Some j => Some j
      | None => if Ascii.eqb a "." then Some i else None
      end
  end.

Definition path_stem (p : string) : string :=
  let name := path_name p in
  match rfind_dot 0 name with
  | Some i =>
      if (0 <? i)%nat && (i <? String.length name - 1)%nat
      then Str.take i name else name
  | None => name
  end.

(* ===================================================================== *)
(** * Agent directories ([server.py], lines 624-652) *)
(* ===================================================================== *)

(** One entry of the agents root, as [iterdir] yields it: its name, whether
    it is a directory, and whether it has a [sessions] child. *)
Record dir_entry : Type := {
  de_name : string;
  de_is_dir : bool;
  de_has_sessions : bool
}.

(** What [get_all_agent_sessions_dirs] reads of the file system:
    [agents_base] is [None] when [OPENCLAW_HOME / 'agents'] does not exist,
    and [sessions_dir_exists] is [SESSIONS_DIR.exists()]. *)
Record agents_tree : Type := {
  agents_base : option (list dir_entry);
  sessions_dir_exists : bool
}.

(** The directories returned: [SESSIONS_DIR], or [agent_dir / 'sessions']. *)
Inductive sessions_dir : Type :=
| DefaultSessionsDir
| AgentSessionsDir (agent : string).

(** Lines 637-645. *)
Definition scan_agents (entries : list dir_entry) : list (string * sessions_dir) :=
  flat_map
    (fun agent_dir =>
       if negb (de_is_dir agent_dir) then []
       else if Str.startswith "." (de_name agent_dir) then []
       else if de_has_sessions agent_dir
       then [(de_name agent_dir, AgentSessionsDir (de_name agent_dir))]
       else [])
    entries.

(** [get_all_agent_sessions_dirs] (lines 624-652). *)
Definition get_all_agent_sessions_dirs (t : agents_tree)
    : list (string * sessions_dir) :=
  match agents_base t with
  | None => [("main", DefaultSessionsDir)]
  | Some entries =>
      let session_dirs := scan_agents entries in
      if existsb (fun p => String.eqb (fst p) "main") session_dirs
      then session_dirs
      else if sessions_dir_exists t
      then (session_dirs ++ [("main", DefaultSessionsDir)])%list
      else session_dirs
  end.

(* ===================================================================== *)
(** * A reference choice of the library functions *)
(* ===================================================================== *)

(** One concrete choice of what the sections below take as variables, to
    run the definitions on examples. [py_str] is Python's [str] on strings,
    integers, booleans and [None]; the other functions are stand-ins with
    the shape of the real ones. *)
Module Ref.

Definition py_str (v : json) : string :=
  match v with
  | JNull => "None"
  | JBool true => "True"
  | JBool false => "False"
  | JNum z => pretty.pretty z
  | JStr s => s
  | JArr _ => "[...]"
  | JObj _ => "{...}"
  end.

(** The names of the directory that end in [.jsonl] and hold [sid] before
    that suffix: what the pattern [*sid*.jsonl] matches when [sid] has no
    pattern characters. A pattern that holds two stars in a row ([sid]
    empty, or with a star at an end) is refused with [ValueError]. *)
Definition glob_jsonl (files : gmap string bytes) (sid : string)
    : py (list string) :=
  if Str.contains "**" ("*" +:+ sid +:+ "*.jsonl") then Raise ValueError
  else
    Return
      (List.filter
         (fun name =>
            Str.endswith ".jsonl" name
            && Str.contains sid (Str.take (String.length name - 6) name))
         (map fst (map_to_list files))).

Definition gzip_compress (data : bytes) : bytes :=
  Byte.x1f :: Byte.x8b :: data.

Definition gzip_decompress (data : bytes) : gunzip_result :=
  match data with
  | Byte.x1f :: Byte.x8b :: rest => Inflated rest
  | _ => Broken []
  end.

(** The lines between newline bytes. *)
Definition text_lines (data : bytes) : py (list string) :=
  Return (Str.split (String "010" EmptyString) (string_of_list_byte data)).

(** A stand-in decoder: a line [user: text] or [assistant: text] stands
    for the message entry of that role and content; nothing else decodes. *)
Definition json_loads (line : string) : py json :=
  if Str.startswith "user: " line then
    Return (JObj [("type", JStr "message");
                  ("message", JObj [("role", JStr "user");
                                    ("content", JStr (Str.drop 6 line))])])
  else if Str.startswith "assistant: " line then
    Return (JObj [("type", JStr "message");
                  ("message", JObj [("role", JStr "assistant");
                                    ("content", JStr (Str.drop 11 line))])])
  else Raise JSONDecodeError.

Definition pathlib_name (v : json) : py json :=
  match v with
  | JStr s => Return (JStr (path_name s))
  | _ => Raise TypeError
  end.

Definition row_status_age (s : record) : py (json * json) :=
  Return (JStr "done", py_get_d "ageMs" JNull s).

Definition row_usage_pct (total_tokens context_tokens : json) : py json :=
  Return (JNum 0).

Definition row_node (s : record) : py json :=
  Return (py_or (py_get "node" s) (py_get_d "hostname" (JStr "gateway") s)).

(** The value of a string of decimal digits, from an accumulator. *)
Fixpoint digits_value (acc : Z) (s : string) : option Z :=
  match s with
  | EmptyString => Some acc
  | String c s' =>
      if Str.isdigit c
      then digits_value (10 * acc + (Z.of_nat (nat_of_ascii c) - 48)) s'
      else None
  end.

(** A stand-in for [int] on strings: the unsigned decimal literals. *)
Definition int_of_str (s : string) : py Z :=
  match s with
  | EmptyString => Raise ValueError
  | _ =>
      match digits_value 0 s with
      | Some z => Return z
      | None => Raise ValueError
      end
  end.

(** A stand-in digest. *)
Definition sha256_hex (s : string) : string := "sha256:" +:+ s.

End Ref.

(* ===================================================================== *)
(** * Example data *)
(* ===================================================================== *)

Module Eg.

Definition text (s : string) : bytes := list_byte_of_string s.

(** A transcript of one user message (in the notation of [Ref.json_loads]). *)
Definition hello : bytes := text "user: hello".

(** A day in milliseconds, and a clock reading. *)
Definition day : Z := 86400000.
Definition now : Z := 1700000000000.

(** A Signal session that records its channel only as [lastChannel]. *)
Definition signal_key : string := "agent:main:signal:dm:signal:+12345678901".

Definition signal_record : record :=
  [ ("sessionId", JStr "s1");
    ("updatedAt", JNum 5);
    ("model", JStr "opus");
    ("lastChannel", JStr "signal");
    ("totalTokens", JNum 9);
    ("origin", JObj [("label", JStr "signal:+12345678901")]) ].

(** A root with that session and its transcript, nothing archived yet. *)
Definition fresh : FS :=
  {| transcripts := {[ "s1.jsonl" := hello ]};
     artifacts := ∅;
     sessions_json := Parsed (Catalog [(signal_key, signal_record)]);
     archive_index_json := Missing |}.

(** The same catalog, but the transcript is gone. *)
Definition no_transcript : FS :=
  {| transcripts := ∅;
     artifacts := ∅;
     sessions_json := Parsed (Catalog [(signal_key, signal_record)]);
     archive_index_json := Missing |}.

(** A catalog of two expired sessions; the transcript of the first, whose
    id is [gone], is not in the directory. *)
Definition lost_record : record :=
  [("sessionId", JStr "gone"); ("updatedAt", JNum 3)].

Definition half_missing : FS :=
  {| transcripts := {[ "s1.jsonl" := hello ]};
     artifacts := ∅;
     sessions_json :=
       Parsed (Catalog [("agent:main:lost", lost_record);
                        (signal_key, signal_record)]);
     archive_index_json := Missing |}.

(** A catalog of three expired sessions of which the second has an empty
    session id: the pattern of its glob is rejected. *)
Definition unnamed_record : record :=
  [("sessionId", JStr ""); ("updatedAt", JNum 3)].

Definition unnamed : FS :=
  {| transcripts := <[ "s9.jsonl" := hello ]> {[ "s1.jsonl" := hello ]};
     artifacts := ∅;
     sessions_json :=
       Parsed (Catalog [(signal_key, signal_record);
                        ("agent:main:unnamed", unnamed_record);
                        ("agent:main:chat",
                         [("sessionId", JStr "s9"); ("updatedAt", JNum 5)])]);
     archive_index_json := Missing |}.

(** An archived session whose key and session id differ. *)
Definition telegram_entry : ArchiveEntry :=
  {| ae_key := "agent:main:telegram:42";
     ae_sessionId := JStr "abc123";
     ae_label := JStr "Telegram: Ops";
     ae_archivedAt := 1000;
     ae_originalSize := 11;
     ae_compressedSize := 13;
     ae_updatedAt := JNum 900;
     ae_model := JStr "opus";
     ae_channel := JStr "telegram";
     ae_task := JStr "hello" |}.

Definition archived : FS :=
  {| transcripts := ∅;
     artifacts := {[ "abc123.jsonl.gz" := Ref.gzip_compress hello ]};
     sessions_json := Parsed (Catalog []);
     archive_index_json :=
       Parsed {| idx_sessions := [telegram_entry]; idx_totalSize := 13 |} |}.

(** The main session was archived once under the id [old]; the runtime has
    since opened a new session [new] under the same key. *)
Definition old_main_entry : ArchiveEntry :=
  {| ae_key := "agent:main:main";
     ae_sessionId := JStr "old";
     ae_label := JStr "agent:main:main";
     ae_archivedAt := 1000;
     ae_originalSize := 3;
     ae_compressedSize := 5;
     ae_updatedAt := JNum 900;
     ae_model := JStr "opus";
     ae_channel := JNull;
     ae_task := JNull |}.

Definition new_main_record : record :=
  [ ("sessionId", JStr "new"); ("updatedAt", JNum 2000); ("model", JStr "opus") ].

Definition reused_key : FS :=
  {| transcripts := {[ "new.jsonl" := text "second" ]};
     artifacts := {[ "old.jsonl.gz" := Ref.gzip_compress (text "one") ]};
     sessions_json := Parsed (Catalog [("agent:main:main", new_main_record)]);
     archive_index_json :=
       Parsed {| idx_sessions := [old_main_entry]; idx_totalSize := 5 |} |}.

(** Three sessions around a thirty-day cutoff. *)
Definition aged (updated_at : Z) : record := [("updatedAt", JNum updated_at)].

Definition aged_catalog : dict record :=
  [ ("older", aged (now - 31 * day));
    ("at-cutoff", aged (now - 30 * day));
    ("newer", aged (now - 29 * day)) ].

(** A root with those three sessions and the transcript of the oldest. *)
Definition aged_root : FS :=
  {| transcripts := {[ "older.jsonl" := hello ]};
     artifacts := ∅;
     sessions_json := Parsed (Catalog aged_catalog);
     archive_index_json := Missing |}.

(** An agents root that exists and is empty, one that holds another agent
    and a [main] directory without sessions, and one that holds [main];
    [SESSIONS_DIR] exists in none of the first two. *)
Definition empty_root : agents_tree :=
  {| agents_base := Some []; sessions_dir_exists := false |}.

Definition ops_only : agents_tree :=
  {| agents_base :=
       Some [ {| de_name := "ops"; de_is_dir := true; de_has_sessions := true |};
              {| de_name := "main"; de_is_dir := true; de_has_sessions := false |} ];
     sessions_dir_exists := false |}.

Definition with_main : agents_tree :=
  {| agents_base :=
       Some [ {| de_name := ".cache"; de_is_dir := true; de_has_sessions := true |};
              {| de_name := "main"; de_is_dir := true; de_has_sessions := true |} ];
     sessions_dir_exists := true |}.

(** Raw sessions as [handle_sessions_list] hands them over. *)
Definition cron_session : record :=
  [("key", JStr "agent:main:cron:job1"); ("updatedAt", JNum 7)].

Definition run_session : record :=
  [("key", JStr "agent:main:cron:job1:run:17"); ("updatedAt", JNum 8)].

Definition main_session : record :=
  [("key", JStr "agent:main:main"); ("label", JStr "agent:main:main")].

(** The fresh root with a sessions.json that does not decode. *)
Definition corrupt_catalog : FS :=
  {| transcripts := {[ "s1.jsonl" := hello ]};
     artifacts := ∅;
     sessions_json := Corrupt;
     archive_index_json := Missing |}.

(** The fresh root with a sessions.json that holds a JSON string. *)
Definition text_catalog : FS :=
  {| transcripts := {[ "s1.jsonl" := hello ]};
     artifacts := ∅;
     sessions_json := Parsed (NoCatalog (SStr "none"));
     archive_index_json := Missing |}.

(** A session whose transcript file carries a prefix before the session
    id, so that only the glob finds it. *)
Definition chat_record : record :=
  [("sessionId", JStr "s9"); ("updatedAt", JNum 5)].

Definition prefixed : FS :=
  {| transcripts := {[ "chat-s9.jsonl" := hello ]};
     artifacts := ∅;
     sessions_json := Parsed (Catalog [("agent:main:chat", chat_record)]);
     archive_index_json := Missing |}.

(** Two archived generations of the main session under the one key. *)
Definition newer_main_entry : ArchiveEntry :=
  {| ae_key := "agent:main:main";
     ae_sessionId := JStr "new";
     ae_label := JStr "agent:main:main";
     ae_archivedAt := 2000;
     ae_originalSize := 6;
     ae_compressedSize := 8;
     ae_updatedAt := JNum 1900;
     ae_model := JStr "opus";
     ae_channel := JNull;
     ae_task := JNull |}.

Definition two_generations : FS :=
  {| transcripts := ∅;
     artifacts :=
       <[ "new.jsonl.gz" := Ref.gzip_compress (text "second") ]>
         {[ "old.jsonl.gz" := Ref.gzip_compress (text "one") ]};
     sessions_json := Parsed (Catalog []);
     archive_index_json :=
       Parsed {| idx_sessions := [old_main_entry; newer_main_entry];
                 idx_totalSize := 13 |} |}.

(** The archived root with a compressed file that does not inflate. *)
Definition broken_archive : FS :=
  {| transcripts := ∅;
     artifacts := {[ "abc123.jsonl.gz" := text "junk" ]};
     sessions_json := Parsed (Catalog []);
     archive_index_json :=
       Parsed {| idx_sessions := [telegram_entry]; idx_totalSize := 13 |} |}.

(** A transcript of a question, a line that does not decode, a blank line
    and an answer (in the notation of [Ref.json_loads]). *)
Definition dialogue : list string :=
  ["user: hello"; "{broken"; "   "; "assistant: hi there"].

(** A configuration with a token, and one in read-only mode without. *)
Definition locked : record :=
  [("authMode", JStr "login"); ("dashboardToken", JStr "secret")].

Definition read_only : record := [("readOnly", JBool true)].

(** A raw session that carries a path and an internal field. *)
Definition with_paths : record :=
  [ ("key", JStr "agent:main:main");
    ("transcriptPath", JStr "/home/u/.openclaw/agents/main/sessions/s1.jsonl");
    ("_internal", JNum 1) ].

End Eg.

(* ===================================================================== *)
(** * Label resolution ([server.py], lines 497-621) *)
(* ===================================================================== *)

(** [format_phone_number] (lines 603-621). *)
Definition format_phone_number (phone : string) : string :=
  if String.eqb phone "" then phone
  else
    let has_plus := Str.startswith "+" phone in
    let digits := Str.filter_chars Str.isdigit phone in
    if (String.length digits =? 11)%nat && Str.startswith "1" digits then
      "+1 " +:+ Str.slice 1 4 digits +:+ " " +:+ Str.slice 4 7 digits
        +:+ " " +:+ Str.drop 7 digits
    else if (String.length digits =? 10)%nat then
      "+1 " +:+ Str.take 3 digits +:+ " " +:+ Str.slice 3 6 digits
        +:+ " " +:+ Str.drop 6 digits
    else if has_plus then "+" +:+ digits else phone.

Definition is_lower_alnum (c : ascii) : bool := Str.is_lower c || Str.isdigit c.

(** [re.match(r'^[a-z0-9]{20,}$', s)]: twenty or more characters, all of
    them lower-case letters or digits; [$] also matches before one final
    newline. *)
Definition looks_like_hash (s : string) : bool :=
  let body :=
    if Str.endswith (String "010" EmptyString) s
    then Str.take (String.length s - 1) s else s in
  (20 <=? String.length body)%nat && Str.all_chars is_lower_alnum body.

Section World.

Set Default Proof Using "Type".

(** [str(v)], as an f-string formats a value. *)
Variable py_str : json -> string.

(** [list(SESSIONS_DIR.glob(f'*{session_id}*.jsonl'))] as file names, in the
    order the directory yields them; the second argument is the formatted
    session id. The glob raises [ValueError] on a pattern it rejects: one
    that holds [**] inside a component, as the pattern of an empty session
    id does, or of one with [*] at an end. *)
Variable glob_jsonl : gmap string bytes -> string -> py (list string).

(** The gzip codec: [gzip.open(.., 'wb')] followed by a copy, and
    [gzip.open(.., 'rb')] read to its end. *)
Variable gzip_compress : bytes -> bytes.
Variable gzip_decompress : bytes -> gunzip_result.

(** The gzip codec reads back what it wrote. *)
Hypothesis gzip_round_trip :
  forall data : bytes, gzip_decompress (gzip_compress data) = Inflated data.

(** The lines of a file opened in text mode, as [for line in f] yields
    them, or the [ValueError] of bytes that are not text. *)
Variable text_lines : bytes -> py (list string).

(** [json.loads]: the decoded value, or [JSONDecodeError]. *)
Variable json_loads : string -> py json.

(** The group branch of the Signal case (lines 522-549). *)
Definition signal_group_label (origin display_name : json) : py string :=
  o ← as_dict origin;
  gl ← truthy_str TypeError
         (py_or (py_get_d "label" (JStr "") o) (py_get_d "groupName" (JStr "") o));
  let named : option string :=
    match gl with
    | None => None
    | Some g0 =>
        let g :=
          if Str.contains " id:" g0
          then Str.strip (hd EmptyString (Str.split " id:" g0)) else g0 in
        if negb (String.eqb g "") && negb (Str.startswith "group:" g)
           && (String.length g <? 30)%nat && negb (looks_like_hash (Str.lower g))
        then Some g else None
    end in
  match named with
  | Some g => Return ("Signal: " +:+ g)
  | None =>
      dn ← truthy_str AttributeError display_name;
      match dn with
      | Some d =>
          if Str.startswith "signal:g-" d then
            let group_name := Str.drop 9 d in
            if Str.startswith "group-" group_name then Return "Signal Group Chat"
            else if (String.length group_name <? 30)%nat
            then Return ("Signal: " +:+ Str.title (Str.replace_char "-" " " group_name))
            else Return "Signal Group Chat"
          else Return "Signal Group Chat"
      | None => Return "Signal Group Chat"
      end
  end.

(** The direct-message branch of the Signal case (lines 551-564). *)
Definition signal_dm_label (origin : json) : py string :=
  o ← as_dict origin;
  ol ← truthy_str AttributeError
         (py_or (py_get_d "label" (JStr "") o) (py_get_d "from" (JStr "") o));
  match ol with
  | Some origin_label =>
      if Str.startswith "signal:" origin_label
      then Return ("Signal: " +:+ format_phone_number (Str.drop 7 origin_label))
      else if negb (Str.startswith "group:" origin_label)
      then Return ("Signal: " +:+ origin_label)
      else Return "Signal DM"
  | None => Return "Signal DM"
  end.

(** The Discord, Telegram, WhatsApp and Slack cases (lines 566-592): the
    origin's label or its [alt] field, formatted after the channel name. *)
Definition chat_label (name alt generic : string) (origin : json) : py string :=
  o ← as_dict origin;
  let origin_label := py_or (py_get_d "label" (JStr "") o) (py_get_d alt (JStr "") o) in
  if py_truthy origin_label
  then Return (name +:+ ": " +:+ py_str origin_label)
  else Return generic.

(** [parse_friendly_session_label] (lines 497-600). *)
Definition parse_friendly_session_label
    (session_key : string) (session_data : record) : py string :=
  existing ← truthy_str AttributeError (py_get_d "label" (JStr "") session_data);
  let kept : option string :=
    match existing with
    | Some l =>
        if negb (Str.startswith "agent:" l) && negb (Str.startswith "signal:" l)
        then Some l else None
    | None => None
    end in
  match kept with
  | Some l => Return l
  | None =>
      let display_name := py_get_d "displayName" (JStr "") session_data in
      let origin := py_get_d "origin" (JObj []) session_data in
      let channel :=
        py_or (py_get "channel" session_data)
              (py_get_d "lastChannel" (JStr "") session_data) in
      if Str.contains ":signal:" session_key || py_eq_str channel "signal" then
        let chat_type := py_get_d "chatType" (JStr "") session_data in
        if Str.contains "group" session_key || py_eq_str chat_type "group"
        then signal_group_label origin display_name
        else signal_dm_label origin
      else if Str.contains ":discord:" session_key || py_eq_str channel "discord"
      then chat_label "Discord" "channelName" "Discord Chat" origin
      else if Str.contains ":telegram:" session_key || py_eq_str channel "telegram"
      then chat_label "Telegram" "chatTitle" "Telegram Chat" origin
      else if Str.contains ":whatsapp:" session_key || py_eq_str channel "whatsapp"
      then chat_label "WhatsApp" "from" "WhatsApp Chat" origin
      else if Str.contains ":slack:" session_key || py_eq_str channel "slack"
      then chat_label "Slack" "channelName" "Slack Chat" origin
      else
        let parts := Str.split ":" session_key in
        if (2 <? length parts)%nat
        then Return (Str.join ":" (List.skipn 2 parts))
        else Return session_key
  end.

(* ===================================================================== *)
(** * The task summary ([server.py], lines 466-494) *)
(* ===================================================================== *)

(** Lines 483-487: the [text] of the text blocks, and the items that are
    strings themselves. *)
Fixpoint content_text_parts (content : list json) : list json :=
  match content with
  | [] => []
  | item :: rest =>
      match item with
      | JObj fields =>
          if py_eq_str (py_get "type" fields) "text"
          then py_get_d "text" (JStr "") fields :: content_text_parts rest
          else content_text_parts rest
      | JStr s => JStr s :: content_text_parts rest
      | _ => content_text_parts rest
      end
  end.

(** The operands of [str.join] must be strings. *)
Fixpoint all_strings (parts : list json) : py (list string) :=
  match parts with
  | [] => Return []
  | JStr s :: rest =>
      match all_strings rest with
      | Return strs => Return (s :: strs)
      | Raise e => Raise e
      end
  | _ :: _ => Raise TypeError
  end.

(** Lines 476-489 on one decoded entry: the task when the entry is a user
    message, [None] when the loop goes on to the next line. *)
Definition message_task (entry : json) : py (option json) :=
  e ← as_dict entry;
  if py_eq_str (py_get "type" e) "message" then
    msg ← as_dict (py_get_d "message" (JObj []) e);
    if py_eq_str (py_get "role" msg) "user" then
      content ←
        match py_get_d "content" (JStr "") msg with
        | JArr items =>
            text_parts ← all_strings (content_text_parts items);
            Return (JStr (Str.join (String "010" EmptyString) text_parts))
        | other => Return other
        end;
      match content with
      | JStr text => Return (Some (JStr (Str.take 500 (Str.strip text))))
      | _ => Raise AttributeError
      end
    else Return None
  else Return None.

(** The loop of lines 470-491: blank lines and lines that do not decode are
    passed over. *)
Fixpoint first_user_message (lines : list string) : py json :=
  match lines with
  | [] => Return JNull
  | line :: rest =>
      let line := Str.strip line in
      if String.eqb line "" then first_user_message rest
      else
        match json_loads line with
        | Raise JSONDecodeError => first_user_message rest
        | Raise e => Raise e
        | Return entry =>
            match message_task entry with
            | Raise JSONDecodeError => first_user_message rest
            | Raise e => Raise e
            | Return (Some task) => Return task
            | Return None => first_user_message rest
            end
        end
  end.

(** [extract_first_user_message] (lines 466-494; lines 68-95 of the
    script) on the content of an existing transcript. *)
Definition extract_first_user_message (data : bytes) : py json :=
  match text_lines data with
  | Raise OSError => Return JNull
  | Raise e => Raise e
  | Return lines => first_user_message lines
  end.

(* ===================================================================== *)
(** * Archive index and archival ([server.py], lines 831-929) *)
(* ===================================================================== *)

(** [load_archive_index] (lines 831-839): a missing or undecodable file
    reads as the empty index. *)
Definition load_archive_index (fs : FS) : ArchiveIndex :=
  match archive_index_json fs with
  | Parsed index => index
  | Missing | Corrupt => {| idx_sessions := []; idx_totalSize := 0 |}
  end.

(** [save_archive_index] (lines 842-846): the whole file is rewritten. *)
Definition save_archive_index (index : ArchiveIndex) (fs : FS) : FS :=
  set_archive_index_json (Parsed index) fs.

(** [sum(s.get('compressedSize', 0) for s in index['sessions'])]: Python's
    [sum] adds from the left, starting at 0. *)
Definition sum_compressed (entries : list ArchiveEntry) : Z :=
  fold_left (fun acc s => acc + ae_compressedSize s) entries 0.

(** [get_file_size_bytes] (lines 448-453): 0 for a file that is not there. *)
Definition get_file_size_bytes (files : gmap string bytes) (name : string) : Z :=
  match files !! name with
  | Some data => Z.of_nat (length data)
  | None => 0
  end.

(** Lines 855-864: the exact name first, else the first match of the
    glob; what the glob raises is raised, outside any [try]. *)
Definition find_transcript (fs : FS) (sid : string) : py (option string) :=
  let exact := sid +:+ ".jsonl" in
  match transcripts fs !! exact with
  | Some _ => Return (Some exact)
  | None =>
      match glob_jsonl (transcripts fs) sid with
      | Raise e => Raise e
      | Return (first :: _) => Return (Some first)
      | Return [] => Return None
      end
  end.

(** The glob accepts the pattern made of the session id of a session: it
    returns a list, whatever the directory holds. *)
Definition glob_accepts (session_key : string) (session_data : record) : Prop :=
  forall files,
    exists names,
      glob_jsonl files
        (py_str (py_get_d "sessionId" (JStr session_key) session_data))
      = Return names.

(** The reasons [archive_session] returns with [False]. The directory
    errors of lines 869-872 and the permission error of line 881 do not
    arise in this file model. *)
Inductive archive_error : Type :=
| TranscriptNotFound (name : string)
| CompressFailed
| ArchiveFailed (e : exn).

(** The row appended at lines 892-903. *)
Definition new_entry (now : Z) (session_key : string) (session_data : record)
    (session_id : json) (original_size compressed_size : Z) (task : json)
    : ArchiveEntry :=
  {| ae_key := session_key;
     ae_sessionId := session_id;
     ae_label := py_get_d "label" (JStr session_key) session_data;
     ae_archivedAt := now;
     ae_originalSize := original_size;
     ae_compressedSize := compressed_size;
     ae_updatedAt := py_get_d "updatedAt" (JNum 0) session_data;
     ae_model := py_get "model" session_data;
     ae_channel := py_or (py_get "channel" session_data)
                         (py_get "lastChannel" session_data);
     ae_task := task |}.

(** The body of the [try] of lines 885-920, run on the state in which the
    compressed file is written: the outcome and the state reached. *)
Definition archive_commit (now : Z) (session_key : string) (session_data : record)
    (session_id : json) (jsonl_file archive_file : string) (fs : FS)
    : py unit * FS :=
  let original_size := get_file_size_bytes (transcripts fs) jsonl_file in
  let compressed_size := get_file_size_bytes (artifacts fs) archive_file in
  let index := load_archive_index fs in
  match
    match transcripts fs !! jsonl_file with
    | Some data => extract_first_user_message data
    | None => Return JNull
    end
  with
  | Raise e => (Raise e, fs)
  | Return task =>
      let sessions :=
        (idx_sessions index
           ++ [new_entry now session_key session_data session_id
                 original_size compressed_size task])%list in
      let fs := save_archive_index
                  {| idx_sessions := sessions;
                     idx_totalSize := sum_compressed sessions |} fs in
      match transcripts fs !! jsonl_file with
      | None => (Raise OSError, fs)
      | Some _ =>
          let fs := set_transcripts (delete jsonl_file (transcripts fs)) fs in
          match sessions_json fs with
          | Missing => (Return tt, fs)
          | Corrupt => (Raise JSONDecodeError, fs)
          | Parsed (Catalog sessions) =>
              match dict_get session_key sessions with
              | Some _ =>
                  (Return tt,
                   set_sessions_json
                     (Parsed (Catalog (dict_del session_key sessions))) fs)
              | None => (Return tt, fs)
              end
          | Parsed (NoCatalog v) =>
              (* [session_key in sessions], then [del] on a string *)
              match scalar_has v session_key with
              | Raise e => (Raise e, fs)
              | Return true => (Raise TypeError, fs)
              | Return false => (Return tt, fs)
              end
          end
      end
  end.

(** [archive_session] (lines 849-929). [now] is [int(time.time() * 1000)].
    The call returns a pair, or raises what the glob of line 860 raises. *)
Definition archive_session (now : Z) (session_key : string) (session_data : record)
    (fs : FS) : py (bool * option archive_error) * FS :=
  let session_id := py_get_d "sessionId" (JStr session_key) session_data in
  let sid := py_str session_id in
  match find_transcript fs sid with
  | Raise e => (Raise e, fs)
  | Return None =>
      (Return (false, Some (TranscriptNotFound (sid +:+ ".jsonl"))), fs)
  | Return (Some jsonl_file) =>
      let archive_file := path_stem jsonl_file +:+ ".jsonl.gz" in
      match transcripts fs !! jsonl_file with
      | None => (Return (false, Some CompressFailed), fs)
      | Some data =>
          let fs := set_artifacts
                      (<[archive_file := gzip_compress data]> (artifacts fs)) fs in
          match archive_commit now session_key session_data session_id
                  jsonl_file archive_file fs with
          | (Return _, fs) => (Return (true, None), fs)
          | (Raise e, fs) =>
              (Return (false, Some (ArchiveFailed e)),
               set_artifacts (delete archive_file (artifacts fs)) fs)
          end
      end
  end.

(* ===================================================================== *)
(** * Restoration ([server.py], lines 932-992) *)
(* ===================================================================== *)

(** Line 942: [s['key'] == session_key or s.get('sessionId') == session_key]. *)
Definition entry_matches (session_key : string) (s : ArchiveEntry) : bool :=
  String.eqb (ae_key s) session_key || py_eq_str (ae_sessionId s) session_key.

(** The catalog row of lines 969-976. *)
Definition restored_row (now : Z) (session_info : ArchiveEntry) : record :=
  [ ("sessionId", ae_sessionId session_info);
    ("label", ae_label session_info);
    ("updatedAt", ae_updatedAt session_info);
    ("model", ae_model session_info);
    ("channel", ae_channel session_info);
    ("restoredAt", JNum now) ].

(** [restore_session] (lines 932-992). *)
Definition restore_session (now : Z) (session_key : string) (fs : FS) : bool * FS :=
  let index := load_archive_index fs in
  match List.find (entry_matches session_key) (idx_sessions index) with
  | None => (false, fs)
  | Some session_info =>
      let sid := py_str (ae_sessionId session_info) in
      let archive_file := sid +:+ ".jsonl.gz" in
      match artifacts fs !! archive_file with
      | None => (false, fs)
      | Some compressed =>
          let jsonl_file := sid +:+ ".jsonl" in
          match gzip_decompress compressed with
          | Broken partial =>
              (false, set_transcripts (<[jsonl_file := partial]> (transcripts fs)) fs)
          | Inflated data =>
              let fs := set_transcripts (<[jsonl_file := data]> (transcripts fs)) fs in
              match sessions_json fs with
              | Corrupt | Parsed (NoCatalog _) => (false, fs)
              | (Missing | Parsed (Catalog _)) as present =>
                  let sessions :=
                    match present with Parsed (Catalog c) => c | _ => [] end in
                  let fs := set_sessions_json
                              (Parsed (Catalog
                                         (dict_set (ae_key session_info)
                                            (restored_row now session_info)
                                            sessions))) fs in
                  let fs := set_artifacts (delete archive_file (artifacts fs)) fs in
                  let kept :=
                    List.filter (fun s => negb (String.eqb (ae_key s) session_key))
                                (idx_sessions index) in
                  (true,
                   save_archive_index
                     {| idx_sessions := kept; idx_totalSize := sum_compressed kept |} fs)
              end
          end
      end
  end.

(* ===================================================================== *)
(** * The archive script ([scripts/archive-sessions.py], lines 98-165) *)
(* ===================================================================== *)

(** The script's [archive_session]: one [try] around compression and
    bookkeeping, a boolean result, and no clean-up of the compressed file
    when the bookkeeping raises. [dry_run] stops after the transcript is
    found. *)
Definition script_archive_session (now : Z) (session_key : string)
    (session_data : record) (dry_run : bool) (fs : FS) : py bool * FS :=
  let session_id := py_get_d "sessionId" (JStr session_key) session_data in
  let sid := py_str session_id in
  match find_transcript fs sid with
  | Raise e => (Raise e, fs)
  | Return None => (Return false, fs)
  | Return (Some jsonl_file) =>
      if dry_run then (Return true, fs)
      else
        let archive_file := path_stem jsonl_file +:+ ".jsonl.gz" in
        match transcripts fs !! jsonl_file with
        | None => (Return false, fs)
        | Some data =>
            let fs := set_artifacts
                        (<[archive_file := gzip_compress data]> (artifacts fs)) fs in
            match archive_commit now session_key session_data session_id
                    jsonl_file archive_file fs with
            | (Return _, fs) => (Return true, fs)
            | (Raise _, fs) => (Return false, fs)
            end
        end
  end.

(* ===================================================================== *)
(** * Retention ([server.py], lines 1964-1995; the script, lines 197-235) *)
(* ===================================================================== *)

(** The [retentionDays] setting as [handle_save_settings] stores it. *)
Inductive retention : Type :=
| Never
| Days (d : Z).

(** [cutoff_ms] (line 1975; line 198 of the script). *)
Definition cutoff_ms (now retention_days : Z) : Z :=
  now - retention_days * 24 * 60 * 60 * 1000.

(** [session.get('updatedAt', 0) < cutoff_ms] (lines 1987-1988; lines
    215-216 of the script). *)
Definition expired (cutoff : Z) (session : record) : py bool :=
  py_lt_int (py_get_d "updatedAt" (JNum 0) session) cutoff.

(** The script's [to_archive] (lines 213-217). *)
Fixpoint to_archive (cutoff : Z) (sessions : dict record)
    : py (list (string * record)) :=
  match sessions with
  | [] => Return []
  | (key, session) :: rest =>
      match expired cutoff session with
      | Raise e => Raise e
      | Return old =>
          match to_archive cutoff rest with
          | Raise e => Raise e
          | Return selected =>
              Return (if old then (key, session) :: selected else selected)
          end
      end
  end.

(** The loop of lines 1986-1990 over the catalog read at line 1983.
    [clock key] is the time at which the session [key] is archived. *)
Fixpoint sweep_loop (clock : string -> Z) (cutoff : Z)
    (items : list (string * record)) (archived_count : Z) (fs : FS)
    : py Z * FS :=
  match items with
  | [] => (Return archived_count, fs)
  | (key, session) :: rest =>
      match expired cutoff session with
      | Raise e => (Raise e, fs)
      | Return false => sweep_loop clock cutoff rest archived_count fs
      | Return true =>
          match archive_session (clock key) key session fs with
          | (Raise e, fs) => (Raise e, fs)
          | (Return result, fs) =>
              sweep_loop clock cutoff rest
                (if tuple_truthy result then archived_count + 1
                 else archived_count) fs
          end
      end
  end.

(** What [handle_run_archive] sends. *)
Inductive sweep_response : Type :=
| SweepDone (archived : Z) (message : option string)
| SweepError (e : exn).

(** [handle_run_archive] (lines 1964-1995), from the setting read at line
    1968. *)
Definition handle_run_archive (retention_days : retention) (now : Z)
    (clock : string -> Z) (fs : FS) : sweep_response * FS :=
  match retention_days with
  | Never => (SweepDone 0 (Some "Retention set to never"), fs)
  | Days d =>
      let cutoff := cutoff_ms now d in
      match sessions_json fs with
      | Missing => (SweepDone 0 None, fs)
      | Corrupt => (SweepError JSONDecodeError, fs)
      | Parsed (Catalog sessions) =>
          match sweep_loop clock cutoff sessions 0 fs with
          | (Return n, fs) => (SweepDone n None, fs)
          | (Raise e, fs) => (SweepError e, fs)
          end
      | Parsed (NoCatalog _) => (SweepError AttributeError, fs)
      end
  end.

(** The script's counting loop (lines 226-229): its [archive_session]
    returns a boolean, which is what the [if] tests; what it raises ends
    the loop. *)
Fixpoint script_loop (clock : string -> Z) (dry_run : bool)
    (selected : list (string * record)) (archived_count : Z) (fs : FS)
    : py Z * FS :=
  match selected with
  | [] => (Return archived_count, fs)
  | (key, session) :: rest =>
      match script_archive_session (clock key) key session dry_run fs with
      | (Raise e, fs) => (Raise e, fs)
      | (Return ok, fs) =>
          script_loop clock dry_run rest
            (if ok then archived_count + 1 else archived_count) fs
      end
  end.

(** The script's [main] from line 197 on: [None] when it returns before
    counting, the count otherwise; an exception ends the process. *)
Definition script_main (retention_days : Z) (dry_run : bool) (now : Z)
    (clock : string -> Z) (fs : FS) : py (option Z) * FS :=
  let cutoff := cutoff_ms now retention_days in
  match sessions_json fs with
  | Missing => (Return None, fs)
  | Corrupt => (Raise JSONDecodeError, fs)
  | Parsed (Catalog sessions) =>
      match to_archive cutoff sessions with
      | Raise e => (Raise e, fs)
      | Return [] => (Return None, fs)
      | Return selected =>
          match script_loop clock dry_run selected 0 fs with
          | (Return n, fs) => (Return (Some n), fs)
          | (Raise e, fs) => (Raise e, fs)
          end
      end
  | Parsed (NoCatalog _) => (Raise AttributeError, fs)
  end.

(* ===================================================================== *)
(** * Operations on one storage root *)
(* ===================================================================== *)

(** The operations that write to a storage root. *)
Inductive op : Type :=
| OpArchive (now : Z) (session_key : string) (session_data : record)
| OpRestore (now : Z) (session_key : string)
| OpScriptArchive (now : Z) (session_key : string) (session_data : record)
    (dry_run : bool)
| OpSweep (retention_days : retention) (now : Z) (clock : string -> Z).

Definition run_op (o : op) (fs : FS) : FS :=
  match o with
  | OpArchive now key data => snd (archive_session now key data fs)
  | OpRestore now key => snd (restore_session now key fs)
  | OpScriptArchive now key data dry_run =>
      snd (script_archive_session now key data dry_run fs)
  | OpSweep r now clock => snd (handle_run_archive r now clock fs)
  end.

Definition run_ops (ops : list op) (fs : FS) : FS :=
  fold_left (fun fs o => run_op o fs) ops fs.

(** The sum of [compressedSize] over the rows of an index. *)
Definition total_compressed (entries : list ArchiveEntry) : Z :=
  fold_right Z.add 0 (map ae_compressedSize entries).

(** The size-accounting invariant of the archive index. *)
Definition index_ok (index : ArchiveIndex) : Prop :=
  idx_totalSize index = total_compressed (idx_sessions index).

(** What an operation may do to archive-index.json: leave the file as it
    is, or rewrite it with a recomputed total. *)
Definition index_step (fs fs' : FS) : Prop :=
  archive_index_json fs' = archive_index_json fs
  \/ exists index, archive_index_json fs' = Parsed index /\ index_ok index.

(* ===================================================================== *)
(** * The session list ([server.py], lines 429-445 and 1997-2119) *)
(* ===================================================================== *)

(** [Path(path_str).name] on a truthy value. *)
Variable pathlib_name : json -> py json.

(** Lines 2073-2085: the row's [status] and [ageMs]; they read the clock
    and compare against [float('inf')]. *)
Variable row_status_age : record -> py (json * json).

(** Line 2090: the row's [usagePct], a rounded float, from [totalTokens]
    and [contextTokens]. *)
Variable row_usage_pct : json -> json -> py json.

(** Lines 2093-2098: the row's [node], from the record or the host name. *)
Variable row_node : record -> py json.

(** [sanitize_path] (lines 422-426). *)
Definition sanitize_path (path_str : json) : py json :=
  if py_truthy path_str then pathlib_name path_str else Return path_str.

(** Lines 434-438, for the fields still to visit. *)
Fixpoint sanitize_fields (path_fields : list string) (sanitized : record)
    : py record :=
  match path_fields with
  | [] => Return sanitized
  | field :: rest =>
      match dict_get field sanitized with
      | None => sanitize_fields rest sanitized
      | Some v =>
          match sanitize_path v with
          | Raise e => Raise e
          | Return name => sanitize_fields rest (dict_set field name sanitized)
          end
      end
  end.

(** [sanitize_session] (lines 429-445). *)
Definition sanitize_session (session : record) : py record :=
  match sanitize_fields ["transcriptPath"; "filePath"; "path"; "sessionPath"]
          session with
  | Raise e => Raise e
  | Return sanitized =>
      Return (fold_left (fun d field => dict_del field d)
                ["_internal"; "fullPath"; "absolutePath"] sanitized)
  end.

(** [':run:' in key] (line 2018) for whatever [s.get('key', '')] holds: a
    substring test on a string, a membership test on a list or a
    dictionary, a [TypeError] otherwise. *)
Definition run_marker_in (key : json) : py bool :=
  match key with
  | JStr k => Return (Str.contains ":run:" k)
  | JArr items => Return (existsb (fun x => py_eq_str x ":run:") items)
  | JObj fields =>
      Return (match dict_get ":run:" fields with Some _ => true | None => false end)
  | JNull | JBool _ | JNum _ => Raise TypeError
  end.

(** Lines 2021-2071: the label and the agent name of a session. The table
    [subagent_names] of line 2010 is empty, so [agent_name] starts as
    [None] and stays so until a branch sets it. *)
Definition resolve_label (cron_names : dict json) (main_agent_name : json)
    (key : string) (s : record) : py (json * json) :=
  let label := py_or (py_get "label" s) (py_get_d "displayName" (JStr "") s) in
  let key_parts := Str.split ":" key in
  let agent_id_from_key := nth_error key_parts 1 in
  if Str.contains ":spawn:" key || Str.contains ":subagent:" key then
    stored ← truthy_str AttributeError (py_get_d "label" (JStr "") s);
    let usable : option string :=
      match stored with
      | Some l => if Str.startswith "agent:" l then None else Some l
      | None => None
      end in
    match usable with
    | Some stored_label =>
        Return (JStr stored_label,
                JStr (if Str.contains "-" stored_label
                      then Str.lower (hd EmptyString (Str.split "-" stored_label))
                      else Str.lower stored_label))
    | None =>
        let parts :=
          if Str.contains ":spawn:" key
          then Str.split ":spawn:" key else Str.split ":subagent:" key in
        match nth_error parts 1 with
        | Some spawn_label =>
            Return (JStr spawn_label,
                    JStr (Str.lower (hd EmptyString (Str.split "-" spawn_label))))
        | None => Return (label, JNull)
        end
    end
  else if Str.contains ":cron:" key then
    let cron_id :=
      hd EmptyString
         (Str.split ":" (List.last (Str.split ":cron:" key) EmptyString)) in
    match dict_get cron_id cron_names with
    | Some name => Return (JStr ("Cron: " +:+ py_str name), JStr "cron")
    | None => Return (JStr "Cron Job", JStr "cron")
    end
  else if String.eqb key "agent:main:main" then
    Return (JStr (py_str main_agent_name +:+ " (main)"), JStr "main")
  else if Str.contains ":signal:" key || Str.contains ":discord:" key
          || Str.contains ":telegram:" key || Str.contains ":whatsapp:" key
          || Str.contains ":slack:" key then
    friendly ← parse_friendly_session_label key s;
    Return (JStr friendly,
            match agent_id_from_key with
            | Some agent_id => if String.eqb agent_id "main" then JStr "main" else JNull
            | None => JNull
            end)
  else if py_truthy label then Return (label, JNull)
  else
    friendly ← parse_friendly_session_label key s;
    Return (JStr friendly, JNull).

(** The default of [sizeFormatted] at line 2115, as the bytes of the file. *)
Definition no_size : string :=
  String "226" (String "128" (String "154" (String "195" (String "132"
    (String "195" (String "174" EmptyString)))))).

(** One pass of the loop body after the [continue] (lines 2021-2117). *)
Definition transform_row (cron_names : dict json) (main_agent_name : json)
    (key : string) (s : record) : py record :=
  '(label, agent_name) ← resolve_label cron_names main_agent_name key s;
  '(status, age_ms) ← row_status_age s;
  let total_tokens := py_get_d "totalTokens" (JNum 0) s in
  let context_tokens := py_get_d "contextTokens" (JNum 200000) s in
  usage_pct ← row_usage_pct total_tokens context_tokens;
  node ← row_node s;
  sanitize_session
    [ ("id", py_or (py_get "sessionId" s) (JStr key));
      ("key", JStr key);
      ("label", label);
      ("agentName", agent_name);
      ("status", status);
      ("updatedAt", py_get_d "updatedAt" (JNum 0) s);
      ("ageMs", age_ms);
      ("channel", py_or (py_get "channel" s)
                        (py_get_d "lastChannel" (JStr "unknown") s));
      ("model", py_get_d "model" (JStr "unknown") s);
      ("totalTokens", total_tokens);
      ("contextTokens", context_tokens);
      ("usagePct", usage_pct);
      ("node", node);
      ("sizeBytes", py_get_d "sizeBytes" (JNum 0) s);
      ("sizeFormatted", py_get_d "sizeFormatted" (JStr no_size) s);
      ("task", py_get "task" s) ].

(** [transform_sessions] (lines 1997-2119) on the list of raw sessions. *)
Fixpoint transform_sessions (cron_names : dict json) (main_agent_name : json)
    (raw_sessions : list record) : py (list record) :=
  match raw_sessions with
  | [] => Return []
  | s :: rest =>
      let key := py_get_d "key" (JStr "") s in
      match run_marker_in key with
      | Raise e => Raise e
      | Return true => transform_sessions cron_names main_agent_name rest
      | Return false =>
          match key with
          | JStr k =>
              match transform_row cron_names main_agent_name k s with
              | Raise e => Raise e
              | Return row =>
                  match transform_sessions cron_names main_agent_name rest with
                  | Raise e => Raise e
                  | Return rows => Return (row :: rows)
                  end
              end
          | _ => Raise AttributeError
          end
      end
  end.

(* ===================================================================== *)
(** * Equality and integers of decoded values *)
(* ===================================================================== *)

(** [a == b] on decoded JSON values: booleans compare as the integers 0 and
    1, lists element by element, dictionaries key by key (their keys are
    distinct), and values of different kinds are unequal. *)
Fixpoint py_eq (a b : json) {struct a} : bool :=
  match a, b with
  | JNull, JNull => true
  | JBool x, JBool y => Bool.eqb x y
  | JBool x, JNum n => Z.eqb (Z.b2z x) n
  | JNum n, JBool y => Z.eqb n (Z.b2z y)
  | JNum n, JNum m => Z.eqb n m
  | JStr s, JStr t => String.eqb s t
  | JArr items, JArr others =>
      (fix each (l m : list json) : bool :=
         match l, m with
         | [], [] => true
         | x :: l', y :: m' => py_eq x y && each l' m'
         | _, _ => false
         end) items others
  | JObj fields, JObj others =>
      Nat.eqb (length fields) (length others)
      && (fix each (l : list (string * json)) : bool :=
            match l with
            | [] => true
            | (k, v) :: l' =>
                match dict_get k others with
                | Some w => py_eq v w
                | None => false
                end && each l'
            end) fields
  | _, _ => false
  end.

(** [int(s)] on a string: the integer it spells, or [ValueError]. *)
Variable int_of_str : string -> py Z.

(** [int] raises nothing else on a string. *)
Hypothesis int_of_str_raises_value_error :
  forall s e, int_of_str s = Raise e -> e = ValueError.

(** [int(v)] on a decoded value: [TypeError] on [None], lists and
    dictionaries. *)
Definition py_int (v : json) : py Z :=
  match v with
  | JNum z => Return z
  | JBool b => Return (Z.b2z b)
  | JStr s => int_of_str s
  | JNull | JArr _ | JObj _ => Raise TypeError
  end.

(* ===================================================================== *)
(** * Versions ([server.py], lines 684-696) *)
(* ===================================================================== *)

(** [[int(p) for p in parts]], left to right. *)
Fixpoint ints_of (parts : list string) : py (list Z) :=
  match parts with
  | [] => Return []
  | p :: rest =>
      match int_of_str p with
      | Raise e => Raise e
      | Return n =>
          match ints_of rest with
          | Raise e => Raise e
          | Return ns => Return (n :: ns)
          end
      end
  end.

(** [parse_version] (lines 686-689): what precedes the first hyphen, cut at
    the dots, at most three parts. A value that is not a string has no
    [split]. *)
Definition parse_version (v : json) : py (list Z) :=
  match v with
  | JStr s =>
      ints_of (firstn 3 (Str.split "." (hd EmptyString (Str.split "-" s))))
  | _ => Raise AttributeError
  end.

(** [a > b] on lists of integers: the first difference decides, and a list
    is greater than its proper prefixes. *)
Fixpoint list_gt (a b : list Z) : bool :=
  match a, b with
  | [], _ => false
  | _ :: _, [] => true
  | x :: a', y :: b' => if Z.eqb x y then list_gt a' b' else Z.ltb y x
  end.

(** [compare_versions] (lines 684-696): [ValueError] answers [False]
    (so would [IndexError], which nothing in [parse_version] raises: a
    split has a first part and a slice is never out of range); anything
    else propagates. *)
Definition compare_versions (current latest : json) : py bool :=
  match parse_version current with
  | Raise ValueError => Return false
  | Raise e => Raise e
  | Return curr_parts =>
      match parse_version latest with
      | Raise ValueError => Return false
      | Raise e => Raise e
      | Return latest_parts => Return (list_gt latest_parts curr_parts)
      end
  end.

(* ===================================================================== *)
(** * Settings ([server.py], lines 655-668, 825-828, 1849-1879) *)
(* ===================================================================== *)

(** What a handler sends: a JSON body with status 200, [send_error_json]
    with a fixed message, the same with the text of an exception caught at
    the handler's boundary, and the failure message of [archive_session]. *)
Inductive response : Type :=
| SendJson (data : json)
| SendError (code : Z) (message : string)
| SendRaised (e : exn)
| SendArchiveFailure (e : option archive_error).

(** [load_settings] (lines 655-668): the defaults when settings.json is
    missing or does not decode. *)
Definition load_settings (settings_file : json_file json) : json :=
  match settings_file with
  | Parsed settings => settings
  | Missing | Corrupt =>
      JObj [("retentionDays", JStr "never"); ("autoArchive", JBool true);
            ("pageSize", JNum 20)]
  end.

(** [page_size not in [10, 25, 50, 100]]. *)
Definition valid_page_size (page_size : json) : bool :=
  existsb (fun n => py_eq page_size (JNum n)) [10; 25; 50; 100].

(** [handle_save_settings] (lines 1849-1879). [body] is the outcome of
    reading and decoding the request body (lines 1852-1854). The result is
    what is sent and the settings file afterwards. *)
Definition handle_save_settings (body : py json) (settings_file : json_file json)
    : response * json_file json :=
  match body with
  | Raise e => (SendRaised e, settings_file)
  | Return (JObj new_settings) =>
      let retention := py_get "retentionDays" new_settings in
      let checked : response + record :=
        if py_eq_str retention "never" then inr new_settings
        else
          match py_int retention with
          | Raise ValueError | Raise TypeError =>
              inl (SendError 400 "Invalid retention period")
          | Raise e => inl (SendRaised e)
          | Return retention_int =>
              if Z.ltb retention_int 1
              then inl (SendError 400 "Retention days must be positive")
              else inr (dict_set "retentionDays" (JNum retention_int) new_settings)
          end in
      match checked with
      | inl sent => (sent, settings_file)
      | inr new_settings =>
          let page_size := py_get_d "pageSize" (JNum 20) new_settings in
          let new_settings :=
            if valid_page_size page_size then new_settings
            else dict_set "pageSize" (JNum 20) new_settings in
          (SendJson (JObj [("success", JBool true);
                           ("settings", JObj new_settings)]),
           Parsed (JObj new_settings))
      end
  | Return _ => (SendRaised AttributeError, settings_file)
  end.

(** [handle_run_archive] (lines 1964-1995) from the settings file on: lines
    1967-1974 read the retention, the rest is [handle_run_archive] above. *)
Definition handle_run_archive_request (settings_file : json_file json) (now : Z)
    (clock : string -> Z) (fs : FS) : sweep_response * FS :=
  match load_settings settings_file with
  | JObj settings =>
      let retention_days := py_get_d "retentionDays" (JStr "never") settings in
      if py_eq_str retention_days "never"
      then handle_run_archive Never now clock fs
      else
        match py_int retention_days with
        | Raise e => (SweepError e, fs)
        | Return d => handle_run_archive (Days d) now clock fs
        end
  | _ => (SweepError AttributeError, fs)
  end.

(* ===================================================================== *)
(** * Authentication ([server.py], lines 371-406, 1065-1097, 1154-1159) *)
(* ===================================================================== *)

(** [get_auth_mode] (lines 371-377) on [APP_CONFIG]. *)
Definition get_auth_mode (app_config : record) : json :=
  let mode := py_get_d "authMode" (JStr "login") app_config in
  if existsb (py_eq mode) [JStr "none"; JStr "key"; JStr "login"; JStr "both"]
  then mode
  else JStr "login".

(** [is_auth_enabled] (lines 380-386). *)
Definition is_auth_enabled (app_config : record) : bool :=
  if py_eq_str (get_auth_mode app_config) "none" then false
  else py_truthy (py_get "dashboardToken" app_config).

(** [is_read_only] (lines 389-391): the configured value itself. *)
Definition is_read_only (app_config : record) : json :=
  py_get_d "readOnly" (JBool false) app_config.

(** [hashlib.sha256(s.encode()).hexdigest()]. *)
Variable sha256_hex : string -> string.

(** [hash_token] (lines 394-398). *)
Definition hash_token (token : json) : string :=
  sha256_hex ("openclaw-dashboard:" +:+ py_str token).

(** [validate_token_hash] (lines 401-406) as [check_auth] uses it, inside
    its [try]: [compare_digest] refuses a string that is not ASCII, which
    [check_auth] takes as a mismatch. *)
Definition validate_token_hash (app_config : record) (token_hash : string) : bool :=
  if String.eqb token_hash "" || negb (py_truthy (py_get "dashboardToken" app_config))
  then false
  else String.eqb token_hash (hash_token (py_get "dashboardToken" app_config)).

(** What the handlers read of a request: the path of the URL, the
    [Authorization] header ([''] when absent), the first [key] parameter
    of the query, the value of the [dashboard_auth] cookie when the
    [Cookie] header loads and holds one, and the outcome of reading and
    decoding the body. *)
Record request : Type := {
  req_path : string;
  req_authorization : string;
  req_key : option string;
  req_cookie : option string;
  req_body : py json
}.

(** [check_auth] (lines 1065-1097). *)
Definition check_auth (app_config : record) (req : request) : bool :=
  if negb (is_auth_enabled app_config) then true
  else
    let token := py_get "dashboardToken" app_config in
    let auth_header := req_authorization req in
    if Str.startswith "Bearer " auth_header
       && py_eq_str token (Str.drop 7 auth_header)
    then true
    else if match req_key req with
            | Some key_param =>
                negb (String.eqb key_param "") && py_eq_str token key_param
            | None => false
            end
    then true
    else
      match req_cookie req with
      | Some token_hash => validate_token_hash app_config token_hash
      | None => false
      end.

(* ===================================================================== *)
(** * The POST handlers ([server.py], lines 1229-1257, 1906-1962) *)
(* ===================================================================== *)

(** [restore_session] (lines 932-992) on any decoded identifier, as
    [handle_restore_session] passes it: the comparisons of lines 942 and
    985 are [==] on whatever the body held. *)
Definition restore_session_any (now : Z) (session_key : json) (fs : FS)
    : bool * FS :=
  let index := load_archive_index fs in
  match List.find (fun s => py_eq (JStr (ae_key s)) session_key
                            || py_eq (ae_sessionId s) session_key)
                  (idx_sessions index) with
  | None => (false, fs)
  | Some session_info =>
      let sid := py_str (ae_sessionId session_info) in
      let archive_file := sid +:+ ".jsonl.gz" in
      match artifacts fs !! archive_file with
      | None => (false, fs)
      | Some compressed =>
          let jsonl_file := sid +:+ ".jsonl" in
          match gzip_decompress compressed with
          | Broken partial =>
              (false, set_transcripts (<[jsonl_file := partial]> (transcripts fs)) fs)
          | Inflated data =>
              let fs := set_transcripts (<[jsonl_file := data]> (transcripts fs)) fs in
              match sessions_json fs with
              | Corrupt | Parsed (NoCatalog _) => (false, fs)
              | (Missing | Parsed (Catalog _)) as present =>
                  let sessions :=
                    match present with Parsed (Catalog c) => c | _ => [] end in
                  let fs := set_sessions_json
                              (Parsed (Catalog
                                         (dict_set (ae_key session_info)
                                            (restored_row now session_info)
                                            sessions))) fs in
                  let fs := set_artifacts (delete archive_file (artifacts fs)) fs in
                  let kept :=
                    List.filter (fun s => negb (py_eq (JStr (ae_key s)) session_key))
                                (idx_sessions index) in
                  (true,
                   save_archive_index
                     {| idx_sessions := kept; idx_totalSize := sum_compressed kept |} fs)
              end
          end
      end
  end.

(** [handle_archive_session] (lines 1906-1940). A number or a boolean is
    hashable and is no key of a decoded object; a list or a dictionary is
    not hashable, and [in] raises. *)
Definition handle_archive_session (now : Z) (body : py json) (fs : FS)
    : response * FS :=
  match body with
  | Raise e => (SendRaised e, fs)
  | Return (JObj data) =>
      let session_key := py_get "sessionKey" data in
      if negb (py_truthy session_key)
      then (SendError 400 "sessionKey required", fs)
      else
        match sessions_json fs with
        | Missing => (SendError 404 "Sessions file not found", fs)
        | Corrupt => (SendRaised JSONDecodeError, fs)
        | Parsed (Catalog sessions) =>
            match session_key with
            | JStr key =>
                match dict_get key sessions with
                | None => (SendError 404 "Session not found in sessions.json", fs)
                | Some session_data =>
                    match archive_session now key session_data fs with
                    | (Raise e, fs) => (SendRaised e, fs)
                    | (Return (success, error_msg), fs) =>
                        if success
                        then (SendJson (JObj [("success", JBool true)]), fs)
                        else (SendArchiveFailure error_msg, fs)
                    end
                end
            | JArr _ | JObj _ => (SendRaised TypeError, fs)
            | _ => (SendError 404 "Session not found in sessions.json", fs)
            end
        | Parsed (NoCatalog v) =>
            (* [in] on a value that is no object: a substring test when
               both are strings, and then [sessions[session_key]] raises *)
            match session_key with
            | JStr key =>
                match scalar_has v key with
                | Raise e => (SendRaised e, fs)
                | Return true => (SendRaised TypeError, fs)
                | Return false =>
                    (SendError 404 "Session not found in sessions.json", fs)
                end
            | _ => (SendRaised TypeError, fs)
            end
        end
  | Return _ => (SendRaised AttributeError, fs)
  end.

(** [handle_restore_session] (lines 1942-1962). *)
Definition handle_restore_session (now : Z) (body : py json) (fs : FS)
    : response * FS :=
  match body with
  | Raise e => (SendRaised e, fs)
  | Return (JObj data) =>
      let session_key := py_get "sessionKey" data in
      if negb (py_truthy session_key)
      then (SendError 400 "sessionKey required", fs)
      else
        let '(success, fs) := restore_session_any now session_key fs in
        if success
        then (SendJson (JObj [("success", JBool true)]), fs)
        else (SendError 500 "Failed to restore session", fs)
  | Return _ => (SendRaised AttributeError, fs)
  end.

(** What a POST request leaves behind: what was sent (a sweep sends its
    own answer), the storage root and the settings file. *)
Inductive sent : Type :=
| Sent (r : response)
| SentSweep (r : sweep_response).

(** [do_POST] (lines 1229-1257); [check_write_permission] (lines
    1154-1159) is the test of [is_read_only]. *)
Definition do_POST (app_config : record) (now : Z) (clock : string -> Z)
    (req : request) (fs : FS) (settings_file : json_file json)
    : sent * FS * json_file json :=
  let path := req_path req in
  let read_only :=
    (Sent (SendError 403 "Dashboard is in read-only mode"), fs, settings_file) in
  if String.eqb path "/api/logout"
  then (Sent (SendJson (JObj [("success", JBool true)])), fs, settings_file)
  else if Str.startswith "/api/" path && negb (check_auth app_config req)
  then (Sent (SendError 401 "Unauthorized. Please provide a valid token."),
        fs, settings_file)
  else if String.eqb path "/api/settings"
  then
    let '(r, settings_file) := handle_save_settings (req_body req) settings_file in
    (Sent r, fs, settings_file)
  else if String.eqb path "/api/archive"
  then
    if py_truthy (is_read_only app_config) then read_only
    else
      let '(r, fs) := handle_archive_session now (req_body req) fs in
      (Sent r, fs, settings_file)
  else if String.eqb path "/api/restore"
  then
    if py_truthy (is_read_only app_config) then read_only
    else
      let '(r, fs) := handle_restore_session now (req_body req) fs in
      (Sent r, fs, settings_file)
  else if String.eqb path "/api/run-archive"
  then
    if py_truthy (is_read_only app_config) then read_only
    else
      let '(r, fs) := handle_run_archive_request settings_file now clock fs in
      (SentSweep r, fs, settings_file)
  else (Sent (SendError 404 "Not found"), fs, settings_file).

(** A POST request that carries no credentials. *)
Definition anonymous_post (path : string) (body : json) : request :=
  {| req_path := path;
     req_authorization := EmptyString;
     req_key := None;
     req_cookie := None;
     req_body := Return body |}.

(* ===================================================================== *)
(** * Transcript views ([server.py], lines 995-1056, 1700-1842, 1898-1904) *)
(* ===================================================================== *)

(** [f"[Called: {tool_name}]"]. *)
Definition called (tool_name : json) : json :=
  JStr ("[Called: " +:+ py_str tool_name +:+ "]").

(** Lines 1743-1755 of [handle_session_history]: the text of text blocks,
    nothing for thinking blocks, the name of a tool call, and the items
    that are strings themselves. *)
Fixpoint history_text_parts (content : list json) : list json :=
  match content with
  | [] => []
  | item :: rest =>
      match item with
      | JObj fields =>
          if py_eq_str (py_get "type" fields) "text"
          then py_get_d "text" (JStr "") fields :: history_text_parts rest
          else if py_eq_str (py_get "type" fields) "thinking"
          then history_text_parts rest
          else if py_eq_str (py_get "type" fields) "toolCall"
          then called (py_get_d "name" (JStr "tool") fields) :: history_text_parts rest
          else history_text_parts rest
      | JStr s => JStr s :: history_text_parts rest
      | _ => history_text_parts rest
      end
  end.

(** Lines 1034-1042 of [read_archived_transcript]: the same loop without a
    branch for thinking blocks. *)
Fixpoint archived_text_parts (content : list json) : list json :=
  match content with
  | [] => []
  | item :: rest =>
      match item with
      | JObj fields =>
          if py_eq_str (py_get "type" fields) "text"
          then py_get_d "text" (JStr "") fields :: archived_text_parts rest
          else if py_eq_str (py_get "type" fields) "toolCall"
          then called (py_get_d "name" (JStr "tool") fields) :: archived_text_parts rest
          else archived_text_parts rest
      | JStr s => JStr s :: archived_text_parts rest
      | _ => archived_text_parts rest
      end
  end.

(** Lines 1730-1763 (and 1024-1050) on one decoded entry: the history item
    it contributes, if any. [text_parts] is the loop over a content list. *)
Definition history_message (text_parts : list json -> list json) (entry : json)
    : py (option record) :=
  e ← as_dict entry;
  if py_eq_str (py_get "type" e) "message" then
    match dict_get "message" e with
    | None => Return None
    | Some message =>
        msg ← as_dict message;
        let role := py_get_d "role" (JStr "unknown") msg in
        if py_eq_str role "toolResult" then Return None
        else
          content ←
            match py_get_d "content" (JStr "") msg with
            | JArr items =>
                parts ← all_strings (text_parts items);
                Return (JStr (Str.join (String "010" EmptyString) parts))
            | other => Return other
            end;
          if py_truthy content
          then Return (Some [("role", role); ("content", content);
                             ("timestamp", py_get "timestamp" e)])
          else Return None
    end
  else Return None.

(** The loop of lines 1723-1765 (and 1018-1052): blank lines and lines that
    do not decode are passed over, any other exception ends the loop. *)
Fixpoint history_loop (text_parts : list json -> list json) (lines : list string)
    : py (list record) :=
  match lines with
  | [] => Return []
  | line :: rest =>
      let line := Str.strip line in
      if String.eqb line "" then history_loop text_parts rest
      else
        match json_loads line with
        | Raise JSONDecodeError => history_loop text_parts rest
        | Raise e => Raise e
        | Return entry =>
            match history_message text_parts entry with
            | Raise JSONDecodeError => history_loop text_parts rest
            | Raise e => Raise e
            | Return item =>
                match history_loop text_parts rest with
                | Raise e => Raise e
                | Return history =>
                    Return (match item with
                            | Some message => message :: history
                            | None => history
                            end)
                end
            end
        end
  end.

(** [read_archived_transcript] (lines 995-1056): [None] when the session is
    not in the index, when its compressed file is missing, and on any
    exception while reading. *)
Definition read_archived_transcript (session_key : string) (fs : FS)
    : option (list record) :=
  let index := load_archive_index fs in
  match List.find (entry_matches session_key) (idx_sessions index) with
  | None => None
  | Some session_info =>
      let archive_file := py_str (ae_sessionId session_info) +:+ ".jsonl.gz" in
      match artifacts fs !! archive_file with
      | None => None
      | Some compressed =>
          match gzip_decompress compressed with
          | Broken _ => None
          | Inflated data =>
              match text_lines data with
              | Raise _ => None
              | Return lines =>
                  match history_loop archived_text_parts lines with
                  | Raise _ => None
                  | Return history => Some history
                  end
              end
          end
      end
  end.

(** The body [{'history': history}]. *)
Definition history_body (history : list record) : json :=
  JObj [("history", JArr (map JObj history))].

(** [handle_archived_history] (lines 1898-1904). *)
Definition handle_archived_history (session_id : string) (fs : FS) : response :=
  match read_archived_transcript session_id fs with
  | Some history => SendJson (history_body history)
  | None =>
      SendJson (JObj [("history", JArr []);
                      ("error", JStr "Archived session not found")])
  end.

(** Lines 1706-1715 (and 1779-1788): the first directory that holds the
    exact name or a match of the glob. [dirs] are the files of the
    directories of [get_all_agent_sessions_dirs], in its order. *)
Fixpoint find_session_file (dirs : list (gmap string bytes)) (session_id : string)
    : py (option (gmap string bytes * string)) :=
  match dirs with
  | [] => Return None
  | sessions_dir :: rest =>
      let candidate := session_id +:+ ".jsonl" in
      match sessions_dir !! candidate with
      | Some _ => Return (Some (sessions_dir, candidate))
      | None =>
          match glob_jsonl sessions_dir session_id with
          | Raise e => Raise e
          | Return (first :: _) => Return (Some (sessions_dir, first))
          | Return [] => find_session_file rest session_id
          end
      end
  end.

(** [open(jsonl_file)] and the iteration over its lines. *)
Definition read_lines (sessions_dir : gmap string bytes) (name : string)
    : py (list string) :=
  match sessions_dir !! name with
  | Some data => text_lines data
  | None => Raise OSError
  end.

(** [handle_session_history] (lines 1700-1771). *)
Definition handle_session_history (dirs : list (gmap string bytes))
    (session_id : string) : response :=
  match find_session_file dirs session_id with
  | Raise e => SendRaised e
  | Return None =>
      SendJson (JObj [("history", JArr []);
                      ("error", JStr "Session transcript not found")])
  | Return (Some (sessions_dir, jsonl_file)) =>
      match read_lines sessions_dir jsonl_file with
      | Raise e => SendRaised e
      | Return lines =>
          match history_loop history_text_parts lines with
          | Raise e => SendRaised e
          | Return history => SendJson (history_body history)
          end
      end
  end.

(** Lines 1822-1826 of [handle_session_result]: the non-empty text of the
    text blocks only. *)
Fixpoint result_text_parts (content : list json) : list json :=
  match content with
  | [] => []
  | item :: rest =>
      match item with
      | JObj fields =>
          if py_eq_str (py_get "type" fields) "text"
          then
            let text := py_get_d "text" (JStr "") fields in
            if py_truthy text then text :: result_text_parts rest
            else result_text_parts rest
          else result_text_parts rest
      | _ => result_text_parts rest
      end
  end.

(** Lines 1804-1834 on one decoded entry: the new value of
    [last_assistant_text] when the entry sets it. *)
Definition result_message (entry : json) : py (option record) :=
  e ← as_dict entry;
  if negb (py_eq_str (py_get "type" e) "message") then Return None
  else
    msg ← as_dict (py_get_d "message" (JObj []) e);
    if negb (py_eq_str (py_get_d "role" (JStr "") msg) "assistant") then Return None
    else
      text_content ←
        match py_get_d "content" (JStr "") msg with
        | JStr s => Return s
        | JArr items =>
            parts ← all_strings (result_text_parts items);
            Return (Str.join (String "010" EmptyString) parts)
        | _ => Return EmptyString
        end;
      if negb (String.eqb (Str.strip text_content) "")
      then Return (Some [("content", JStr text_content);
                         ("timestamp", py_get "timestamp" e)])
      else Return None.

(** The loop of lines 1798-1836, from a value of [last_assistant_text]. *)
Fixpoint result_loop (lines : list string) (last_assistant_text : option record)
    : py (option record) :=
  match lines with
  | [] => Return last_assistant_text
  | line :: rest =>
      let line := Str.strip line in
      if String.eqb line "" then result_loop rest last_assistant_text
      else
        match json_loads line with
        | Raise JSONDecodeError => result_loop rest last_assistant_text
        | Raise e => Raise e
        | Return entry =>
            match result_message entry with
            | Raise JSONDecodeError => result_loop rest last_assistant_text
            | Raise e => Raise e
            | Return (Some found) => result_loop rest (Some found)
            | Return None => result_loop rest last_assistant_text
            end
        end
  end.

(** [handle_session_result] (lines 1773-1842). *)
Definition handle_session_result (dirs : list (gmap string bytes))
    (session_id : string) : response :=
  match find_session_file dirs session_id with
  | Raise e => SendRaised e
  | Return None =>
      SendJson (JObj [("result", JNull);
                      ("error", JStr "Session transcript not found")])
  | Return (Some (sessions_dir, jsonl_file)) =>
      match read_lines sessions_dir jsonl_file with
      | Raise e => SendRaised e
      | Return lines =>
          match result_loop lines None with
          | Raise e => SendRaised e
          | Return last_assistant_text =>
              SendJson (JObj [("result",
                               match last_assistant_text with
                               | Some found => JObj found
                               | None => JNull
                               end)])
          end
      end
  end.

(* ===================================================================== *)
(** * The safe configuration ([server.py], lines 409-419) *)
(* ===================================================================== *)

(** The default of [mainAgentEmoji] at line 416, as the bytes of the file. *)
Definition main_agent_emoji : string :=
  String "239" (String "163" (String "191" (String "195" (String "188"
    (String "195" (String "168" (String "226" (String "128"
      (String "160" EmptyString))))))))).

(** [get_safe_config] (lines 409-419). *)
Definition get_safe_config (app_config : record) : record :=
  [ ("authEnabled", JBool (is_auth_enabled app_config));
    ("authMode", get_auth_mode app_config);
    ("readOnly", is_read_only app_config);
    ("mainAgentName", py_get_d "mainAgentName" (JStr "Main") app_config);
    ("mainAgentEmoji", py_get_d "mainAgentEmoji" (JStr main_agent_emoji) app_config);
    ("agentEmojis", py_get_d "agentEmojis" (JObj []) app_config);
    ("nodeEmojis", py_get_d "nodeEmojis" (JObj []) app_config) ].

(* ===================================================================== *)
(** * The update check ([server.py], lines 671-681 and 699-822) *)
(* ===================================================================== *)

(** The update cache: the two entries of the global [_update_cache], and
    the file .update-cache.json. *)
Record update_cache : Type := {
  uc_data : json;
  uc_timestamp : json;
  uc_file : json_file json
}.

(** The cache of a process that has just started (lines 365-368). *)
Definition empty_update_cache (file : json_file json) : update_cache :=
  {| uc_data := JNull; uc_timestamp := JNum 0; uc_file := file |}.

(** [get_current_version] (lines 671-681) on version.json. *)
Definition get_current_version (version_file : json_file json) : py json :=
  match version_file with
  | Parsed (JObj v) => Return (py_get_d "version" (JStr "0.0.0") v)
  | Parsed _ => Raise AttributeError
  | Missing | Corrupt => Return (JStr "0.0.0")
  end.

(** [load_update_cache] (lines 699-712). *)
Definition load_update_cache (cache : update_cache) : py update_cache :=
  match uc_file cache with
  | Parsed (JObj cached) =>
      Return {| uc_data := py_get "data" cached;
                uc_timestamp := py_get_d "timestamp" (JNum 0) cached;
                uc_file := uc_file cache |}
  | Parsed _ => Raise AttributeError
  | Missing | Corrupt => Return cache
  end.

(** [save_update_cache] (lines 715-729); [saved_at] is [int(time.time())]
    at line 720. *)
Definition save_update_cache (saved_at : Z) (data : json) (cache : update_cache)
    : update_cache :=
  {| uc_data := data;
     uc_timestamp := JNum saved_at;
     uc_file := Parsed (JObj [("data", data); ("timestamp", JNum saved_at)]) |}.

(** [(now - timestamp) < cache_ttl] for an integer [now]. *)
Definition within_ttl (now : Z) (timestamp : json) (cache_ttl : Z) : py bool :=
  match timestamp with
  | JNum t => Return (Z.ltb (now - t) cache_ttl)
  | JBool b => Return (Z.ltb (now - Z.b2z b) cache_ttl)
  | _ => Raise TypeError
  end.

(** The results of lines 801-806, 809-814 and 817-822. *)
Definition update_error (current_version : json) (message : string) : record :=
  [ ("currentVersion", current_version);
    ("latestVersion", JNull);
    ("updateAvailable", JBool false);
    ("error", JStr message) ].

(** Lines 759-767: the cached result with the current version and the
    comparison renewed. *)
Definition cached_update (version_file : json_file json) (data : json)
    : py record :=
  match data with
  | JObj cached =>
      current_version ← get_current_version version_file;
      let cached := dict_set "currentVersion" current_version cached in
      newer ← compare_versions current_version
                (py_get_d "latestVersion" (JStr "0.0.0") cached);
      Return (dict_set "cached" (JBool true)
                (dict_set "updateAvailable" (JBool newer) cached))
  | JArr _ =>
      current_version ← get_current_version version_file;
      Raise TypeError
  | _ => Raise AttributeError
  end.

(** Lines 770-822. [fetched] is the outcome of the request and of decoding
    its body (lines 778-783): [OSError] stands for [URLError]. *)
Definition fetch_update (version_file : json_file json) (saved_at : Z)
    (fetched : py json) (cache : update_cache) : py record * update_cache :=
  match get_current_version version_file with
  | Raise e => (Raise e, cache)
  | Return current_version =>
      let failed := "Could not check for updates" in
      match fetched with
      | Raise JSONDecodeError =>
          (Return (update_error current_version "Invalid response from registry"),
           cache)
      | Raise _ => (Return (update_error current_version failed), cache)
      | Return (JObj data) =>
          let latest_version := py_get_d "version" current_version data in
          match compare_versions current_version latest_version with
          | Raise _ => (Return (update_error current_version failed), cache)
          | Return newer =>
              let result :=
                [ ("currentVersion", current_version);
                  ("latestVersion", latest_version);
                  ("updateAvailable", JBool newer);
                  ("releaseNotes", py_get "releaseNotes" data);
                  ("releaseUrl", py_get "releaseUrl" data);
                  ("cached", JBool false) ] in
              (Return result, save_update_cache saved_at (JObj result) cache)
          end
      | Return _ => (Return (update_error current_version failed), cache)
      end
  end.

(** [check_for_updates] (lines 732-822). [now] is [int(time.time())] at
    line 756. *)
Definition check_for_updates (app_config : record) (version_file : json_file json)
    (now saved_at : Z) (fetched : py json) (cache : update_cache)
    : py record * update_cache :=
  match py_get_d "updateCheck" (JObj []) app_config with
  | JObj update_config =>
      if negb (py_truthy (py_get_d "enabled" (JBool true) update_config))
      then
        (current_version ← get_current_version version_file;
         Return [ ("currentVersion", current_version);
                  ("latestVersion", JNull);
                  ("updateAvailable", JBool false);
                  ("disabled", JBool true) ],
         cache)
      else
        match (if py_eq (uc_timestamp cache) (JNum 0)
               then load_update_cache cache else Return cache) with
        | Raise e => (Raise e, cache)
        | Return cache =>
            match (if py_truthy (uc_data cache)
                   then within_ttl now (uc_timestamp cache) (24 * 60 * 60)
                   else Return false) with
            | Raise e => (Raise e, cache)
            | Return true => (cached_update version_file (uc_data cache), cache)
            | Return false => fetch_update version_file saved_at fetched cache
            end
        end
  | _ => (Raise AttributeError, cache)
  end.

(** Case analysis on the first [match] of the goal. *)
Ltac break_match :=
  match goal with
  | |- context [match ?x with _ => _ end] => destruct x eqn:?
  end.

(* ===================================================================== *)
(** * Properties *)
(* ===================================================================== *)

(** ** Dictionaries *)

Lemma dict_get_set_eq {V} (k : string) (v : V) (d : dict V) :
  dict_get k (dict_set k v d) = Some v.
Proof.
  induction d as [|[k' v'] d IH]; simpl.
  - now rewrite String.eqb_refl.
  - destruct (String.eqb k k') eqn:E; simpl; rewrite E; [reflexivity | exact IH].
Qed.

(** ** Size accounting *)

Lemma sum_compressed_from (entries : list ArchiveEntry) (acc : Z) :
  fold_left (fun a s => a + ae_compressedSize s) entries acc
  = acc + total_compressed entries.
Proof.
  revert acc. induction entries as [|e entries IH]; intros acc; simpl.
  - unfold total_compressed. simpl. lia.
  - rewrite IH. unfold total_compressed. simpl. lia.
Qed.

(** Python's left-to-right [sum] is the sum of the column. *)
Lemma sum_compressed_total (entries : list ArchiveEntry) :
  sum_compressed entries = total_compressed entries.
Proof. unfold sum_compressed. rewrite sum_compressed_from. lia. Qed.

Lemma written_index_ok (entries : list ArchiveEntry) :
  index_ok {| idx_sessions := entries; idx_totalSize := sum_compressed entries |}.
Proof. unfold index_ok. simpl. apply sum_compressed_total. Qed.

Lemma index_step_refl (fs : FS) : index_step fs fs.
Proof. now left. Qed.

Lemma index_step_trans (fs1 fs2 fs3 : FS) :
  index_step fs1 fs2 -> index_step fs2 fs3 -> index_step fs1 fs3.
Proof.
  intros H12 [H23|H23].
  - destruct H12 as [H12|[i [Hi Hok]]].
    + left. congruence.
    + right. exists i. split; [congruence | exact Hok].
  - now right.
Qed.

Lemma archive_commit_index now key data sid jsonl_file archive_file fs :
  index_step fs (snd (archive_commit now key data sid jsonl_file archive_file fs)).
Proof.
  unfold archive_commit.
  repeat break_match; simpl;
    solve [ apply index_step_refl
          | right; eexists; split; [reflexivity | apply written_index_ok] ].
Qed.

Lemma archive_session_index now key data fs :
  index_step fs (snd (archive_session now key data fs)).
Proof.
  unfold archive_session.
  destruct (find_transcript fs _) as [[jsonl_file|]|e];
    [|apply index_step_refl|apply index_step_refl].
  destruct (transcripts fs !! jsonl_file) as [content|]; [|apply index_step_refl].
  match goal with
  | |- context [archive_commit ?n ?k ?d ?s ?j ?a ?f] =>
      pose proof (archive_commit_index n k d s j a f) as Hc;
      destruct (archive_commit n k d s j a f) as [[u|e] fs1]
  end; simpl in *; destruct Hc as [Hc|Hc]; simpl in *.
  - now left.
  - now right.
  - now left.
  - now right.
Qed.

Lemma script_archive_session_index now key data dry_run fs :
  index_step fs (snd (script_archive_session now key data dry_run fs)).
Proof.
  unfold script_archive_session.
  destruct (find_transcript fs _) as [[jsonl_file|]|e];
    [|apply index_step_refl|apply index_step_refl].
  destruct dry_run; [apply index_step_refl|].
  destruct (transcripts fs !! jsonl_file) as [content|]; [|apply index_step_refl].
  match goal with
  | |- context [archive_commit ?n ?k ?d ?s ?j ?a ?f] =>
      pose proof (archive_commit_index n k d s j a f) as Hc;
      destruct (archive_commit n k d s j a f) as [[u|e] fs1]
  end; simpl in *; exact Hc.
Qed.

Lemma restore_session_index now key fs :
  index_step fs (snd (restore_session now key fs)).
Proof.
  unfold restore_session.
  repeat break_match; simpl;
    solve [ left; reflexivity
          | right; eexists; split; [reflexivity | apply written_index_ok] ].
Qed.

Lemma sweep_loop_index clock cutoff items count fs :
  index_step fs (snd (sweep_loop clock cutoff items count fs)).
Proof.
  revert count fs. induction items as [|[key session] items IH]; intros count fs.
  - apply index_step_refl.
  - simpl. destruct (expired cutoff session) as [[|]|e].
    + pose proof (archive_session_index (clock key) key session fs) as Ha.
      destruct (archive_session (clock key) key session fs) as [[result|e] fs1];
        simpl in Ha; [|exact Ha].
      eapply index_step_trans; [exact Ha | apply IH].
    + apply IH.
    + apply index_step_refl.
Qed.

Lemma handle_run_archive_index r now clock fs :
  index_step fs (snd (handle_run_archive r now clock fs)).
Proof.
  unfold handle_run_archive.
  destruct r as [|d]; [apply index_step_refl|].
  destruct (sessions_json fs) as [| |[sessions|v]]; try apply index_step_refl.
  pose proof (sweep_loop_index clock (cutoff_ms now d) sessions 0 fs) as Hs.
  destruct (sweep_loop clock (cutoff_ms now d) sessions 0 fs) as [[n|e] fs1];
    exact Hs.
Qed.

Lemma run_op_index (o : op) (fs : FS) : index_step fs (run_op o fs).
Proof.
  destruct o; simpl.
  - apply archive_session_index.
  - apply restore_session_index.
  - apply script_archive_session_index.
  - apply handle_run_archive_index.
Qed.

Lemma run_ops_index (ops : list op) (fs : FS) : index_step fs (run_ops ops fs).
Proof.
  revert fs. induction ops as [|o ops IH]; intros fs.
  - apply index_step_refl.
  - simpl. eapply index_step_trans; [apply run_op_index | apply IH].
Qed.

Lemma index_step_preserves (fs fs' : FS) :
  index_step fs fs' ->
  index_ok (load_archive_index fs) -> index_ok (load_archive_index fs').
Proof.
  intros [Hsame|[index [Hw Hok]]] H.
  - unfold load_archive_index in *. now rewrite Hsame.
  - unfold load_archive_index. now rewrite Hw.
Qed.

(** C3. After any sequence of archive, restore, script-archive and sweep
    operations on a storage root whose index satisfied it, the index read
    back has [totalSize] equal to the sum of [compressedSize] over its rows;
    and whatever the index was, the sequence leaves the index file as it
    found it or leaves one whose total was recomputed from its rows. *)
Theorem index_total_is_sum_of_compressed_sizes (ops : list op) (fs : FS) :
  (index_ok (load_archive_index fs) ->
   index_ok (load_archive_index (run_ops ops fs)))
  /\ (archive_index_json (run_ops ops fs) = archive_index_json fs
      \/ exists index,
           archive_index_json (run_ops ops fs) = Parsed index
           /\ idx_totalSize index = total_compressed (idx_sessions index)).
Proof.
  split.
  - apply index_step_preserves, run_ops_index.
  - exact (run_ops_index ops fs).
Qed.


(** ** Missing transcripts *)

Lemma find_transcript_none (fs : FS) (sid : string) :
  transcripts fs !! (sid +:+ ".jsonl") = None ->
  glob_jsonl (transcripts fs) sid = Return [] ->
  find_transcript fs sid = Return None.
Proof. intros Hexact Hglob. unfold find_transcript. now rewrite Hexact, Hglob. Qed.

Lemma find_transcript_raises (fs : FS) (sid : string) (e : exn) :
  transcripts fs !! (sid +:+ ".jsonl") = None ->
  glob_jsonl (transcripts fs) sid = Raise e ->
  find_transcript fs sid = Raise e.
Proof. intros Hexact Hglob. unfold find_transcript. now rewrite Hexact, Hglob. Qed.


(** ** Retention *)

Lemma to_archive_spec (cutoff : Z) (sessions : dict record)
    (selected : list (string * record)) :
  to_archive cutoff sessions = Return selected ->
  forall key session,
    In (key, session) selected
    <-> In (key, session) sessions /\ expired cutoff session = Return true.
Proof.
  revert selected.
  induction sessions as [|[k s] sessions IH]; intros selected Hsel key session.
  - simpl in Hsel. injection Hsel as <-. simpl.
    split; [intros [] | intros [[] _]].
  - simpl in Hsel.
    destruct (expired cutoff s) as [old|e] eqn:Hold; [|discriminate].
    destruct (to_archive cutoff sessions) as [rest|e] eqn:Hrest; [|discriminate].
    injection Hsel as <-. specialize (IH rest eq_refl key session).
    destruct old; simpl; rewrite IH; split.
    + intros [Heq|[Hin Hexp]].
      * injection Heq as <- <-. auto.
      * auto.
    + intros [[Heq|Hin] Hexp]; auto.
    + intros [Hin Hexp]. auto.
    + intros [[Heq|Hin] Hexp]; [|auto].
      injection Heq as <- <-. congruence.
Qed.

(** The sweep acts on the catalog exactly as on the script's selection from
    it: a session that is not expired is passed over. *)
Lemma sweep_loop_on_selection clock cutoff sessions selected count fs :
  to_archive cutoff sessions = Return selected ->
  sweep_loop clock cutoff sessions count fs
  = sweep_loop clock cutoff selected count fs.
Proof.
  revert selected count fs.
  induction sessions as [|[k s] sessions IH]; intros selected count fs Hsel.
  - simpl in Hsel. now injection Hsel as <-.
  - simpl in Hsel. simpl.
    destruct (expired cutoff s) as [old|e] eqn:Hold; [|discriminate].
    destruct (to_archive cutoff sessions) as [rest|e] eqn:Hrest; [|discriminate].
    injection Hsel as <-. destruct old.
    + simpl. rewrite Hold.
      destruct (archive_session (clock k) k s fs) as [[result|e] fs1];
        [now apply IH|reflexivity].
    + now apply IH.
Qed.

(** C6. For positive [d] and [now] and [cutoff = now - d*86400000].
    The script's selection: of the sessions of a catalog from which it
    returns, one updated at [now - (d+1)*86400000] is selected, one updated
    at [now - (d-1)*86400000] is not, and one updated exactly at the cutoff
    is not (the comparison is a strict less-than). The server's sweep: at
    a session updated at [now - (d+1)*86400000] the loop calls
    [archive_session] on it and goes on with the rest (or stops, when the
    call raises); at a session updated at [now - (d-1)*86400000], or exactly
    at the cutoff, it calls nothing and goes on with the rest, the count
    and the state as they were; and [handle_run_archive] runs that loop on
    the catalog with this cutoff. *)
Theorem retention_selects_strictly_older (d now : Z) :
  0 < d -> 0 < now ->
  cutoff_ms now d = now - d * 86400000
  /\ (forall sessions selected,
        to_archive (cutoff_ms now d) sessions = Return selected ->
        forall key session,
          In (key, session) sessions ->
          (py_get_d "updatedAt" (JNum 0) session
           = JNum (now - (d + 1) * 86400000) ->
           In (key, session) selected)
          /\ (py_get_d "updatedAt" (JNum 0) session
              = JNum (now - (d - 1) * 86400000) ->
              ~ In (key, session) selected)
          /\ (py_get_d "updatedAt" (JNum 0) session = JNum (cutoff_ms now d) ->
              ~ In (key, session) selected))
  /\ (forall clock key session rest count fs,
        (py_get_d "updatedAt" (JNum 0) session
         = JNum (now - (d + 1) * 86400000) ->
         sweep_loop clock (cutoff_ms now d) ((key, session) :: rest) count fs
         = match archive_session (clock key) key session fs with
           | (Raise e, fs1) => (Raise e, fs1)
           | (Return _, fs1) =>
               sweep_loop clock (cutoff_ms now d) rest (count + 1) fs1
           end)
        /\ (py_get_d "updatedAt" (JNum 0) session
            = JNum (now - (d - 1) * 86400000) ->
            sweep_loop clock (cutoff_ms now d) ((key, session) :: rest) count fs
            = sweep_loop clock (cutoff_ms now d) rest count fs)
        /\ (py_get_d "updatedAt" (JNum 0) session = JNum (cutoff_ms now d) ->
            sweep_loop clock (cutoff_ms now d) ((key, session) :: rest) count fs
            = sweep_loop clock (cutoff_ms now d) rest count fs))
  /\ (forall clock fs sessions,
        sessions_json fs = Parsed (Catalog sessions) ->
        handle_run_archive (Days d) now clock fs
        = match sweep_loop clock (now - d * 86400000) sessions 0 fs with
          | (Return n, fs1) => (SweepDone n None, fs1)
          | (Raise e, fs1) => (SweepError e, fs1)
          end).
Proof.
  intros Hd Hnow.
  assert (Hcut : cutoff_ms now d = now - d * 86400000)
    by (unfold cutoff_ms; lia).
  split; [exact Hcut|]. split; [|split].
  - intros sessions selected Hsel key session Hin.
    pose proof (to_archive_spec _ _ _ Hsel key session) as Hspec.
    unfold expired in *. rewrite Hcut in *.
    repeat split.
    + intros Hu. apply Hspec. split; [exact Hin|].
      rewrite Hu. simpl. f_equal. apply Z.ltb_lt. lia.
    + intros Hu Hc. apply Hspec in Hc as [_ Hc].
      rewrite Hu in Hc. simpl in Hc. injection Hc as Hc.
      apply Z.ltb_lt in Hc. lia.
    + intros Hu Hc. apply Hspec in Hc as [_ Hc].
      rewrite Hu in Hc. simpl in Hc. injection Hc as Hc.
      apply Z.ltb_lt in Hc. lia.
  - intros clock key session rest count fs.
    cbn [sweep_loop]. unfold expired. rewrite Hcut.
    repeat split; intros Hu; rewrite Hu; cbn [py_lt_int].
    + destruct (Z.ltb_spec (now - (d + 1) * 86400000) (now - d * 86400000))
        as [_|Hge]; [|lia].
      now destruct (archive_session (clock key) key session fs) as [[result|e] fs1].
    + destruct (Z.ltb_spec (now - (d - 1) * 86400000) (now - d * 86400000))
        as [Hlt|_]; [lia|reflexivity].
    + destruct (Z.ltb_spec (now - d * 86400000) (now - d * 86400000))
        as [Hlt|_]; [lia|reflexivity].
  - intros clock fs sessions Hs. unfold handle_run_archive.
    now rewrite Hs, Hcut.
Qed.

(** ** Agent directories *)

Lemma existsb_main_In (dirs : list (string * sessions_dir)) :
  existsb (fun p => String.eqb (fst p) "main") dirs = true
  <-> In "main" (map fst dirs).
Proof.
  rewrite existsb_exists. split.
  - intros [p [Hin Heq]]. apply String.eqb_eq in Heq. rewrite <- Heq.
    now apply in_map.
  - intros Hin. apply in_map_iff in Hin as [p [Heq Hin]].
    exists p. split; [exact Hin|]. now apply String.eqb_eq.
Qed.

(** C7 (as amended). [get_all_agent_sessions_dirs] lists the agent id
    ["main"] exactly when the agents root does not exist (the result is
    then the single default directory), or the scan of the agents root
    finds a [main] directory with a [sessions] child, or [SESSIONS_DIR]
    exists (it is then appended). In particular, when the agents root
    exists and neither finds [main], the result is the scan alone. *)
Theorem main_agent_listed_iff (t : agents_tree) :
  (In "main" (map fst (get_all_agent_sessions_dirs t))
   <-> agents_base t = None
       \/ (exists entries,
             agents_base t = Some entries
             /\ (In "main" (map fst (scan_agents entries))
                 \/ sessions_dir_exists t = true)))
  /\ (agents_base t = None ->
      get_all_agent_sessions_dirs t = [("main", DefaultSessionsDir)])
  /\ (forall entries,
        agents_base t = Some entries ->
        ~ In "main" (map fst (scan_agents entries)) ->
        sessions_dir_exists t = false ->
        get_all_agent_sessions_dirs t = scan_agents entries).
Proof.
  unfold get_all_agent_sessions_dirs.
  destruct (agents_base t) as [entries|] eqn:Hbase.
  - destruct (existsb _ (scan_agents entries)) eqn:Hex.
    + apply existsb_main_In in Hex. repeat split.
      * intros _. right. exists entries. auto.
      * auto.
      * discriminate.
      * intros entries' [= <-] Hno. contradiction.
    + assert (Hno : ~ In "main" (map fst (scan_agents entries))).
      { intros Hin. apply existsb_main_In in Hin. congruence. }
      destruct (sessions_dir_exists t) eqn:Hdef; repeat split.
      * intros _. right. exists entries. auto.
      * intros _. rewrite map_app, in_app_iff. right. simpl. auto.
      * discriminate.
      * discriminate.
      * intros Hin. contradiction.
      * intros [Hnone|[entries' [[= <-] [Hin|Hex']]]];
          [discriminate | contradiction | discriminate].
      * discriminate.
      * intros entries' [= <-] _ _. reflexivity.
  - repeat split.
    + auto.
    + intros _. simpl. auto.
    + discriminate.
Qed.


(** ** The reported count of a sweep *)

(** [archive_session] raises only what the glob raises, and then it has
    changed nothing. *)
Lemma archive_session_raises now key data fs fs' e :
  archive_session now key data fs = (Raise e, fs') ->
  fs' = fs
  /\ transcripts fs
       !! (py_str (py_get_d "sessionId" (JStr key) data) +:+ ".jsonl") = None
  /\ glob_jsonl (transcripts fs) (py_str (py_get_d "sessionId" (JStr key) data))
     = Raise e.
Proof.
  unfold archive_session, find_transcript. intros H.
  destruct (transcripts fs !! _) as [exact|] eqn:Hexact.
  - destruct (transcripts fs !! _) as [content|]; [|discriminate].
    now destruct (archive_commit _ _ _ _ _ _ _) as [[u|e'] fs1].
  - destruct (glob_jsonl _ _) as [[|first names]|e'] eqn:Hglob.
    + discriminate.
    + destruct (transcripts fs !! first) as [content|]; [|discriminate].
      now destruct (archive_commit _ _ _ _ _ _ _) as [[u|e''] fs1].
    + injection H as <- <-. now repeat split.
Qed.

Lemma archive_session_returns now key data fs :
  glob_accepts key data ->
  exists result, fst (archive_session now key data fs) = Return result.
Proof.
  intros Hglob.
  destruct (archive_session now key data fs) as [[result|e] fs1] eqn:H.
  - now exists result.
  - apply archive_session_raises in H as (_ & _ & Hraise).
    destruct (Hglob (transcripts fs)) as [names Hnames]. congruence.
Qed.

(** On a catalog from which the selection returns, and when the glob
    accepts the patterns of the selected sessions, the sweep reports the
    size of the selection whatever the archivals returned. *)
Lemma sweep_loop_count clock cutoff sessions selected count fs :
  to_archive cutoff sessions = Return selected ->
  (forall key session, In (key, session) selected -> glob_accepts key session) ->
  fst (sweep_loop clock cutoff sessions count fs)
  = Return (count + Z.of_nat (length selected)).
Proof.
  revert selected count fs.
  induction sessions as [|[k s] sessions IH]; intros selected count fs Hsel Hglob.
  - simpl in Hsel. injection Hsel as <-. simpl. f_equal. lia.
  - simpl in Hsel. simpl.
    destruct (expired cutoff s) as [old|e] eqn:Hold; [|discriminate].
    destruct (to_archive cutoff sessions) as [rest|e] eqn:Hrest; [|discriminate].
    injection Hsel as <-. destruct old.
    + destruct (archive_session_returns (clock k) k s fs) as [result Hres];
        [apply Hglob; now left|].
      destruct (archive_session (clock k) k s fs) as [[result'|e] fs1];
        [|discriminate].
      unfold tuple_truthy. rewrite (IH rest _ _ eq_refl).
      * f_equal. simpl length. lia.
      * intros key session Hin. apply Hglob. now right.
    + now rewrite (IH rest _ _ eq_refl Hglob).
Qed.

(** C1 (the code at the failing input). An expired session whose
    transcript is missing: [archive_session] returns
    [(False, "Transcript file not found: ...")] and changes nothing; the
    sweep goes on with the remaining sessions, but with the count raised by
    one, because line 1989 tests the returned tuple, which is true whatever
    it holds. A catalog holding only that session is answered with
    [archived: 1]. *)
Theorem sweep_counts_a_failed_archival
    (d now : Z) (clock : string -> Z) (key : string) (session : record)
    (rest : list (string * record)) (archived_count : Z) (fs : FS) :
  let sid := py_str (py_get_d "sessionId" (JStr key) session) in
  expired (cutoff_ms now d) session = Return true ->
  transcripts fs !! (sid +:+ ".jsonl") = None ->
  glob_jsonl (transcripts fs) sid = Return [] ->
  archive_session (clock key) key session fs
    = (Return (false, Some (TranscriptNotFound (sid +:+ ".jsonl"))), fs)
  /\ sweep_loop clock (cutoff_ms now d) ((key, session) :: rest) archived_count fs
     = sweep_loop clock (cutoff_ms now d) rest (archived_count + 1) fs
  /\ (sessions_json fs = Parsed (Catalog [(key, session)]) ->
      handle_run_archive (Days d) now clock fs = (SweepDone 1 None, fs)).
Proof.
  intros sid Hold Hexact Hglob.
  assert (Harch : archive_session (clock key) key session fs
                  = (Return (false, Some (TranscriptNotFound (sid +:+ ".jsonl"))),
                     fs)).
  { unfold archive_session. fold sid.
    now rewrite (find_transcript_none fs sid Hexact Hglob). }
  split; [exact Harch|]. split.
  - cbn [sweep_loop]. now rewrite Hold, Harch.
  - intros Hcat. unfold handle_run_archive. rewrite Hcat.
    cbn [sweep_loop]. now rewrite Hold, Harch.
Qed.

(** ** Restoration *)

Lemma restore_session_true (now : Z) (session_key : string) (fs fs' : FS) :
  restore_session now session_key fs = (true, fs') ->
  exists session_info compressed data,
    List.find (entry_matches session_key) (idx_sessions (load_archive_index fs))
      = Some session_info
    /\ artifacts fs !! (py_str (ae_sessionId session_info) +:+ ".jsonl.gz")
       = Some compressed
    /\ gzip_decompress compressed = Inflated data
    /\ (sessions_json fs = Missing
        \/ exists c, sessions_json fs = Parsed (Catalog c))
    /\ transcripts fs'
       = <[py_str (ae_sessionId session_info) +:+ ".jsonl" := data]> (transcripts fs)
    /\ artifacts fs'
       = delete (py_str (ae_sessionId session_info) +:+ ".jsonl.gz") (artifacts fs)
    /\ sessions_json fs'
       = Parsed (Catalog
                   (dict_set (ae_key session_info) (restored_row now session_info)
                      (match sessions_json fs with
                       | Parsed (Catalog c) => c
                       | _ => []
                       end)))
    /\ archive_index_json fs'
       = Parsed
           (let kept :=
              List.filter (fun s => negb (String.eqb (ae_key s) session_key))
                          (idx_sessions (load_archive_index fs)) in
            {| idx_sessions := kept; idx_totalSize := sum_compressed kept |}).
Proof.
  unfold restore_session. intros H.
  destruct (List.find _ _) as [session_info|] eqn:Hfind; [|discriminate].
  destruct (artifacts fs !! _) as [compressed|] eqn:Hart; [|discriminate].
  destruct (gzip_decompress compressed) as [data|partial] eqn:Hgz; [|discriminate].
  simpl in H.
  exists session_info, compressed, data.
  destruct (sessions_json fs) as [| |[c|v]] eqn:Hcat; try discriminate;
    injection H as <-; simpl; rewrite ?Hcat; repeat split; eauto.
Qed.

(** Restoring by the key does remove every entry filed under it. *)
Lemma restore_by_key_removes_entries
    (now : Z) (session_key : string) (fs fs' : FS) :
  restore_session now session_key fs = (true, fs') ->
  forall s, In s (idx_sessions (load_archive_index fs')) ->
            ae_key s <> session_key.
Proof.
  intros Hres s Hin.
  apply restore_session_true in Hres
    as (e & gz & data & _ & _ & _ & _ & _ & _ & _ & Hidx).
  unfold load_archive_index in Hin at 1. rewrite Hidx in Hin. simpl in Hin.
  apply filter_In in Hin as [_ Hne].
  now apply negb_true_iff, String.eqb_neq in Hne.
Qed.

(** C2 (the code at the failing input). When [restore_session] succeeds on
    an identifier that matched the entry by its [sessionId] and is not the
    entry's key, the filter of line 985 compares keys with that identifier
    and keeps the entry: the index still lists the session, and still counts
    its size, although the compressed file is gone. *)
Theorem restore_by_session_id_keeps_the_entry
    (now : Z) (identifier : string) (session_info : ArchiveEntry) (fs fs' : FS) :
  restore_session now identifier fs = (true, fs') ->
  List.find (entry_matches identifier) (idx_sessions (load_archive_index fs))
    = Some session_info ->
  ae_key session_info <> identifier ->
  In session_info (idx_sessions (load_archive_index fs'))
  /\ artifacts fs' !! (py_str (ae_sessionId session_info) +:+ ".jsonl.gz") = None
  /\ idx_totalSize (load_archive_index fs')
     = total_compressed (idx_sessions (load_archive_index fs')).
Proof.
  intros Hres Hfind Hkey.
  apply restore_session_true in Hres
    as (e & gz & data & Hfind' & _ & _ & _ & _ & Hart & _ & Hidx).
  rewrite Hfind in Hfind'. injection Hfind' as <-.
  unfold load_archive_index. rewrite Hidx. simpl. repeat split.
  - apply filter_In. split.
    + now apply find_some in Hfind.
    + apply negb_true_iff, String.eqb_neq. exact Hkey.
  - rewrite Hart. apply lookup_delete_eq.
  - apply sum_compressed_total.
Qed.

Lemma dict_get_not_key {V} (k : string) (d : dict V) :
  ~ In k (dict_keys d) -> dict_get k d = None.
Proof.
  induction d as [|[k' v] d IH]; simpl; [reflexivity|].
  intros Hno. destruct (String.eqb k k') eqn:E.
  - apply String.eqb_eq in E. subst. exfalso. apply Hno. now left.
  - apply IH. intros Hin. apply Hno. now right.
Qed.

(** C10. The catalog row that a successful [restore_session] stores under
    the entry's key has exactly the fields [sessionId], [label],
    [updatedAt], [model], [channel] and [restoredAt], in this order; any
    other field ([totalTokens], [contextTokens], [node], [hostname],
    [origin], [displayName], ...) is absent from it, whatever the catalog
    held under that key before. *)
Theorem restored_row_has_exactly_six_fields
    (now : Z) (identifier : string) (fs fs' : FS) :
  restore_session now identifier fs = (true, fs') ->
  exists session_info sessions row,
    List.find (entry_matches identifier) (idx_sessions (load_archive_index fs))
      = Some session_info
    /\ sessions_json fs' = Parsed (Catalog sessions)
    /\ dict_get (ae_key session_info) sessions = Some row
    /\ dict_keys row
       = ["sessionId"; "label"; "updatedAt"; "model"; "channel"; "restoredAt"]
    /\ forall field,
         ~ In field ["sessionId"; "label"; "updatedAt"; "model"; "channel";
                     "restoredAt"] ->
         dict_get field row = None.
Proof.
  intros Hres.
  apply restore_session_true in Hres
    as (e & gz & data & Hfind & _ & _ & _ & _ & _ & Hcat & _).
  eexists e, _, (restored_row now e). repeat split.
  - exact Hfind.
  - exact Hcat.
  - apply dict_get_set_eq.
  - intros field Hno. now apply dict_get_not_key.
Qed.


(** ** Archival *)

Lemma load_archive_index_set_artifacts a fs :
  load_archive_index (set_artifacts a fs) = load_archive_index fs.
Proof. reflexivity. Qed.

Lemma archive_session_true
    (now : Z) (session_key : string) (session_data : record) (fs fs' : FS) :
  let session_id := py_get_d "sessionId" (JStr session_key) session_data in
  archive_session now session_key session_data fs = (Return (true, None), fs') ->
  exists jsonl_file data task,
    find_transcript fs (py_str session_id) = Return (Some jsonl_file)
    /\ transcripts fs !! jsonl_file = Some data
    /\ extract_first_user_message data = Return task
    /\ (sessions_json fs = Missing
        \/ (exists sessions, sessions_json fs = Parsed (Catalog sessions))
        \/ (exists v, sessions_json fs = Parsed (NoCatalog v)
                      /\ scalar_has v session_key = Return false))
    /\ transcripts fs' = delete jsonl_file (transcripts fs)
    /\ artifacts fs'
       = <[path_stem jsonl_file +:+ ".jsonl.gz" := gzip_compress data]> (artifacts fs)
    /\ archive_index_json fs'
       = Parsed
           (let sessions :=
              (idx_sessions (load_archive_index fs)
                 ++ [new_entry now session_key session_data session_id
                       (Z.of_nat (length data))
                       (Z.of_nat (length (gzip_compress data))) task])%list in
            {| idx_sessions := sessions; idx_totalSize := sum_compressed sessions |})
    /\ sessions_json fs'
       = match sessions_json fs with
         | Parsed (Catalog sessions) =>
             Parsed (Catalog (match dict_get session_key sessions with
                              | Some _ => dict_del session_key sessions
                              | None => sessions
                              end))
         | other => other
         end.
Proof.
  intros session_id. unfold archive_session. fold session_id. intros H.
  destruct (find_transcript fs (py_str session_id)) as [[jsonl_file|]|e] eqn:Hfind;
    [|discriminate|discriminate].
  destruct (transcripts fs !! jsonl_file) as [data|] eqn:Hdata; [|discriminate].
  unfold archive_commit, get_file_size_bytes in H.
  rewrite load_archive_index_set_artifacts in H.
  cbn [transcripts artifacts sessions_json set_artifacts set_transcripts
       save_archive_index set_archive_index_json] in H.
  rewrite !Hdata, lookup_insert_eq in H.
  destruct (extract_first_user_message data) as [task|e] eqn:Htask;
    [|discriminate].
  exists jsonl_file, data, task.
  destruct (sessions_json fs) as [| |[sessions|v]] eqn:Hcat.
  - injection H as <-. cbn. rewrite Hcat.
    repeat split; try reflexivity; auto.
  - discriminate.
  - destruct (dict_get session_key sessions) eqn:Hkey; injection H as <-; cbn;
      repeat split; try reflexivity; eauto.
  - destruct (scalar_has v session_key) as [[|]|e] eqn:Hhas; try discriminate.
    injection H as <-. cbn. rewrite Hcat.
    repeat split; try reflexivity; eauto 6.
Qed.

(** ** File names *)

Lemma string_length_app (s t : string) :
  String.length (s +:+ t) = (String.length s + String.length t)%nat.
Proof. induction s as [|a s IH]; simpl; [reflexivity | now rewrite IH]. Qed.

Lemma take_length_app (s t : string) : Str.take (String.length s) (s +:+ t) = s.
Proof. induction s as [|a s IH]; simpl; [now destruct t | now rewrite IH]. Qed.

Lemma contains_slash_cons (a : ascii) (s : string) :
  Str.contains "/" (String a s) = false ->
  Ascii.eqb a "/" = false /\ Str.contains "/" s = false.
Proof.
  cbn [Str.contains Str.startswith].
  destruct (Ascii.eqb "/" a) eqn:E; intros H.
  - discriminate.
  - split; [now rewrite Ascii.eqb_sym | exact H].
Qed.

Lemma after_last_slash_jsonl (acc s : string) :
  Str.contains "/" s = false -> after_last_slash acc (s +:+ ".jsonl") = acc.
Proof.
  revert acc. induction s as [|a s IH]; intros acc Hs.
  - reflexivity.
  - apply contains_slash_cons in Hs as [Ha Hs].
    change (String a s +:+ ".jsonl") with (String a (s +:+ ".jsonl")).
    cbn [after_last_slash]. rewrite Ha. now apply IH.
Qed.

Lemma rfind_dot_jsonl (i : nat) (s : string) :
  rfind_dot i (s +:+ ".jsonl") = Some (i + String.length s)%nat.
Proof.
  revert i. induction s as [|a s IH]; intros i.
  - simpl. f_equal. lia.
  - change (String a s +:+ ".jsonl") with (String a (s +:+ ".jsonl")).
    cbn [rfind_dot String.length]. rewrite IH. f_equal. lia.
Qed.

(** The compressed file of a transcript found under its exact name is named
    after the session id, when the id is a non-empty single path component. *)
Lemma path_stem_jsonl (sid : string) :
  sid <> "" -> Str.contains "/" sid = false ->
  path_stem (sid +:+ ".jsonl") = sid.
Proof.
  intros Hne Hslash. unfold path_stem, path_name.
  rewrite (after_last_slash_jsonl _ _ Hslash), rfind_dot_jsonl.
  rewrite string_length_app. simpl.
  destruct sid as [|a sid]; [congruence|].
  replace (0 <? String.length (String a sid))%nat with true
    by (symmetry; apply Nat.ltb_lt; simpl; lia).
  replace (String.length (String a sid) <? String.length (String a sid) + 6 - 1)%nat
    with true by (symmetry; apply Nat.ltb_lt; lia).
  simpl andb. cbv iota. apply take_length_app.
Qed.

Lemma find_app_last {A} (f : A -> bool) (l : list A) (x : A) :
  (forall y, In y l -> f y = false) -> f x = true ->
  List.find f (l ++ [x])%list = Some x.
Proof.
  intros Hl Hx. induction l as [|y l IH]; simpl.
  - now rewrite Hx.
  - rewrite (Hl y (or_introl eq_refl)). apply IH.
    intros z Hz. apply Hl. now right.
Qed.


Lemma restore_session_succeeds
    (now : Z) (session_key : string) (fs : FS)
    (session_info : ArchiveEntry) (compressed data : bytes) :
  List.find (entry_matches session_key) (idx_sessions (load_archive_index fs))
    = Some session_info ->
  artifacts fs !! (py_str (ae_sessionId session_info) +:+ ".jsonl.gz")
    = Some compressed ->
  gzip_decompress compressed = Inflated data ->
  (sessions_json fs = Missing \/ exists c, sessions_json fs = Parsed (Catalog c)) ->
  exists fs', restore_session now session_key fs = (true, fs').
Proof.
  intros Hfind Hart Hgz Hcat. unfold restore_session.
  rewrite Hfind, Hart, Hgz.
  cbn [sessions_json set_transcripts].
  destruct Hcat as [->|[c ->]]; eexists; reflexivity.
Qed.

(** ** Round trip *)

(** C5 (as amended). Let [archive_session] succeed on a record whose
    transcript is found under its exact name [sessionId.jsonl], the session
    id being a non-empty single path component, in a root whose index holds
    no entry matching the key and whose sessions.json is missing or decodes
    to an object. Then [restore_session] on the key succeeds;
    the catalog row it stores under the key has the record's [sessionId]
    (the key if the record has none), its [model] ([None] if it has none),
    its [updatedAt] (0 if it has none) and, as [channel], the record's
    [channel] or else its [lastChannel]; and the transcript file holds the
    bytes it held before archiving. *)
Theorem restore_after_archive_round_trip
    (now1 now2 : Z) (key : string) (data : record) (content : bytes)
    (fs fs1 : FS) :
  let session_id := py_get_d "sessionId" (JStr key) data in
  let sid := py_str session_id in
  sid <> "" ->
  Str.contains "/" sid = false ->
  transcripts fs !! (sid +:+ ".jsonl") = Some content ->
  (forall e, In e (idx_sessions (load_archive_index fs)) ->
             entry_matches key e = false) ->
  (sessions_json fs = Missing
   \/ exists sessions, sessions_json fs = Parsed (Catalog sessions)) ->
  archive_session now1 key data fs = (Return (true, None), fs1) ->
  exists fs2 sessions row,
    restore_session now2 key fs1 = (true, fs2)
    /\ sessions_json fs2 = Parsed (Catalog sessions)
    /\ dict_get key sessions = Some row
    /\ py_get "sessionId" row = session_id
    /\ py_get "model" row = py_get "model" data
    /\ py_get "updatedAt" row = py_get_d "updatedAt" (JNum 0) data
    /\ py_get "channel" row
       = py_or (py_get "channel" data) (py_get "lastChannel" data)
    /\ transcripts fs2 !! (sid +:+ ".jsonl") = Some content.
Proof using gzip_round_trip.
  intros session_id sid Hne Hslash Hexact Hfresh Hobj Harch.
  apply archive_session_true in Harch
    as (jsonl_file & data0 & task & Hfind & Hdata & _ & _ & Htr & Hart & Hidx & Hsess).
  fold session_id in Hfind, Hidx. fold sid in Hfind.
  unfold find_transcript in Hfind. rewrite Hexact in Hfind.
  injection Hfind as <-. rewrite Hexact in Hdata. injection Hdata as <-.
  rewrite (path_stem_jsonl sid Hne Hslash) in Hart.
  set (entry := new_entry now1 key data session_id (Z.of_nat (length content))
                  (Z.of_nat (length (gzip_compress content))) task) in *.
  assert (Hlook : List.find (entry_matches key)
                    (idx_sessions (load_archive_index fs1)) = Some entry).
  { unfold load_archive_index. rewrite Hidx. cbn [idx_sessions].
    apply find_app_last; [exact Hfresh|].
    unfold entry_matches, entry. cbn [ae_key]. now rewrite String.eqb_refl. }
  assert (Hgz : artifacts fs1 !! (py_str (ae_sessionId entry) +:+ ".jsonl.gz")
                = Some (gzip_compress content)).
  { rewrite Hart. apply lookup_insert_eq. }
  assert (Hcat1 : sessions_json fs1 = Missing
                  \/ exists c, sessions_json fs1 = Parsed (Catalog c)).
  { rewrite Hsess. destruct Hobj as [->|[c ->]]; eauto. }
  destruct (restore_session_succeeds now2 key fs1 entry _ content
              Hlook Hgz (gzip_round_trip content) Hcat1) as [fs2 Hres].
  pose proof Hres as Hinv.
  apply restore_session_true in Hinv
    as (e & gz & d & Hfind' & Hgz' & Hd & _ & Htr2 & _ & Hcat2 & _).
  rewrite Hlook in Hfind'. injection Hfind' as <-.
  rewrite Hgz in Hgz'. injection Hgz' as <-.
  rewrite gzip_round_trip in Hd. injection Hd as <-.
  eexists fs2, _, (restored_row now2 entry). repeat split.
  - exact Hres.
  - exact Hcat2.
  - apply (dict_get_set_eq (ae_key entry)).
  - rewrite Htr2. apply lookup_insert_eq.
Qed.


(** ** Labels *)

Lemma py_get_d_none (k : string) (default : json) (d : record) :
  dict_get k d = None -> py_get_d k default d = default.
Proof. intros H. unfold py_get_d. now rewrite H. Qed.

(** The number formatting without its early return: an empty argument
    falls through every case to itself. *)
Lemma format_phone_number_cases (phone : string) :
  let digits := Str.filter_chars Str.isdigit phone in
  format_phone_number phone
  = if (String.length digits =? 11)%nat && Str.startswith "1" digits then
      "+1 " +:+ Str.slice 1 4 digits +:+ " " +:+ Str.slice 4 7 digits
        +:+ " " +:+ Str.drop 7 digits
    else if (String.length digits =? 10)%nat then
      "+1 " +:+ Str.take 3 digits +:+ " " +:+ Str.slice 3 6 digits
        +:+ " " +:+ Str.drop 6 digits
    else if Str.startswith "+" phone then "+" +:+ digits else phone.
Proof.
  unfold format_phone_number. destruct phone; reflexivity.
Qed.

(** Eleven digits led by 1 come out as [+1 XXX XXX XXXX]. *)
Lemma format_phone_number_eleven (phone : string) :
  let digits := Str.filter_chars Str.isdigit phone in
  String.length digits = 11%nat ->
  Str.startswith "1" digits = true ->
  exists a b c,
    digits = "1" +:+ a +:+ b +:+ c
    /\ String.length a = 3%nat /\ String.length b = 3%nat
    /\ String.length c = 4%nat
    /\ format_phone_number phone = "+1 " +:+ a +:+ " " +:+ b +:+ " " +:+ c.
Proof.
  intros digits Hlen Hone.
  rewrite format_phone_number_cases. fold digits.
  rewrite Hlen, Hone. clearbody digits.
  do 11 (destruct digits as [|? digits]; [discriminate|]).
  destruct digits; [|discriminate].
  cbn [Str.startswith] in Hone.
  destruct (Ascii.eqb "1" a) eqn:E; [|discriminate].
  apply Ascii.eqb_eq in E. subst a.
  exists (String a0 (String a1 (String a2 EmptyString))),
         (String a3 (String a4 (String a5 EmptyString))),
         (String a6 (String a7 (String a8 (String a9 EmptyString)))).
  repeat split.
Qed.

(** C8 (as amended). For the key
    [agent:main:signal:dm:signal:+12345678901], a record with no stored
    label and no group chat type: without an origin the label is
    ["Signal DM"] (the key is not read for the number); with an origin
    label [signal:<number>] it is ["Signal: "] followed by the formatted
    number, which for [+12345678901] is ["+1 234 567 8901"]. Formatting
    keeps the digits; eleven digits led by 1 give [+1 XXX XXX XXXX], and
    when the digits are neither those nor ten in number the result is [+]
    and the digits if the argument began with [+], else the argument as it
    is. *)
Theorem signal_dm_label_comes_from_origin (data : record) :
  let key := "agent:main:signal:dm:signal:+12345678901" in
  dict_get "label" data = None ->
  py_eq_str (py_get_d "chatType" (JStr "") data) "group" = false ->
  (dict_get "origin" data = None ->
   parse_friendly_session_label key data = Return "Signal DM")
  /\ (forall origin number,
        dict_get "origin" data = Some (JObj origin) ->
        dict_get "label" origin = Some (JStr ("signal:" +:+ number)) ->
        parse_friendly_session_label key data
        = Return ("Signal: " +:+ format_phone_number number))
  /\ format_phone_number "+12345678901" = "+1 234 567 8901"
  /\ (forall phone,
        let digits := Str.filter_chars Str.isdigit phone in
        String.length digits = 11%nat ->
        Str.startswith "1" digits = true ->
        exists a b c,
          digits = "1" +:+ a +:+ b +:+ c
          /\ String.length a = 3%nat /\ String.length b = 3%nat
          /\ String.length c = 4%nat
          /\ format_phone_number phone = "+1 " +:+ a +:+ " " +:+ b +:+ " " +:+ c)
  /\ (forall phone,
        let digits := Str.filter_chars Str.isdigit phone in
        ((String.length digits =? 11)%nat && Str.startswith "1" digits = false ->
         (String.length digits =? 10)%nat = false ->
         format_phone_number phone
         = if Str.startswith "+" phone then "+" +:+ digits else phone)).
Proof.
  intros key Hlabel Hchat.
  assert (Hhead : parse_friendly_session_label key data
                  = signal_dm_label (py_get_d "origin" (JObj []) data)).
  { unfold parse_friendly_session_label.
    rewrite (py_get_d_none "label" _ data Hlabel).
    cbn [truthy_str py_truthy String.eqb negb mbind py_bind].
    replace (Str.contains ":signal:" key) with true by reflexivity.
    replace (Str.contains "group" key) with false by reflexivity.
    cbn [orb]. now rewrite Hchat. }
  split; [|split; [|split; [|split]]].
  - intros Horigin. rewrite Hhead. unfold py_get_d. rewrite Horigin. reflexivity.
  - intros origin number Horigin Hol. rewrite Hhead.
    unfold py_get_d at 1. rewrite Horigin.
    unfold signal_dm_label, py_get_d at 1. cbn [as_dict mbind py_bind].
    rewrite Hol. reflexivity.
  - reflexivity.
  - exact format_phone_number_eleven.
  - intros phone digits H11 H10. rewrite format_phone_number_cases.
    fold digits. now rewrite H11, H10.
Qed.

(** ** The session list *)

Lemma sanitize_session_row (fields : record) :
  dict_keys fields
  = ["id"; "key"; "label"; "agentName"; "status"; "updatedAt"; "ageMs";
     "channel"; "model"; "totalTokens"; "contextTokens"; "usagePct"; "node";
     "sizeBytes"; "sizeFormatted"; "task"] ->
  sanitize_session fields = Return fields.
Proof.
  intros Hkeys. unfold dict_keys in Hkeys.
  do 16 (destruct fields as [|[? ?] fields]; [discriminate|]).
  destruct fields; [|discriminate].
  cbn [map fst] in Hkeys.
  injection Hkeys as -> -> -> -> -> -> -> -> -> -> -> -> -> -> -> ->.
  reflexivity.
Qed.

Lemma transform_row_key cron_names main_agent_name (k : string) (s row : record) :
  transform_row cron_names main_agent_name k s = Return row ->
  py_get "key" row = JStr k.
Proof.
  unfold transform_row, mbind, py_bind. intros H.
  destruct (resolve_label _ _ _ _) as [[label agent_name]|]; [|discriminate].
  destruct (row_status_age s) as [[status age_ms]|]; [|discriminate].
  destruct (row_usage_pct _ _) as [usage_pct|]; [|discriminate].
  destruct (row_node s) as [node|]; [|discriminate].
  rewrite sanitize_session_row in H by reflexivity.
  injection H as <-. reflexivity.
Qed.

Lemma transform_sessions_keys cron_names main_agent_name
    (raw_sessions : list record) (rows : list record) :
  transform_sessions cron_names main_agent_name raw_sessions = Return rows ->
  forall row, In row rows ->
    exists s k,
      In s raw_sessions
      /\ py_get_d "key" (JStr "") s = JStr k
      /\ Str.contains ":run:" k = false
      /\ py_get "key" row = JStr k.
Proof.
  revert rows. induction raw_sessions as [|s raw IH]; intros rows H row Hin.
  - simpl in H. injection H as <-. destruct Hin.
  - cbn [transform_sessions] in H.
    destruct (run_marker_in (py_get_d "key" (JStr "") s)) as [[|]|] eqn:Hrun;
      [| |discriminate].
    + destruct (IH rows H row Hin) as (s' & k & Hs' & Hrest).
      exists s', k. split; [now right | exact Hrest].
    + destruct (py_get_d "key" (JStr "") s) as [| | |k| |] eqn:Hkey;
        try discriminate.
      destruct (transform_row cron_names main_agent_name k s) as [r|] eqn:Hrow;
        [|discriminate].
      destruct (transform_sessions cron_names main_agent_name raw) as [rs|] eqn:Hrs;
        [|discriminate].
      injection H as <-. destruct Hin as [<-|Hin].
      * exists s, k. repeat split.
        -- now left.
        -- exact Hkey.
        -- simpl in Hrun. now injection Hrun.
        -- now apply transform_row_key in Hrow.
      * destruct (IH rs eq_refl row Hin) as (s' & k' & Hs' & Hrest).
        exists s', k'. split; [now right | exact Hrest].
Qed.

Lemma transform_sessions_skip cron_names main_agent_name
    (before after : list record) (s : record) (k : string) :
  py_get_d "key" (JStr "") s = JStr k ->
  Str.contains ":run:" k = true ->
  transform_sessions cron_names main_agent_name (before ++ s :: after)
  = transform_sessions cron_names main_agent_name (before ++ after).
Proof.
  intros Hkey Hrun. induction before as [|s0 before IH].
  - cbn [app transform_sessions]. rewrite Hkey. cbn [run_marker_in].
    now rewrite Hrun.
  - cbn [app transform_sessions]. now rewrite IH.
Qed.

(** C9. A session whose key contains [:run:] is left out of the list
    [transform_sessions] returns, whatever else the session holds: the
    result, or the exception, is the one obtained without the session, and
    no row of a returned list carries a key containing [:run:]. *)
Theorem run_sessions_are_omitted cron_names main_agent_name
    (before after : list record) (s : record) (k : string) :
  py_get_d "key" (JStr "") s = JStr k ->
  Str.contains ":run:" k = true ->
  transform_sessions cron_names main_agent_name (before ++ s :: after)
  = transform_sessions cron_names main_agent_name (before ++ after)
  /\ forall rows,
       transform_sessions cron_names main_agent_name (before ++ s :: after)
       = Return rows ->
       forall row, In row rows ->
         exists k', py_get "key" row = JStr k'
                    /\ Str.contains ":run:" k' = false.
Proof.
  intros Hkey Hrun. split.
  - now apply transform_sessions_skip with (k := k).
  - intros rows Hrows row Hin.
    destruct (transform_sessions_keys _ _ _ _ Hrows row Hin)
      as (s' & k' & _ & _ & Hno & Hrowkey).
    now exists k'.
Qed.


(* ===================================================================== *)
(** * Further properties of archival and restoration *)
(* ===================================================================== *)

(** The archivals of a list of sessions, as operations. *)
Lemma sweep_loop_state clock cutoff sessions selected count fs :
  to_archive cutoff sessions = Return selected ->
  (forall key session, In (key, session) selected -> glob_accepts key session) ->
  snd (sweep_loop clock cutoff sessions count fs)
  = run_ops (map (fun item => OpArchive (clock (fst item)) (fst item) (snd item))
               selected) fs.
Proof.
  revert selected count fs.
  induction sessions as [|[k s] sessions IH]; intros selected count fs Hsel Hglob.
  - simpl in Hsel. now injection Hsel as <-.
  - simpl in Hsel. simpl.
    destruct (expired cutoff s) as [old|e] eqn:Hold; [|discriminate].
    destruct (to_archive cutoff sessions) as [rest|e] eqn:Hrest; [|discriminate].
    injection Hsel as <-. destruct old.
    + destruct (archive_session_returns (clock k) k s fs) as [result Hres];
        [apply Hglob; now left|].
      destruct (archive_session (clock k) k s fs) as [[result'|e] fs1] eqn:Harch;
        [|discriminate].
      rewrite (IH rest _ _ eq_refl).
      * unfold run_ops. simpl. now rewrite Harch.
      * intros key session Hin. apply Hglob. now right.
    + now apply IH.
Qed.

(** The sweep stops at the first expired session at which the glob raises,
    in the state the archivals before it have left. *)
Lemma sweep_loop_raises clock cutoff sessions done key session rest e count fs :
  to_archive cutoff sessions = Return (done ++ (key, session) :: rest)%list ->
  (forall k s, In (k, s) done -> glob_accepts k s) ->
  fst (archive_session (clock key) key session
         (run_ops (map (fun item => OpArchive (clock (fst item)) (fst item)
                                      (snd item)) done) fs))
  = Raise e ->
  sweep_loop clock cutoff sessions count fs
  = (Raise e,
     run_ops (map (fun item => OpArchive (clock (fst item)) (fst item) (snd item))
                done) fs).
Proof.
  revert done count fs.
  induction sessions as [|[k s] sessions IH]; intros done count fs Hsel Hglob Hraise.
  - simpl in Hsel. injection Hsel as Hsel. now destruct done.
  - simpl in Hsel. simpl.
    destruct (expired cutoff s) as [old|e'] eqn:Hold; [|discriminate].
    destruct (to_archive cutoff sessions) as [rest0|e'] eqn:Hrest; [|discriminate].
    injection Hsel as Hsel. destruct old; [|subst rest0; now apply IH].
    destruct done as [|[k' s'] done]; simpl in Hsel; injection Hsel as -> -> ->.
    + simpl in Hraise. unfold run_ops. simpl.
      destruct (archive_session (clock key) key session fs) as [[result|e'] fs1]
        eqn:Harch; simpl in Hraise; [discriminate|].
      injection Hraise as ->.
      now apply archive_session_raises in Harch as [-> _].
    + destruct (archive_session_returns (clock k') k' s' fs) as [result Hres];
        [apply Hglob; now left|].
      unfold run_ops in *. simpl in Hraise |- *.
      destruct (archive_session (clock k') k' s' fs) as [[result'|e'] fs1];
        [|discriminate].
      apply IH; [reflexivity| |exact Hraise].
      intros k s Hin. apply Hglob. now right.
Qed.


(** Whether the script finds the transcript of a selected session. *)
Lemma script_loop_dry_run_state clock selected count fs :
  snd (script_loop clock true selected count fs) = fs.
Proof.
  revert count.
  induction selected as [|[k s] selected IH]; intros count; [reflexivity|].
  simpl. unfold script_archive_session.
  destruct (find_transcript fs (py_str (py_get_d "sessionId" (JStr k) s)))
    as [[jsonl_file|]|e]; [apply IH|apply IH|reflexivity].
Qed.

Lemma script_loop_dry_run clock selected count fs :
  (forall key session,
     In (key, session) selected ->
     exists found,
       find_transcript fs (py_str (py_get_d "sessionId" (JStr key) session))
       = Return found) ->
  fst (script_loop clock true selected count fs)
  = Return
      (count
       + Z.of_nat
           (length
              (List.filter
                 (fun item =>
                    match find_transcript fs
                            (py_str (py_get_d "sessionId" (JStr (fst item))
                                       (snd item)))
                    with Return (Some _) => true | _ => false end)
                 selected))).
Proof.
  revert count.
  induction selected as [|[k s] selected IH]; intros count Hfound.
  - simpl. f_equal. lia.
  - simpl. unfold script_archive_session.
    destruct (Hfound k s (or_introl eq_refl)) as [found Hk]. rewrite Hk.
    assert (Hrest : forall key session,
               In (key, session) selected ->
               exists found,
                 find_transcript fs
                   (py_str (py_get_d "sessionId" (JStr key) session))
                 = Return found).
    { intros key session Hin. apply Hfound. now right. }
    destruct found; rewrite (IH _ Hrest); f_equal; simpl length; lia.
Qed.

Lemma script_loop_dry_run_raises clock done key session rest e count fs :
  (forall k s,
     In (k, s) done ->
     exists found,
       find_transcript fs (py_str (py_get_d "sessionId" (JStr k) s))
       = Return found) ->
  find_transcript fs (py_str (py_get_d "sessionId" (JStr key) session))
  = Raise e ->
  fst (script_loop clock true (done ++ (key, session) :: rest) count fs) = Raise e.
Proof.
  revert count.
  induction done as [|[k s] done IH]; intros count Hfound Hraise.
  - simpl. unfold script_archive_session. now rewrite Hraise.
  - simpl. unfold script_archive_session.
    destruct (Hfound k s (or_introl eq_refl)) as [found Hk]. rewrite Hk.
    destruct found; apply IH; auto; intros k1 s1 Hin; apply Hfound; now right.
Qed.


Lemma dict_get_del_eq {V} (k : string) (d : dict V) :
  dict_get k (dict_del k d) = None.
Proof.
  induction d as [|[k' v] d IH]; [reflexivity|]. simpl.
  destruct (String.eqb k k') eqn:E; [exact IH|]. simpl. now rewrite E.
Qed.

Lemma dict_get_del_ne {V} (k k' : string) (d : dict V) :
  k' <> k -> dict_get k' (dict_del k d) = dict_get k' d.
Proof.
  intros Hne. induction d as [|[k0 v] d IH]; [reflexivity|]. simpl.
  destruct (String.eqb k k0) eqn:E.
  - apply String.eqb_eq in E. subst k0.
    destruct (String.eqb k' k) eqn:E'; [apply String.eqb_eq in E'; contradiction|].
    exact IH.
  - simpl. destruct (String.eqb k' k0); [reflexivity|exact IH].
Qed.

Lemma total_compressed_app (l1 l2 : list ArchiveEntry) :
  total_compressed (l1 ++ l2) = total_compressed l1 + total_compressed l2.
Proof.
  unfold total_compressed. induction l1 as [|e l1 IH]; simpl; [reflexivity|].
  rewrite IH. lia.
Qed.

(** X3. A successful archival moves the session: its transcript leaves
    the sessions directory and the other transcripts stay, the compressed
    copy of its content is in the archive under the stem of the file's
    name, the index gains one last row with the key and the two sizes, and
    the catalog loses the key and keeps its other rows. *)
Theorem archive_moves_the_transcript
    (now : Z) (key : string) (data : record) (fs fs' : FS) :
  archive_session now key data fs = (Return (true, None), fs') ->
  exists jsonl_file content entry,
    find_transcript fs (py_str (py_get_d "sessionId" (JStr key) data))
      = Return (Some jsonl_file)
    /\ transcripts fs !! jsonl_file = Some content
    /\ transcripts fs' !! jsonl_file = None
    /\ (forall name, name <> jsonl_file ->
                     transcripts fs' !! name = transcripts fs !! name)
    /\ artifacts fs' !! (path_stem jsonl_file +:+ ".jsonl.gz")
       = Some (gzip_compress content)
    /\ idx_sessions (load_archive_index fs')
       = (idx_sessions (load_archive_index fs) ++ [entry])%list
    /\ ae_key entry = key
    /\ ae_sessionId entry = py_get_d "sessionId" (JStr key) data
    /\ ae_archivedAt entry = now
    /\ ae_originalSize entry = Z.of_nat (length content)
    /\ ae_compressedSize entry = Z.of_nat (length (gzip_compress content))
    /\ (forall sessions', sessions_json fs' = Parsed (Catalog sessions') ->
          dict_get key sessions' = None
          /\ exists sessions,
               sessions_json fs = Parsed (Catalog sessions)
               /\ forall k, k <> key -> dict_get k sessions' = dict_get k sessions).
Proof.
  intros H.
  destruct (archive_session_true _ _ _ _ _ H)
    as (jsonl_file & content & task & Hfind & Hdata & _ & _ & Htr & Hart & Hidx & Hsess).
  exists jsonl_file, content,
    (new_entry now key data (py_get_d "sessionId" (JStr key) data)
       (Z.of_nat (length content)) (Z.of_nat (length (gzip_compress content))) task).
  split; [exact Hfind|]. split; [exact Hdata|].
  split; [rewrite Htr; apply lookup_delete_eq|].
  split; [intros name Hne; rewrite Htr; now apply lookup_delete_ne|].
  split; [rewrite Hart; apply lookup_insert_eq|].
  split; [unfold load_archive_index; now rewrite Hidx|].
  do 5 (split; [reflexivity|]).
  intros sessions' Hs'. rewrite Hs' in Hsess.
  destruct (sessions_json fs) as [| |[sessions|v]] eqn:Hs; try discriminate.
  injection Hsess as ->.
  destruct (dict_get key sessions) eqn:Hk.
  - split; [apply dict_get_del_eq|].
    exists sessions. split; [reflexivity|].
    intros k Hne. now apply dict_get_del_ne.
  - split; [exact Hk|]. exists sessions. split; [reflexivity|]. reflexivity.
Qed.

(** X4. When the index total is the sum of the compressed sizes of its
    rows, a successful archival raises it by exactly the size of the new
    compressed file. *)
Theorem archive_adds_the_compressed_size
    (now : Z) (key : string) (data : record) (fs fs' : FS) :
  index_ok (load_archive_index fs) ->
  archive_session now key data fs = (Return (true, None), fs') ->
  exists jsonl_file content,
    find_transcript fs (py_str (py_get_d "sessionId" (JStr key) data))
      = Return (Some jsonl_file)
    /\ transcripts fs !! jsonl_file = Some content
    /\ idx_totalSize (load_archive_index fs')
       = idx_totalSize (load_archive_index fs)
         + Z.of_nat (length (gzip_compress content)).
Proof.
  intros Hok H.
  destruct (archive_session_true _ _ _ _ _ H)
    as (jsonl_file & content & task & Hfind & Hdata & _ & _ & _ & _ & Hidx & _).
  exists jsonl_file, content. split; [exact Hfind|]. split; [exact Hdata|].
  unfold load_archive_index at 1. rewrite Hidx. cbn [idx_totalSize].
  rewrite sum_compressed_total, total_compressed_app, Hok.
  unfold total_compressed. simpl. lia.
Qed.



Lemma archive_session_keeps_transcripts
    (now : Z) (key : string) (data : record) (fs fs' : FS)
    (result : py (bool * option archive_error)) :
  (sessions_json fs = Missing
   \/ exists sessions, sessions_json fs = Parsed (Catalog sessions)) ->
  archive_session now key data fs = (result, fs') ->
  forall name content,
    transcripts fs !! name = Some content ->
    transcripts fs' !! name = Some content
    \/ artifacts fs' !! (path_stem name +:+ ".jsonl.gz")
       = Some (gzip_compress content).
Proof.
  intros Hobj H name content Hname. unfold archive_session in H.
  destruct (find_transcript fs (py_str (py_get_d "sessionId" (JStr key) data)))
    as [[jsonl_file|]|e];
    [|injection H as _ <-; now left|injection H as _ <-; now left].
  destruct (transcripts fs !! jsonl_file) as [found|] eqn:Hfound;
    [|injection H as _ <-; now left].
  unfold archive_commit, get_file_size_bytes in H.
  rewrite load_archive_index_set_artifacts in H.
  cbn [transcripts artifacts sessions_json set_artifacts set_transcripts
       save_archive_index set_archive_index_json] in H.
  rewrite !Hfound in H.
  destruct (extract_first_user_message found) as [task|e];
    [|injection H as _ <-; cbn; now left].
  destruct Hobj as [Hs|[sessions Hs]]; rewrite Hs in H.
  - injection H as _ <-. cbn.
    destruct (decide (name = jsonl_file)) as [->|Hne].
    + right. rewrite Hfound in Hname. injection Hname as ->.
      apply lookup_insert_eq.
    + left. now rewrite lookup_delete_ne.
  - destruct (dict_get key sessions); injection H as _ <-; cbn;
      (destruct (decide (name = jsonl_file)) as [->|Hne];
       [right; rewrite Hfound in Hname; injection Hname as ->;
        apply lookup_insert_eq
       |left; now rewrite lookup_delete_ne]).
Qed.


(** X7. With a sessions.json that is there and does not decode,
    [archive_session] destroys the transcript it was asked to archive: the
    index row is written and the transcript deleted before the catalog is
    read, and the handler of the exception then deletes the compressed
    copy. *)
Theorem archive_with_corrupt_catalog_loses_the_transcript
    (now : Z) (key : string) (data : record) (fs : FS)
    (jsonl_file : string) (content : bytes) (task : json) :
  sessions_json fs = Corrupt ->
  find_transcript fs (py_str (py_get_d "sessionId" (JStr key) data))
    = Return (Some jsonl_file) ->
  transcripts fs !! jsonl_file = Some content ->
  extract_first_user_message content = Return task ->
  exists fs',
    archive_session now key data fs
    = (Return (false, Some (ArchiveFailed JSONDecodeError)), fs')
    /\ transcripts fs' !! jsonl_file = None
    /\ artifacts fs' !! (path_stem jsonl_file +:+ ".jsonl.gz") = None
    /\ exists entry,
         In entry (idx_sessions (load_archive_index fs'))
         /\ ae_key entry = key
         /\ ae_originalSize entry = Z.of_nat (length content).
Proof.
  intros Hs Hfind Hdata Htask. unfold archive_session. rewrite Hfind, Hdata.
  unfold archive_commit, get_file_size_bytes.
  rewrite load_archive_index_set_artifacts.
  cbn [transcripts artifacts sessions_json set_artifacts set_transcripts
       save_archive_index set_archive_index_json].
  rewrite !Hdata, Htask, Hs.
  eexists. split; [reflexivity|]. cbn.
  split; [apply lookup_delete_eq|]. split; [apply lookup_delete_eq|].
  eexists. split; [apply in_or_app; right; now left|].
  split; reflexivity.
Qed.

Lemma string_app_inv_tail (s1 s2 t : string) :
  s1 +:+ t = s2 +:+ t -> s1 = s2.
Proof.
  revert s2. induction s1 as [|a s1 IH]; intros [|b s2] H.
  - reflexivity.
  - apply (f_equal String.length) in H.
    rewrite !string_length_app in H. simpl in H. lia.
  - apply (f_equal String.length) in H.
    rewrite !string_length_app in H. simpl in H. lia.
  - change (String a s1 +:+ t) with (String a (s1 +:+ t)) in H.
    change (String b s2 +:+ t) with (String b (s2 +:+ t)) in H.
    injection H as -> H. f_equal. now apply IH.
Qed.

(** X8. A session whose transcript was found by the glob, under a name
    whose stem is not the session id, cannot be restored: the compressed
    file is named after the stem, and [restore_session] looks for it under
    the session id. The restoration fails and changes nothing. *)
Theorem glob_archived_session_is_not_restorable
    (now1 now2 : Z) (key : string) (data : record) (fs fs1 : FS)
    (jsonl_file : string) :
  let sid := py_str (py_get_d "sessionId" (JStr key) data) in
  find_transcript fs sid = Return (Some jsonl_file) ->
  path_stem jsonl_file <> sid ->
  artifacts fs !! (sid +:+ ".jsonl.gz") = None ->
  (forall e, In e (idx_sessions (load_archive_index fs)) ->
             entry_matches key e = false) ->
  archive_session now1 key data fs = (Return (true, None), fs1) ->
  restore_session now2 key fs1 = (false, fs1).
Proof.
  intros sid Hfind Hstem Hart Hfresh H.
  destruct (archive_session_true _ _ _ _ _ H)
    as (jsonl_file' & content & task & Hfind' & _ & _ & _ & _ & Hart1 & Hidx & _).
  fold sid in Hfind'. rewrite Hfind in Hfind'. injection Hfind' as <-.
  unfold restore_session.
  unfold load_archive_index at 1. rewrite Hidx. cbn [idx_sessions].
  rewrite (find_app_last _ _ _ Hfresh);
    [|unfold entry_matches; cbn [ae_key new_entry]; now rewrite String.eqb_refl].
  cbn [ae_sessionId new_entry]. fold sid. rewrite Hart1.
  rewrite lookup_insert_ne; [now rewrite Hart|].
  intros Heq. apply Hstem.
  apply (string_app_inv_tail _ _ ".jsonl.gz"). exact Heq.
Qed.

(** X9. A restoration by key drops every index row of that key, but it
    restores, and removes from the archive, only the file of the first
    one: the compressed files of the other rows of the key stay in the
    archive, no longer indexed. *)
Theorem restore_drops_every_row_of_the_key
    (now : Z) (key : string) (fs fs' : FS) :
  restore_session now key fs = (true, fs') ->
  exists session_info,
    List.find (entry_matches key) (idx_sessions (load_archive_index fs))
      = Some session_info
    /\ artifacts fs' !! (py_str (ae_sessionId session_info) +:+ ".jsonl.gz") = None
    /\ forall e,
         In e (idx_sessions (load_archive_index fs)) ->
         ae_key e = key ->
         ~ In e (idx_sessions (load_archive_index fs'))
         /\ (py_str (ae_sessionId e) <> py_str (ae_sessionId session_info) ->
             artifacts fs' !! (py_str (ae_sessionId e) +:+ ".jsonl.gz")
             = artifacts fs !! (py_str (ae_sessionId e) +:+ ".jsonl.gz")).
Proof.
  intros H.
  destruct (restore_session_true _ _ _ _ H)
    as (session_info & compressed & data & Hfind & _ & _ & _ & _ & Hart & _ & Hidx).
  exists session_info. split; [exact Hfind|].
  split; [rewrite Hart; apply lookup_delete_eq|].
  intros e Hin Hkey. split.
  - unfold load_archive_index at 1. rewrite Hidx. cbn [idx_sessions].
    intros Hin'. apply filter_In in Hin' as [_ Hne].
    rewrite Hkey, String.eqb_refl in Hne. discriminate.
  - intros Hne. rewrite Hart. apply lookup_delete_ne.
    intros Heq. apply Hne. symmetry.
    apply (string_app_inv_tail _ _ ".jsonl.gz"). exact Heq.
Qed.


(* ===================================================================== *)
(** * Versions *)
(* ===================================================================== *)

Lemma ints_of_raises (parts : list string) (e : exn) :
  ints_of parts = Raise e -> e = ValueError.
Proof using int_of_str_raises_value_error.
  induction parts as [|p parts IH]; simpl; [discriminate|].
  destruct (int_of_str p) as [n|e'] eqn:Hp.
  - destruct (ints_of parts) as [ns|e'']; [discriminate|].
    intros [= <-]. now apply IH.
  - intros [= <-]. now apply (int_of_str_raises_value_error p).
Qed.

Lemma compare_versions_str (current latest : string) :
  compare_versions (JStr current) (JStr latest)
  = Return
      match parse_version (JStr current), parse_version (JStr latest) with
      | Return curr_parts, Return latest_parts => list_gt latest_parts curr_parts
      | _, _ => false
      end.
Proof using int_of_str_raises_value_error.
  unfold compare_versions.
  destruct (parse_version (JStr current)) as [c|e] eqn:Hc.
  - destruct (parse_version (JStr latest)) as [l|e] eqn:Hl; [reflexivity|].
    apply ints_of_raises in Hl. now subst e.
  - apply ints_of_raises in Hc. now subst e.
Qed.

Lemma list_gt_irrefl (a : list Z) : list_gt a a = false.
Proof. induction a as [|x a IH]; simpl; [reflexivity|]. now rewrite Z.eqb_refl. Qed.

Lemma list_gt_asym (a b : list Z) : list_gt a b = true -> list_gt b a = false.
Proof.
  revert b. induction a as [|x a IH]; intros [|y b]; simpl; try easy.
  destruct (Z.eqb_spec x y) as [->|Hne].
  - rewrite Z.eqb_refl. apply IH.
  - intros Hlt. apply Z.ltb_lt in Hlt.
    destruct (Z.eqb_spec y x) as [->|_]; [lia|]. apply Z.ltb_ge. lia.
Qed.

Lemma list_gt_trans (a b c : list Z) :
  list_gt a b = true -> list_gt b c = true -> list_gt a c = true.
Proof.
  revert b c. induction a as [|x a IH]; intros [|y b] [|z c]; simpl; try easy.
  destruct (Z.eqb_spec x y) as [->|Hxy].
  - destruct (Z.eqb_spec y z) as [->|Hyz]; [apply IH|easy].
  - intros Hyx. apply Z.ltb_lt in Hyx.
    destruct (Z.eqb_spec y z) as [->|Hyz].
    + intros _. destruct (Z.eqb_spec x z) as [->|_]; [lia|]. now apply Z.ltb_lt.
    + intros Hzy. apply Z.ltb_lt in Hzy.
      destruct (Z.eqb_spec x z) as [->|_]; [lia|]. apply Z.ltb_lt. lia.
Qed.

(** X10. On version strings [compare_versions] never raises, and "there
    is an update from a to b" is a strict order: no version is an update
    of itself, two versions are never updates of each other, and an update
    of an update is an update. A string that does not parse is an update of
    nothing and has no update. *)
Theorem compare_versions_is_a_strict_order (a b c : string) :
  (exists newer, compare_versions (JStr a) (JStr b) = Return newer)
  /\ compare_versions (JStr a) (JStr a) = Return false
  /\ (compare_versions (JStr a) (JStr b) = Return true ->
      compare_versions (JStr b) (JStr a) = Return false)
  /\ (compare_versions (JStr a) (JStr b) = Return true ->
      compare_versions (JStr b) (JStr c) = Return true ->
      compare_versions (JStr a) (JStr c) = Return true)
  /\ (forall e, parse_version (JStr a) = Raise e ->
                compare_versions (JStr a) (JStr b) = Return false
                /\ compare_versions (JStr b) (JStr a) = Return false).
Proof using int_of_str_raises_value_error.
  rewrite !compare_versions_str.
  destruct (parse_version (JStr a)) as [pa|ea];
    destruct (parse_version (JStr b)) as [pb|eb];
    destruct (parse_version (JStr c)) as [pc|ec];
    repeat match goal with
           | |- _ /\ _ => split
           | |- exists _, _ => eexists; reflexivity
           | |- forall _, _ => intro
           end;
    try discriminate; try reflexivity;
    try (f_equal; apply list_gt_irrefl).
  all: repeat match goal with
              | H : Return _ = Return _ |- _ => injection H as H
              end.
  all: try (f_equal; now apply list_gt_asym).
  all: f_equal; eapply list_gt_trans; eassumption.
Qed.

Lemma split_dash_head (base tag cur : string) :
  Str.contains "-" base = false ->
  hd EmptyString (Str.split_from "-" cur 0 (base +:+ String "-" tag))
  = hd EmptyString (Str.split_from "-" cur 0 base).
Proof.
  revert cur. induction base as [|a base IH]; intros cur Hc.
  - reflexivity.
  - cbn [Str.contains Str.startswith] in Hc.
    change (String a base +:+ String "-" tag)
      with (String a (base +:+ String "-" tag)).
    cbn [Str.split_from Str.startswith].
    destruct (Ascii.eqb "-" a) eqn:E; [discriminate|].
    now apply IH.
Qed.

(** X11. What follows the first hyphen of a version plays no part in the
    comparison: a version and any of its pre-releases compare alike with
    every other value, so neither is an update of the other. *)
Theorem compare_versions_ignores_the_suffix (base tag : string) (other : json) :
  Str.contains "-" base = false ->
  compare_versions other (JStr (base +:+ "-" +:+ tag))
  = compare_versions other (JStr base)
  /\ compare_versions (JStr (base +:+ "-" +:+ tag)) other
     = compare_versions (JStr base) other
  /\ compare_versions (JStr base) (JStr (base +:+ "-" +:+ tag)) = Return false
  /\ compare_versions (JStr (base +:+ "-" +:+ tag)) (JStr base) = Return false.
Proof using int_of_str_raises_value_error.
  intros Hc.
  assert (Hp : parse_version (JStr (base +:+ "-" +:+ tag))
               = parse_version (JStr base)).
  { unfold parse_version, Str.split.
    change ("-" +:+ tag) with (String "-" tag).
    now rewrite split_dash_head. }
  assert (H1 : forall v, compare_versions v (JStr (base +:+ "-" +:+ tag))
                         = compare_versions v (JStr base)).
  { intros v. unfold compare_versions. now rewrite Hp. }
  assert (H2 : forall v, compare_versions (JStr (base +:+ "-" +:+ tag)) v
                         = compare_versions (JStr base) v).
  { intros v. unfold compare_versions. now rewrite Hp. }
  split; [apply H1|]. split; [apply H2|].
  rewrite H1, H2, compare_versions_str.
  split; destruct (parse_version (JStr base)); try reflexivity;
    f_equal; apply list_gt_irrefl.
Qed.


(* ===================================================================== *)
(** * Settings *)
(* ===================================================================== *)

Lemma dict_get_set_ne {V} (k k' : string) (v : V) (d : dict V) :
  k' <> k -> dict_get k' (dict_set k v d) = dict_get k' d.
Proof.
  intros Hne. induction d as [|[k0 v0] d IH]; simpl.
  - destruct (String.eqb k' k) eqn:E; [apply String.eqb_eq in E; contradiction|].
    reflexivity.
  - destruct (String.eqb k k0) eqn:E; simpl.
    + apply String.eqb_eq in E. subst k0.
      destruct (String.eqb k' k) eqn:E'; [apply String.eqb_eq in E'; contradiction|].
      reflexivity.
    + destruct (String.eqb k' k0); [reflexivity|exact IH].
Qed.

Lemma valid_page_size_num (page_size : json) :
  valid_page_size page_size = true ->
  exists p, page_size = JNum p /\ In p [10; 25; 50; 100].
Proof.
  unfold valid_page_size.
  destruct page_size as [|[|]|z|s|items|fields]; try discriminate.
  cbn [existsb py_eq]. intros H. exists z. split; [reflexivity|].
  repeat (apply orb_true_iff in H as [H|H];
          [apply Z.eqb_eq in H; subst z; cbn; auto 10|]).
  discriminate.
Qed.

(** The page-size step of lines 1869-1873 keeps the retention and leaves a
    page size of the list, or 20. *)
Lemma page_size_step (validated : record) (v : json) :
  dict_get "retentionDays" validated = Some v ->
  let saved :=
    if valid_page_size (py_get_d "pageSize" (JNum 20) validated) then validated
    else dict_set "pageSize" (JNum 20) validated in
  dict_get "retentionDays" saved = Some v
  /\ exists p, py_get "pageSize" saved = JNum p /\ In p [10; 25; 50; 100; 20].
Proof.
  intros Hret saved. subst saved.
  destruct (valid_page_size (py_get_d "pageSize" (JNum 20) validated)) eqn:Hv.
  - split; [exact Hret|].
    destruct (valid_page_size_num _ Hv) as (p & Hp & Hin).
    exists p. split; [|destruct Hin as [<-|[<-|[<-|[<-|[]]]]]; cbn; auto 10].
    unfold py_get_d in Hp, Hv. unfold py_get.
    destruct (dict_get "pageSize" validated); [exact Hp|discriminate].
  - split; [rewrite dict_get_set_ne; [exact Hret|discriminate]|].
    exists 20. split; [|cbn; auto 10].
    unfold py_get. now rewrite dict_get_set_eq.
Qed.

Lemma run_archive_request_of_saved (saved : record) (v : json) (r : retention) :
  dict_get "retentionDays" saved = Some v ->
  (v = JStr "never" /\ r = Never \/ exists n, v = JNum n /\ r = Days n) ->
  forall now clock fs,
    handle_run_archive_request (Parsed (JObj saved)) now clock fs
    = handle_run_archive r now clock fs.
Proof.
  intros Hget Hv now clock fs. unfold handle_run_archive_request, load_settings.
  unfold py_get_d. rewrite Hget.
  destruct Hv as [[-> ->]|(n & -> & ->)]; reflexivity.
Qed.

(** X12. [handle_save_settings] either rejects the request and leaves
    settings.json as it was, or stores settings whose retention is 'never'
    or an integer of at least one day and whose page size is 10, 25, 50,
    100 or 20; a sweep run on the stored file then takes exactly that
    retention, and cannot fail on reading it. *)
Theorem save_settings_stores_valid_settings
    (body : py json) (settings_file settings_file' : json_file json)
    (r : response) :
  handle_save_settings body settings_file = (r, settings_file') ->
  (settings_file' = settings_file /\ forall data, r <> SendJson data)
  \/ exists saved stored page_size,
       r = SendJson (JObj [("success", JBool true); ("settings", JObj saved)])
       /\ settings_file' = Parsed (JObj saved)
       /\ (stored = Never /\ py_get "retentionDays" saved = JStr "never"
           \/ exists n, stored = Days n /\ 1 <= n
                        /\ py_get "retentionDays" saved = JNum n)
       /\ py_get "pageSize" saved = JNum page_size
       /\ In page_size [10; 25; 50; 100; 20]
       /\ forall now clock fs,
            handle_run_archive_request settings_file' now clock fs
            = handle_run_archive stored now clock fs.
Proof.
  unfold handle_save_settings. intros H.
  destruct body as [[| | | | |new_settings]|e];
    try (injection H as <- <-; left; split; [reflexivity|discriminate]).
  destruct (py_eq_str (py_get "retentionDays" new_settings) "never") eqn:Hnever.
  - assert (Hget : dict_get "retentionDays" new_settings = Some (JStr "never")).
    { unfold py_get in Hnever.
      destruct (dict_get "retentionDays" new_settings) as [v|]; [|discriminate].
      destruct v; try discriminate. cbn in Hnever.
      apply String.eqb_eq in Hnever. now subst. }
    destruct (page_size_step new_settings _ Hget) as (Hret & p & Hp & Hin).
    injection H as <- <-. right.
    eexists _, Never, p. split; [reflexivity|]. split; [reflexivity|].
    split; [left; split; [reflexivity|unfold py_get; now rewrite Hret]|].
    split; [exact Hp|]. split; [exact Hin|].
    apply (run_archive_request_of_saved _ _ _ Hret). now left.
  - destruct (py_int (py_get "retentionDays" new_settings)) as [n|e] eqn:Hint.
    + destruct (Z.ltb_spec n 1) as [Hlt|Hge].
      * injection H as <- <-. left. split; [reflexivity|discriminate].
      * assert (Hget : dict_get "retentionDays"
                         (dict_set "retentionDays" (JNum n) new_settings)
                       = Some (JNum n)) by apply dict_get_set_eq.
        destruct (page_size_step _ _ Hget) as (Hret & p & Hp & Hin).
        injection H as <- <-. right.
        eexists _, (Days n), p. split; [reflexivity|]. split; [reflexivity|].
        split; [right; exists n; split; [reflexivity|]; split; [exact Hge|];
                unfold py_get; now rewrite Hret|].
        split; [exact Hp|]. split; [exact Hin|].
        apply (run_archive_request_of_saved _ _ _ Hret). right. now exists n.
    + destruct e; injection H as <- <-; left; (split; [reflexivity|discriminate]).
Qed.


(* ===================================================================== *)
(** * The POST interface *)
(* ===================================================================== *)

Lemma find_ext {A} (f g : A -> bool) (l : list A) :
  (forall a, f a = g a) -> List.find f l = List.find g l.
Proof.
  intros Hfg. induction l as [|a l IH]; [reflexivity|]. simpl.
  now rewrite Hfg, IH.
Qed.

Lemma py_eq_JStr (v : json) (s : string) : py_eq v (JStr s) = py_eq_str v s.
Proof. now destruct v. Qed.

Lemma restore_session_any_str (now : Z) (key : string) (fs : FS) :
  restore_session_any now (JStr key) fs = restore_session now key fs.
Proof.
  unfold restore_session_any, restore_session.
  rewrite (find_ext _ (entry_matches key))
    by (intros s; unfold entry_matches; now rewrite !py_eq_JStr).
  rewrite (filter_ext _ (fun s => negb (String.eqb (ae_key s) key)))
    by reflexivity.
  reflexivity.
Qed.

(** X13. A POST request that fails authentication changes neither the
    storage root nor the settings file, whatever its path and body; under
    [/api/] (logout apart) it is answered 401. *)
Theorem unauthorized_post_changes_nothing
    (app_config : record) (now : Z) (clock : string -> Z) (req : request)
    (fs : FS) (settings_file : json_file json) :
  check_auth app_config req = false ->
  exists r,
    do_POST app_config now clock req fs settings_file = (Sent r, fs, settings_file)
    /\ (Str.startswith "/api/" (req_path req) = true ->
        req_path req <> "/api/logout" ->
        r = SendError 401 "Unauthorized. Please provide a valid token.").
Proof.
  intros Hauth. unfold do_POST. rewrite Hauth.
  destruct (String.eqb_spec (req_path req) "/api/logout") as [E|E];
    [eexists; split; [reflexivity|]; intros _ Hne; contradiction|].
  destruct (Str.startswith "/api/" (req_path req)) eqn:Hapi; cbn [andb negb].
  - eexists. split; reflexivity.
  - repeat match goal with
           | |- context [String.eqb (req_path req) ?p] =>
               destruct (String.eqb_spec (req_path req) p) as [E'|_];
               [rewrite E' in Hapi; discriminate|]
           end.
    eexists. split; [reflexivity|discriminate].
Qed.

(** X14. In read-only mode no POST request changes the storage root:
    archiving, restoring and the sweep are refused with 403. The settings
    are not covered: an authorized request to [/api/settings] is handled
    as in read-write mode. *)
Theorem read_only_post_keeps_the_storage_root
    (app_config : record) (now : Z) (clock : string -> Z) (req : request)
    (fs : FS) (settings_file : json_file json) :
  py_truthy (is_read_only app_config) = true ->
  snd (fst (do_POST app_config now clock req fs settings_file)) = fs
  /\ (In (req_path req) ["/api/archive"; "/api/restore"; "/api/run-archive"] ->
      check_auth app_config req = true ->
      do_POST app_config now clock req fs settings_file
      = (Sent (SendError 403 "Dashboard is in read-only mode"), fs, settings_file))
  /\ (req_path req = "/api/settings" ->
      check_auth app_config req = true ->
      do_POST app_config now clock req fs settings_file
      = (Sent (fst (handle_save_settings (req_body req) settings_file)), fs,
         snd (handle_save_settings (req_body req) settings_file))).
Proof.
  intros Hro. unfold do_POST. rewrite Hro. split; [|split].
  - repeat match goal with
           | |- context [if ?c then _ else _] => destruct c
           end; try reflexivity.
    now destruct (handle_save_settings (req_body req) settings_file).
  - intros Hin Hauth. rewrite Hauth, andb_false_r.
    cbn [In] in Hin.
    destruct Hin as [<-|[<-|[<-|[]]]]; reflexivity.
  - intros -> Hauth. rewrite Hauth, andb_false_r. cbn.
    now destruct (handle_save_settings (req_body req) settings_file).
Qed.

Lemma auth_mode_none (m : json) (app_config : record) :
  m <> JStr "none" ->
  py_eq_str (get_auth_mode (dict_set "authMode" m app_config)) "none" = false.
Proof.
  intros Hm. unfold get_auth_mode, py_get_d. rewrite dict_get_set_eq.
  destruct (existsb (py_eq m) [JStr "none"; JStr "key"; JStr "login"; JStr "both"]);
    [|reflexivity].
  destruct m as [| | |s| |]; try reflexivity. cbn.
  destruct (String.eqb_spec s "none") as [->|_]; [contradiction|reflexivity].
Qed.

(** X15. Apart from 'none', the configured mode plays no part in
    [check_auth]: a request is accepted under one mode exactly when it is
    under another. In particular the token passed as the [key] parameter
    of the URL is accepted in every such mode, 'login' included. *)
Theorem check_auth_ignores_the_mode
    (app_config : record) (m1 m2 : json) (req : request) :
  m1 <> JStr "none" ->
  m2 <> JStr "none" ->
  check_auth (dict_set "authMode" m1 app_config) req
  = check_auth (dict_set "authMode" m2 app_config) req
  /\ forall token,
       dict_get "dashboardToken" app_config = Some (JStr token) ->
       req_key req = Some token ->
       check_auth (dict_set "authMode" m1 app_config) req = true.
Proof.
  intros H1 H2.
  assert (Hc : forall m, m <> JStr "none" ->
                 check_auth (dict_set "authMode" m app_config) req
                 = check_auth (dict_set "authMode" (JStr "login") app_config) req).
  { intros m Hm.
    unfold check_auth, is_auth_enabled, validate_token_hash, py_get.
    rewrite !auth_mode_none by (exact Hm || discriminate).
    now rewrite !dict_get_set_ne by discriminate. }
  split; [now rewrite (Hc m1), (Hc m2)|].
  intros token Htoken Hkey.
  unfold check_auth, is_auth_enabled, py_get.
  rewrite auth_mode_none by exact H1.
  rewrite !dict_get_set_ne by discriminate. rewrite Htoken, Hkey.
  cbn [py_truthy py_eq_str]. rewrite String.eqb_refl.
  destruct (String.eqb token ""); cbn [negb andb]; [reflexivity|].
  now destruct (Str.startswith "Bearer " (req_authorization req)
                && String.eqb token (Str.drop 7 (req_authorization req))).
Qed.


Lemma restore_session_any_true
    (now : Z) (session_key : json) (fs fs' : FS) :
  restore_session_any now session_key fs = (true, fs') ->
  exists session_info compressed data,
    In session_info (idx_sessions (load_archive_index fs))
    /\ artifacts fs !! (py_str (ae_sessionId session_info) +:+ ".jsonl.gz")
       = Some compressed
    /\ gzip_decompress compressed = Inflated data
    /\ transcripts fs'
       = <[py_str (ae_sessionId session_info) +:+ ".jsonl" := data]> (transcripts fs)
    /\ artifacts fs'
       = delete (py_str (ae_sessionId session_info) +:+ ".jsonl.gz") (artifacts fs)
    /\ exists sessions,
         sessions_json fs' = Parsed (Catalog sessions)
         /\ dict_get (ae_key session_info) sessions
            = Some (restored_row now session_info).
Proof.
  unfold restore_session_any. intros H.
  destruct (List.find _ (idx_sessions (load_archive_index fs)))
    as [session_info|] eqn:Hfind; [|discriminate].
  apply find_some in Hfind as [Hin _].
  destruct (artifacts fs !! (py_str (ae_sessionId session_info) +:+ ".jsonl.gz"))
    as [compressed|] eqn:Hart; [|discriminate].
  destruct (gzip_decompress compressed) as [data|partial] eqn:Hgz; [|discriminate].
  cbn [sessions_json set_transcripts] in H.
  exists session_info, compressed, data.
  destruct (sessions_json fs) as [| |[c|v]]; try discriminate;
    injection H as <-;
    cbn [sessions_json transcripts artifacts set_sessions_json set_artifacts
         save_archive_index set_archive_index_json set_transcripts];
    repeat split; auto;
    eexists; (split; [reflexivity|]).
  - apply (dict_get_set_eq (ae_key session_info) _ []).
  - apply dict_get_set_eq.
Qed.

Lemma restore_session_any_false
    (now : Z) (session_key : json) (fs fs' : FS) :
  restore_session_any now session_key fs = (false, fs') ->
  artifacts fs' = artifacts fs
  /\ archive_index_json fs' = archive_index_json fs
  /\ sessions_json fs' = sessions_json fs.
Proof.
  unfold restore_session_any. intros H.
  destruct (List.find _ (idx_sessions (load_archive_index fs)))
    as [session_info|]; [|injection H as <-; now repeat split].
  destruct (artifacts fs !! (py_str (ae_sessionId session_info) +:+ ".jsonl.gz"))
    as [compressed|]; [|injection H as <-; now repeat split].
  destruct (gzip_decompress compressed) as [data|partial];
    [|injection H as <-; now repeat split].
  cbn [sessions_json set_transcripts] in H.
  destruct (sessions_json fs) as [| |[c|v]] eqn:Hs; try discriminate;
    injection H as <-; cbn; now rewrite Hs.
Qed.



(* ===================================================================== *)
(** * Transcript views *)
(* ===================================================================== *)

Lemma history_message_item (text_parts : list json -> list json)
    (entry : json) (item : record) :
  history_message text_parts entry = Return (Some item) ->
  exists role content timestamp,
    item = [("role", role); ("content", content); ("timestamp", timestamp)]
    /\ py_eq_str role "toolResult" = false
    /\ py_truthy content = true.
Proof.
  unfold history_message. destruct entry as [| | | | |e]; try discriminate.
  cbn [as_dict mbind py_bind].
  destruct (py_eq_str (py_get "type" e) "message"); [|discriminate].
  destruct (dict_get "message" e) as [message|]; [|discriminate].
  destruct message as [| | | | |msg]; try discriminate.
  cbn [as_dict mbind py_bind].
  destruct (py_eq_str (py_get_d "role" (JStr "unknown") msg) "toolResult") eqn:Hrole;
    [discriminate|].
  set (content :=
         match py_get_d "content" (JStr "") msg with
         | JArr items =>
             parts ← all_strings (text_parts items);
             Return (JStr (Str.join (String "010" EmptyString) parts))
         | other => Return other
         end).
  destruct content as [c|err]; [|discriminate]. cbn [mbind py_bind].
  destruct (py_truthy c) eqn:Hc; [|discriminate].
  intros [= <-]. now eexists _, _, _.
Qed.

(** X18. Whatever the transcript holds, no item of a history has the
    role toolResult or an empty content, and every item has exactly the
    fields role, content and timestamp. *)
Theorem history_has_no_tool_results_or_empty_messages
    (text_parts : list json -> list json) (lines : list string)
    (history : list record) :
  history_loop text_parts lines = Return history ->
  Forall (fun item =>
            py_eq_str (py_get "role" item) "toolResult" = false
            /\ py_truthy (py_get "content" item) = true
            /\ dict_keys item = ["role"; "content"; "timestamp"])
         history.
Proof.
  revert history. induction lines as [|line lines IH]; intros history H.
  - injection H as <-. constructor.
  - cbn [history_loop] in H.
    destruct (String.eqb (Str.strip line) ""); [now apply IH|].
    destruct (json_loads (Str.strip line)) as [entry|e].
    + destruct (history_message text_parts entry) as [item|e] eqn:Hitem.
      * destruct (history_loop text_parts lines) as [rest|e]; [|discriminate].
        injection H as <-. specialize (IH rest eq_refl).
        destruct item as [item|]; [|exact IH].
        constructor; [|exact IH].
        destruct (history_message_item _ _ _ Hitem)
          as (role & content & timestamp & -> & Hrole & Hcontent).
        now repeat split.
      * destruct e; try discriminate. now apply IH.
    + destruct e; try discriminate. now apply IH.
Qed.

(** X19. The three readers of a transcript pass over blank lines and
    lines that do not decode: the history, the result and the first user
    message are those of the transcript without such lines. *)
Theorem readers_skip_blank_and_undecodable_lines
    (text_parts : list json -> list json) (lines : list string)
    (last : option record) :
  let kept :=
    List.filter
      (fun line =>
         negb (String.eqb (Str.strip line) "")
         && match json_loads (Str.strip line) with
            | Raise JSONDecodeError => false
            | _ => true
            end)
      lines in
  history_loop text_parts lines = history_loop text_parts kept
  /\ result_loop lines last = result_loop kept last
  /\ first_user_message lines = first_user_message kept.
Proof.
  cbv zeta. revert last. induction lines as [|line lines IH]; intros last.
  - now repeat split.
  - cbn [List.filter history_loop result_loop first_user_message].
    destruct (String.eqb (Str.strip line) "") eqn:Hblank; cbn [negb andb];
      [apply IH|].
    destruct (json_loads (Str.strip line)) as [entry|e] eqn:Hload.
    + cbn [history_loop result_loop first_user_message].
      rewrite Hblank, Hload.
      destruct (IH last) as (Hh & _ & Hf). rewrite Hh, Hf.
      split; [reflexivity|]. split; [|reflexivity].
      destruct (result_message entry) as [[found|]|e];
        try apply IH; try reflexivity.
      destruct e; try reflexivity; apply IH.
    + destruct e; try apply IH;
        cbn [history_loop result_loop first_user_message];
        rewrite Hblank, Hload; now repeat split.
Qed.

Lemma archived_text_parts_eq (content : list json) :
  archived_text_parts content = history_text_parts content.
Proof.
  induction content as [|item content IH]; [reflexivity|].
  cbn [archived_text_parts history_text_parts]. rewrite IH.
  destruct item as [| | | | |fields]; try reflexivity.
  destruct (py_eq_str (py_get "type" fields) "text"); [reflexivity|].
  destruct (py_get "type" fields) as [| | |s| |]; try reflexivity.
  cbn [py_eq_str].
  destruct (String.eqb_spec s "thinking") as [->|_]; reflexivity.
Qed.

Lemma archived_history_loop (lines : list string) :
  history_loop archived_text_parts lines = history_loop history_text_parts lines.
Proof.
  induction lines as [|line lines IH]; [reflexivity|].
  cbn [history_loop]. rewrite IH.
  assert (Hm : forall entry, history_message archived_text_parts entry
                             = history_message history_text_parts entry).
  { intros entry. unfold history_message.
    destruct entry as [| | | | |e]; try reflexivity. cbn [as_dict mbind py_bind].
    destruct (py_eq_str (py_get "type" e) "message"); [|reflexivity].
    destruct (dict_get "message" e) as [[| | | | |msg]|]; try reflexivity.
    cbn [as_dict mbind py_bind].
    destruct (py_eq_str (py_get_d "role" (JStr "unknown") msg) "toolResult");
      [reflexivity|].
    destruct (py_get_d "content" (JStr "") msg); try reflexivity.
    now rewrite archived_text_parts_eq. }
  destruct (String.eqb (Str.strip line) ""); [reflexivity|].
  destruct (json_loads (Str.strip line)); [|reflexivity].
  now rewrite Hm.
Qed.

(** X20. The history of an archived session is the history the live
    session had: when a session whose transcript has the exact name
    [sessionId.jsonl] is archived under a key with no earlier index row,
    the archived view sends what the live view sent before, and answers
    'Archived session not found' where the live view answered 500. *)
Theorem archived_history_is_the_live_history
    (now : Z) (key : string) (data : record) (content : bytes) (fs fs1 : FS) :
  let sid := py_str (py_get_d "sessionId" (JStr key) data) in
  sid <> "" ->
  Str.contains "/" sid = false ->
  transcripts fs !! (sid +:+ ".jsonl") = Some content ->
  (forall e, In e (idx_sessions (load_archive_index fs)) ->
             entry_matches key e = false) ->
  archive_session now key data fs = (Return (true, None), fs1) ->
  exists outcome : py (list record),
    handle_session_history [transcripts fs] sid
    = match outcome with
      | Return history => SendJson (history_body history)
      | Raise e => SendRaised e
      end
    /\ handle_archived_history key fs1
       = match outcome with
         | Return history => SendJson (history_body history)
         | Raise _ =>
             SendJson (JObj [("history", JArr []);
                             ("error", JStr "Archived session not found")])
         end.
Proof using gzip_round_trip.
  intros sid Hne Hslash Hexact Hfresh H.
  destruct (archive_session_true _ _ _ _ _ H)
    as (jsonl_file & found & task & Hfind & Hfound & _ & _ & _ & Hart & Hidx & _).
  fold sid in Hfind. unfold find_transcript in Hfind. rewrite Hexact in Hfind.
  injection Hfind as <-. rewrite Hexact in Hfound. injection Hfound as <-.
  rewrite (path_stem_jsonl _ Hne Hslash) in Hart.
  exists (match text_lines content with
          | Return lines => history_loop history_text_parts lines
          | Raise e => Raise e
          end).
  split.
  - unfold handle_session_history, find_session_file, read_lines.
    rewrite Hexact. rewrite Hexact.
    destruct (text_lines content) as [lines|e]; [|reflexivity].
    now destruct (history_loop history_text_parts lines).
  - unfold handle_archived_history, read_archived_transcript.
    unfold load_archive_index at 1. rewrite Hidx. cbn [idx_sessions].
    rewrite (find_app_last _ _ _ Hfresh);
      [|unfold entry_matches; cbn [ae_key new_entry]; now rewrite String.eqb_refl].
    cbn [ae_sessionId new_entry]. fold sid.
    rewrite Hart, lookup_insert_eq, gzip_round_trip.
    destruct (text_lines content) as [lines|e]; [|reflexivity].
    rewrite archived_history_loop.
    now destruct (history_loop history_text_parts lines).
Qed.

Lemma result_loop_app (lines1 lines2 : list string) (last : option record) :
  result_loop (lines1 ++ lines2) last
  = match result_loop lines1 last with
    | Return found => result_loop lines2 found
    | Raise e => Raise e
    end.
Proof.
  revert last. induction lines1 as [|line lines1 IH]; intros last; [reflexivity|].
  cbn [app result_loop].
  destruct (String.eqb (Str.strip line) ""); [apply IH|].
  destruct (json_loads (Str.strip line)) as [entry|e].
  - destruct (result_message entry) as [[found|]|e]; try apply IH.
    destruct e; try reflexivity; apply IH.
  - destruct e; try reflexivity; apply IH.
Qed.

Lemma result_message_found (entry : json) (found : record) :
  result_message entry = Return (Some found) ->
  exists text timestamp,
    found = [("content", JStr text); ("timestamp", timestamp)]
    /\ Str.strip text <> "".
Proof.
  unfold result_message. destruct entry as [| | | | |e]; try discriminate.
  cbn [as_dict mbind py_bind].
  destruct (negb (py_eq_str (py_get "type" e) "message")); [discriminate|].
  destruct (py_get_d "message" (JObj []) e) as [| | | | |msg]; try discriminate.
  cbn [as_dict mbind py_bind].
  destruct (negb (py_eq_str (py_get_d "role" (JStr "") msg) "assistant"));
    [discriminate|].
  set (text_content :=
         match py_get_d "content" (JStr "") msg with
         | JStr s => Return s
         | JArr items =>
             parts ← all_strings (result_text_parts items);
             Return (Str.join (String "010" EmptyString) parts)
         | _ => Return EmptyString
         end).
  destruct text_content as [text|err]; [|discriminate]. cbn [mbind py_bind].
  destruct (String.eqb_spec (Str.strip text) "") as [|Hne]; [discriminate|].
  cbn [negb]. intros [= <-]. now eexists _, _.
Qed.

(** X21. The result of a session is set by the last line that holds an
    assistant message with text: appended to a transcript that reads
    without error, such a line becomes the result whatever came before,
    and a line that holds none leaves the result as it was. The content
    of a result is never blank. *)
Theorem result_is_the_last_assistant_text
    (lines : list string) (line : string) (entry : json)
    (last before : option record) :
  result_loop lines last = Return before ->
  Str.strip line <> "" ->
  json_loads (Str.strip line) = Return entry ->
  (forall found,
     result_message entry = Return (Some found) ->
     result_loop (lines ++ [line]) last = Return (Some found)
     /\ exists text timestamp,
          found = [("content", JStr text); ("timestamp", timestamp)]
          /\ Str.strip text <> "")
  /\ (result_message entry = Return None ->
      result_loop (lines ++ [line]) last = Return before).
Proof.
  intros Hbefore Hblank Hload.
  assert (Hstep : result_loop (lines ++ [line]) last
                  = match result_message entry with
                    | Raise JSONDecodeError => Return before
                    | Raise e => Raise e
                    | Return (Some found) => Return (Some found)
                    | Return None => Return before
                    end).
  { rewrite result_loop_app, Hbefore. cbn [result_loop].
    destruct (String.eqb_spec (Str.strip line) "") as [|_]; [contradiction|].
    rewrite Hload. reflexivity. }
  split.
  - intros found Hfound. rewrite Hstep, Hfound.
    split; [reflexivity|]. now apply (result_message_found entry).
  - intros Hnone. now rewrite Hstep, Hnone.
Qed.

Lemma take_length_le (n : nat) (s : string) :
  (String.length (Str.take n s) <= n)%nat.
Proof.
  revert s. induction n as [|n IH]; intros [|a s]; simpl; try lia.
  specialize (IH s). lia.
Qed.

Lemma first_user_message_bound (lines : list string) (task : json) :
  first_user_message lines = Return task ->
  task = JNull
  \/ exists text, task = JStr text /\ (String.length text <= 500)%nat.
Proof.
  induction lines as [|line lines IH]; [intros [= <-]; now left|].
  cbn [first_user_message].
  destruct (String.eqb (Str.strip line) ""); [exact IH|].
  destruct (json_loads (Str.strip line)) as [entry|e].
  - destruct (message_task entry) as [[found|]|e] eqn:Htask; try exact IH.
    + intros [= <-]. right. revert Htask.
      unfold message_task. destruct entry as [| | | | |e]; try discriminate.
      cbn [as_dict mbind py_bind].
      destruct (py_eq_str (py_get "type" e) "message"); [|discriminate].
      destruct (py_get_d "message" (JObj []) e) as [| | | | |msg];
        try discriminate.
      cbn [as_dict mbind py_bind].
      destruct (py_eq_str (py_get "role" msg) "user"); [|discriminate].
      set (content :=
             match py_get_d "content" (JStr "") msg with
             | JArr items =>
                 text_parts ← all_strings (content_text_parts items);
                 Return (JStr (Str.join (String "010" EmptyString) text_parts))
             | other => Return other
             end).
      destruct content as [[| | |text| |]|err]; try discriminate.
      cbn [mbind py_bind]. intros Heq.
      exists (Str.take 500 (Str.strip text)).
      split; [congruence|apply take_length_le].
    + destruct e; try discriminate. exact IH.
  - destruct e; try discriminate. exact IH.
Qed.

(** X22. The task summary of a transcript is [None] or a string of at
    most 500 characters, and a successful archival stores, as the task of
    the new index row, the task summary of the transcript it archives: the
    file [find_transcript] gave for the session id, with the content it had
    before the archival. *)
Theorem task_summary_is_at_most_500_characters
    (now : Z) (key : string) (data : record) (fs fs' : FS) :
  (forall content task,
     extract_first_user_message content = Return task ->
     task = JNull
     \/ exists text, task = JStr text /\ (String.length text <= 500)%nat)
  /\ (archive_session now key data fs = (Return (true, None), fs') ->
      exists jsonl_file content entry,
        find_transcript fs (py_str (py_get_d "sessionId" (JStr key) data))
        = Return (Some jsonl_file)
        /\ transcripts fs !! jsonl_file = Some content
        /\ last (idx_sessions (load_archive_index fs')) = Some entry
        /\ ae_key entry = key
        /\ extract_first_user_message content = Return (ae_task entry)
        /\ (ae_task entry = JNull
            \/ exists text, ae_task entry = JStr text
                            /\ (String.length text <= 500)%nat)).
Proof.
  assert (Hbound : forall content task,
             extract_first_user_message content = Return task ->
             task = JNull
             \/ exists text, task = JStr text /\ (String.length text <= 500)%nat).
  { intros content task. unfold extract_first_user_message.
    destruct (text_lines content) as [lines|e].
    - apply first_user_message_bound.
    - destruct e; try discriminate. intros [= <-]. now left. }
  split; [exact Hbound|].
  intros H.
  destruct (archive_session_true _ _ _ _ _ H)
    as (jsonl_file & content & task & Hfind & Hdata & Htask & _ & _ & _ & Hidx & _).
  exists jsonl_file, content. eexists.
  split; [exact Hfind|]. split; [exact Hdata|].
  unfold load_archive_index. rewrite Hidx. cbn [idx_sessions].
  split; [apply last_snoc|].
  split; [reflexivity|]. cbn [ae_task new_entry].
  split; [exact Htask|]. now apply (Hbound content).
Qed.


(* ===================================================================== *)
(** * Agent directories and sanitising *)
(* ===================================================================== *)

Lemma scan_agents_In (entries : list dir_entry) (agent : string) (dir : sessions_dir) :
  In (agent, dir) (scan_agents entries)
  <-> dir = AgentSessionsDir agent
      /\ exists e, In e entries /\ de_name e = agent /\ de_is_dir e = true
                   /\ Str.startswith "." agent = false
                   /\ de_has_sessions e = true.
Proof.
  unfold scan_agents. rewrite in_flat_map. split.
  - intros (e & Hin & H).
    destruct (de_is_dir e) eqn:Hd; cbn [negb] in H; [|destruct H].
    destruct (Str.startswith "." (de_name e)) eqn:Hh; [destruct H|].
    destruct (de_has_sessions e) eqn:Hs; [|destruct H].
    destruct H as [[= <- <-]|[]]. split; [reflexivity|].
    exists e. now repeat split.
  - intros (-> & e & Hin & <- & Hd & Hh & Hs). exists e. split; [exact Hin|].
    rewrite Hd, Hh, Hs. now left.
Qed.

Lemma scan_agents_NoDup (entries : list dir_entry) :
  List.NoDup (map de_name entries) -> List.NoDup (map fst (scan_agents entries)).
Proof.
  induction entries as [|e entries IH]; intros Hnd; [constructor|].
  apply List.NoDup_cons_iff in Hnd as [Hnotin Hnd]. specialize (IH Hnd).
  change (scan_agents (e :: entries))
    with ((if negb (de_is_dir e) then []
           else if Str.startswith "." (de_name e) then []
           else if de_has_sessions e
           then [(de_name e, AgentSessionsDir (de_name e))]
           else []) ++ scan_agents entries)%list.
  destruct (negb (de_is_dir e)); [exact IH|].
  destruct (Str.startswith "." (de_name e)); [exact IH|].
  destruct (de_has_sessions e); [|exact IH].
  cbn [app map fst]. constructor; [|exact IH].
  intros Hin. apply Hnotin. apply in_map_iff in Hin as ([agent dir] & Heq & Hin).
  cbn in Heq. subst agent.
  apply scan_agents_In in Hin as (_ & e' & Hin' & Hname & _).
  apply in_map_iff. now exists e'.
Qed.

(** X23. When the agents root exists and its entries have distinct
    names, [get_all_agent_sessions_dirs] lists no agent twice, and each
    listed agent is either a directory of the root that is not hidden and
    has a sessions child, or 'main' with the default sessions directory,
    which exists. *)
Theorem agent_directories_are_distinct_visible_agents
    (t : agents_tree) (entries : list dir_entry) :
  agents_base t = Some entries ->
  List.NoDup (map de_name entries) ->
  List.NoDup (map fst (get_all_agent_sessions_dirs t))
  /\ forall agent dir,
       In (agent, dir) (get_all_agent_sessions_dirs t) ->
       Str.startswith "." agent = false
       /\ (dir = AgentSessionsDir agent
           /\ (exists e, In e entries /\ de_name e = agent
                         /\ de_is_dir e = true /\ de_has_sessions e = true)
           \/ agent = "main" /\ dir = DefaultSessionsDir
              /\ sessions_dir_exists t = true).
Proof.
  intros Hbase Hnd. unfold get_all_agent_sessions_dirs. rewrite Hbase.
  pose proof (scan_agents_NoDup entries Hnd) as Hscan.
  assert (Hin : forall agent dir,
             In (agent, dir) (scan_agents entries) ->
             Str.startswith "." agent = false
             /\ (dir = AgentSessionsDir agent
                 /\ (exists e, In e entries /\ de_name e = agent
                               /\ de_is_dir e = true /\ de_has_sessions e = true)
                 \/ agent = "main" /\ dir = DefaultSessionsDir
                    /\ sessions_dir_exists t = true)).
  { intros agent dir H.
    apply scan_agents_In in H as (-> & e & He & Hname & Hd & Hh & Hs).
    split; [exact Hh|]. left. split; [reflexivity|]. now exists e. }
  destruct (existsb (fun p => String.eqb (fst p) "main") (scan_agents entries))
    eqn:Hmain; [now split|].
  destruct (sessions_dir_exists t) eqn:Hdir; [|now split].
  split.
  - rewrite map_app. cbn [map fst].
    apply List.NoDup_app; [exact Hscan|repeat constructor; cbn; now intros []|].
    intros agent Hagent Hin'. cbn in Hin'. destruct Hin' as [<-|[]].
    apply existsb_main_In in Hagent. rewrite Hagent in Hmain. discriminate.
  - intros agent dir H. apply in_app_or in H as [H|[[= <- <-]|[]]].
    + now apply Hin.
    + split; [reflexivity|]. right. now repeat split.
Qed.

Lemma sanitize_fields_spec (path_fields : list string) (d d' : record) :
  List.NoDup path_fields ->
  sanitize_fields path_fields d = Return d' ->
  (forall f, ~ In f path_fields -> dict_get f d' = dict_get f d)
  /\ (forall f v, In f path_fields -> dict_get f d = Some v ->
        exists name, sanitize_path v = Return name /\ dict_get f d' = Some name)
  /\ (forall f, dict_get f d = None -> dict_get f d' = None).
Proof.
  revert d. induction path_fields as [|field rest IH]; intros d Hnd H.
  - injection H as <-. split; [reflexivity|]. split; [intros f v []|auto].
  - apply List.NoDup_cons_iff in Hnd as [Hnotin Hnd]. cbn [sanitize_fields] in H.
    destruct (dict_get field d) as [v0|] eqn:Hfield.
    + destruct (sanitize_path v0) as [name|e] eqn:Hname; [|discriminate].
      destruct (IH _ Hnd H) as (Hother & Hpath & Hnone).
      split; [|split].
      * intros f Hf. rewrite Hother by (intros Hin; apply Hf; now right).
        apply dict_get_set_ne. intros ->. apply Hf. now left.
      * intros f v [<-|Hin] Hv.
        -- rewrite Hfield in Hv. injection Hv as <-. exists name.
           split; [exact Hname|]. rewrite (Hother _ Hnotin).
           apply dict_get_set_eq.
        -- apply Hpath; [exact Hin|]. rewrite dict_get_set_ne; [exact Hv|].
           intros ->. contradiction.
      * intros f Hf. apply Hnone. rewrite dict_get_set_ne; [exact Hf|].
        intros ->. rewrite Hfield in Hf. discriminate.
    + destruct (IH _ Hnd H) as (Hother & Hpath & Hnone).
      split; [|split].
      * intros f Hf. apply Hother. intros Hin. apply Hf. now right.
      * intros f v [<-|Hin] Hv; [rewrite Hfield in Hv; discriminate|].
        now apply Hpath.
      * exact Hnone.
Qed.

Lemma dict_get_del (k f : string) (d : record) :
  dict_get f (dict_del k d) = if String.eqb f k then None else dict_get f d.
Proof.
  destruct (String.eqb_spec f k) as [->|Hne].
  - apply dict_get_del_eq.
  - now apply dict_get_del_ne.
Qed.

(** X24. A sanitised session never holds the fields [_internal],
    [fullPath] and [absolutePath]; each of the four path fields it had
    holds what [sanitize_path] makes of its value; and every other field
    is what it was. *)
Theorem sanitize_session_hides_paths_and_internal_fields
    (session sanitized : record) :
  sanitize_session session = Return sanitized ->
  (forall f, In f ["_internal"; "fullPath"; "absolutePath"] ->
             dict_get f sanitized = None)
  /\ (forall f v,
        In f ["transcriptPath"; "filePath"; "path"; "sessionPath"] ->
        dict_get f session = Some v ->
        exists name, sanitize_path v = Return name
                     /\ dict_get f sanitized = Some name)
  /\ (forall f,
        ~ In f ["transcriptPath"; "filePath"; "path"; "sessionPath";
                "_internal"; "fullPath"; "absolutePath"] ->
        dict_get f sanitized = dict_get f session).
Proof.
  unfold sanitize_session. intros H.
  destruct (sanitize_fields ["transcriptPath"; "filePath"; "path"; "sessionPath"]
              session) as [d|e] eqn:Hd; [|discriminate].
  injection H as <-.
  assert (Hnd : List.NoDup ["transcriptPath"; "filePath"; "path"; "sessionPath"]).
  { repeat constructor; cbn; intros H; repeat destruct H as [H|H];
      try discriminate; exact H. }
  destruct (sanitize_fields_spec _ _ _ Hnd Hd) as (Hother & Hpath & _).
  cbn [fold_left]. split; [|split].
  - intros f Hf. rewrite !dict_get_del.
    destruct Hf as [<-|[<-|[<-|[]]]]; reflexivity.
  - intros f v Hf Hv. destruct (Hpath f v Hf Hv) as (name & Hname & Hget).
    exists name. split; [exact Hname|]. rewrite !dict_get_del.
    destruct Hf as [<-|[<-|[<-|[<-|[]]]]]; exact Hget.
  - intros f Hf. rewrite !dict_get_del.
    destruct (String.eqb_spec f "absolutePath") as [->|_];
      [exfalso; apply Hf; cbn; auto 10|].
    destruct (String.eqb_spec f "fullPath") as [->|_];
      [exfalso; apply Hf; cbn; auto 10|].
    destruct (String.eqb_spec f "_internal") as [->|_];
      [exfalso; apply Hf; cbn; auto 10|].
    apply Hother. intros Hin. apply Hf. cbn in Hin |- *.
    destruct Hin as [<-|[<-|[<-|[<-|[]]]]]; auto 10.
Qed.


(* ===================================================================== *)
(** * The session list *)
(* ===================================================================== *)

Lemma transform_row_fields cron_names main_agent_name (k : string) (s row : record) :
  transform_row cron_names main_agent_name k s = Return row ->
  dict_keys row
  = ["id"; "key"; "label"; "agentName"; "status"; "updatedAt"; "ageMs";
     "channel"; "model"; "totalTokens"; "contextTokens"; "usagePct"; "node";
     "sizeBytes"; "sizeFormatted"; "task"].
Proof.
  unfold transform_row, mbind, py_bind. intros H.
  destruct (resolve_label _ _ _ _) as [[label agent_name]|]; [|discriminate].
  destruct (row_status_age s) as [[status age_ms]|]; [|discriminate].
  destruct (row_usage_pct _ _) as [usage_pct|]; [|discriminate].
  destruct (row_node s) as [node|]; [|discriminate].
  rewrite sanitize_session_row in H by reflexivity.
  injection H as <-. reflexivity.
Qed.

(** X25. When [transform_sessions] returns, its rows are the sessions
    that are not run sessions, one row each and in the order of the input
    (the keys of the rows are the keys of those sessions), and every row
    has exactly the sixteen fields of the dashboard format, none of them a
    path or an internal field. *)
Theorem session_list_rows_follow_the_input
    cron_names main_agent_name (raw_sessions rows : list record) :
  transform_sessions cron_names main_agent_name raw_sessions = Return rows ->
  map (py_get "key") rows
  = List.filter
      (fun key => match run_marker_in key with
                  | Return true => false
                  | _ => true
                  end)
      (map (py_get_d "key" (JStr "")) raw_sessions)
  /\ Forall
       (fun row =>
          dict_keys row
          = ["id"; "key"; "label"; "agentName"; "status"; "updatedAt"; "ageMs";
             "channel"; "model"; "totalTokens"; "contextTokens"; "usagePct";
             "node"; "sizeBytes"; "sizeFormatted"; "task"])
       rows.
Proof.
  revert rows. induction raw_sessions as [|s raw IH]; intros rows H.
  - injection H as <-. split; [reflexivity|constructor].
  - cbn [transform_sessions] in H. cbn [map List.filter].
    destruct (run_marker_in (py_get_d "key" (JStr "") s)) as [[|]|] eqn:Hrun;
      [now apply IH| |discriminate].
    destruct (py_get_d "key" (JStr "") s) as [| | |k| |] eqn:Hkey;
      try discriminate.
    destruct (transform_row cron_names main_agent_name k s) as [r|] eqn:Hrow;
      [|discriminate].
    destruct (transform_sessions cron_names main_agent_name raw) as [rs|] eqn:Hrs;
      [|discriminate].
    injection H as <-. destruct (IH rs eq_refl) as [Hkeys Hfields].
    split.
    + cbn [map]. rewrite Hkeys. f_equal. now apply transform_row_key in Hrow.
    + constructor; [now apply transform_row_fields in Hrow|exact Hfields].
Qed.


(* ===================================================================== *)
(** * The script and the server *)
(* ===================================================================== *)


(* ===================================================================== *)
(** * The safe configuration *)
(* ===================================================================== *)

Lemma py_get_d_set_ne (k k' : string) (default v : json) (d : record) :
  k' <> k -> py_get_d k' default (dict_set k v d) = py_get_d k' default d.
Proof. intros Hne. unfold py_get_d. now rewrite dict_get_set_ne. Qed.

(** X27. The configuration sent to the front end reveals of the token
    only whether one is set: two configurations that differ in the token
    alone, both with a token or both without, have the same safe
    configuration. *)
Theorem safe_config_reveals_only_that_a_token_is_set
    (app_config : record) (token1 token2 : json) :
  py_truthy token1 = py_truthy token2 ->
  get_safe_config (dict_set "dashboardToken" token1 app_config)
  = get_safe_config (dict_set "dashboardToken" token2 app_config)
  /\ dict_get "dashboardToken"
       (get_safe_config (dict_set "dashboardToken" token1 app_config))
     = None.
Proof.
  intros Htruthy. split; [|reflexivity].
  unfold get_safe_config, is_auth_enabled, get_auth_mode, is_read_only, py_get.
  rewrite !py_get_d_set_ne by discriminate.
  rewrite !dict_get_set_eq, Htruthy. reflexivity.
Qed.

(* ===================================================================== *)
(** * The update check *)
(* ===================================================================== *)

(** X28. While the cache holds a result less than a day old, the update
    check makes no use of the network and changes nothing: whatever a
    request would return, the answer is the same and the cache stays as it
    is. *)
Theorem update_check_within_a_day_uses_the_cache
    (app_config : record) (version_file : json_file json) (now t : Z)
    (cache : update_cache) :
  py_truthy (uc_data cache) = true ->
  uc_timestamp cache = JNum t ->
  t <> 0 ->
  now - t < 86400 ->
  forall saved_at fetched saved_at' fetched',
    check_for_updates app_config version_file now saved_at fetched cache
    = check_for_updates app_config version_file now saved_at' fetched' cache
    /\ snd (check_for_updates app_config version_file now saved_at fetched cache)
       = cache.
Proof.
  intros Hdata Hts Ht Hfresh saved_at fetched saved_at' fetched'.
  unfold check_for_updates.
  destruct (py_get_d "updateCheck" (JObj []) app_config)
    as [| | | | |update_config]; try (split; reflexivity).
  destruct (negb (py_truthy (py_get_d "enabled" (JBool true) update_config)));
    [split; reflexivity|].
  rewrite Hts. cbn [py_eq].
  destruct (Z.eqb_spec t 0) as [|_]; [contradiction|].
  rewrite Hdata, Hts. cbn [within_ttl].
  change (24 * 60 * 60) with 86400.
  destruct (Z.ltb_spec (now - t) 86400) as [_|Hge]; [|lia].
  split; reflexivity.
Qed.

Lemma check_for_updates_fetched
    (app_config : record) (version_file : json_file json) (now saved_at : Z)
    (fetched : py json) (cache cache' : update_cache) (r : record) :
  check_for_updates app_config version_file now saved_at fetched cache
  = (Return r, cache') ->
  py_get "cached" r = JBool false ->
  exists update_config current_version data newer,
    py_get_d "updateCheck" (JObj []) app_config = JObj update_config
    /\ py_truthy (py_get_d "enabled" (JBool true) update_config) = true
    /\ get_current_version version_file = Return current_version
    /\ fetched = Return (JObj data)
    /\ compare_versions current_version
         (py_get_d "version" current_version data) = Return newer
    /\ r = [ ("currentVersion", current_version);
             ("latestVersion", py_get_d "version" current_version data);
             ("updateAvailable", JBool newer);
             ("releaseNotes", py_get "releaseNotes" data);
             ("releaseUrl", py_get "releaseUrl" data);
             ("cached", JBool false) ]
    /\ cache' = {| uc_data := JObj r;
                   uc_timestamp := JNum saved_at;
                   uc_file := Parsed (JObj [("data", JObj r);
                                            ("timestamp", JNum saved_at)]) |}.
Proof.
  unfold check_for_updates. intros H Hcached.
  destruct (py_get_d "updateCheck" (JObj []) app_config)
    as [| | | | |update_config]; try discriminate.
  destruct (py_truthy (py_get_d "enabled" (JBool true) update_config)) eqn:Hen;
    cbn [negb] in H.
  2:{ destruct (get_current_version version_file) as [v|]; [|discriminate].
      cbn [mbind py_bind] in H. injection H as <- _. discriminate. }
  destruct (if py_eq (uc_timestamp cache) (JNum 0)
            then load_update_cache cache else Return cache) as [c|]; [|discriminate].
  destruct (if py_truthy (uc_data c)
            then within_ttl now (uc_timestamp c) (24 * 60 * 60)
            else Return false) as [[|]|]; [| |discriminate].
  - exfalso. unfold cached_update in H.
    destruct (uc_data c) as [| | | |items|cached]; try discriminate.
    + destruct (get_current_version version_file); discriminate.
    + destruct (get_current_version version_file) as [v|]; [|discriminate].
      cbn [mbind py_bind] in H.
      destruct (compare_versions v _) as [newer|]; [|discriminate].
      cbn [mbind py_bind] in H. injection H as <- _.
      unfold py_get in Hcached. rewrite dict_get_set_eq in Hcached.
      discriminate.
  - unfold fetch_update in H.
    destruct (get_current_version version_file) as [v|] eqn:Hv; [|discriminate].
    destruct fetched as [[| | | | |data]|e];
      try (injection H as <- _; discriminate).
    + destruct (compare_versions v (py_get_d "version" v data)) as [newer|] eqn:Hc;
        [|injection H as <- _; discriminate].
      injection H as <- <-.
      exists update_config, v, data, newer. now repeat split.
    + destruct e; injection H as <- _; discriminate.
Qed.

(** X29. An update check repeated within a day of a successful one
    returns the same answer, marked as cached, without a request: the
    current version, the latest version, the comparison and the release
    fields are those of the first answer. *)
Theorem repeated_update_check_returns_the_cached_answer
    (app_config : record) (version_file : json_file json) (now0 saved0 now1 : Z)
    (fetched : py json) (cache cache1 : update_cache) (r : record) :
  check_for_updates app_config version_file now0 saved0 fetched cache
  = (Return r, cache1) ->
  py_get "cached" r = JBool false ->
  saved0 <> 0 ->
  now1 - saved0 < 86400 ->
  forall saved1 fetched1,
    check_for_updates app_config version_file now1 saved1 fetched1 cache1
    = (Return (dict_set "cached" (JBool true) r), cache1).
Proof.
  intros H Hcached Hsaved Hfresh saved1 fetched1.
  destruct (check_for_updates_fetched _ _ _ _ _ _ _ _ H Hcached)
    as (update_config & v & data & newer & Hcfg & Hen & Hv & _ & Hcmp & -> & ->).
  unfold check_for_updates. rewrite Hcfg, Hen.
  cbn [negb uc_timestamp uc_data py_eq py_truthy within_ttl].
  destruct (Z.eqb_spec saved0 0) as [|_]; [contradiction|].
  cbn [uc_timestamp uc_data py_truthy within_ttl].
  change (24 * 60 * 60) with 86400.
  destruct (Z.ltb_spec (now1 - saved0) 86400) as [_|Hge]; [|lia].
  cbn [uc_data]. unfold cached_update. rewrite Hv. cbn [mbind py_bind].
  change (dict_set "currentVersion" v _)
    with [ ("currentVersion", v);
           ("latestVersion", py_get_d "version" v data);
           ("updateAvailable", JBool newer);
           ("releaseNotes", py_get "releaseNotes" data);
           ("releaseUrl", py_get "releaseUrl" data);
           ("cached", JBool false) ].
  change (py_get_d "latestVersion" (JStr "0.0.0") _)
    with (py_get_d "version" v data).
  rewrite Hcmp. reflexivity.
Qed.

(** X30. The update check writes its cache file only after a successful
    request: whatever else happens (updates disabled, a cached answer, a
    failed request, an answer that is no object or whose version does not
    compare), the file is what it was; and a failed request is answered
    with no update available. *)
Theorem update_cache_file_is_written_only_by_a_fetch
    (app_config : record) (version_file : json_file json) (now saved_at : Z)
    (fetched : py json) (cache cache' : update_cache) (result : py record) :
  check_for_updates app_config version_file now saved_at fetched cache
  = (result, cache') ->
  (uc_file cache' = uc_file cache
   \/ exists data r,
        fetched = Return (JObj data)
        /\ result = Return r
        /\ py_get "cached" r = JBool false
        /\ uc_file cache'
           = Parsed (JObj [("data", JObj r); ("timestamp", JNum saved_at)]))
  /\ (forall e r,
        fetched = Raise e -> result = Return r ->
        py_get "cached" r <> JBool true ->
        py_get "updateAvailable" r = JBool false).
Proof.
  unfold check_for_updates. intros H.
  destruct (py_get_d "updateCheck" (JObj []) app_config)
    as [| | | | |update_config];
    try (injection H as <- <-; split; [now left|discriminate]).
  destruct (negb (py_truthy (py_get_d "enabled" (JBool true) update_config))).
  { injection H as <- <-. split; [now left|].
    intros e r _ Hr _.
    destruct (get_current_version version_file) as [v|]; [|discriminate].
    cbn [mbind py_bind] in Hr. now injection Hr as <-. }
  assert (Hload : forall c,
             (if py_eq (uc_timestamp cache) (JNum 0)
              then load_update_cache cache else Return cache) = Return c ->
             uc_file c = uc_file cache).
  { intros c. destruct (py_eq (uc_timestamp cache) (JNum 0)); [|now intros [= <-]].
    unfold load_update_cache.
    destruct (uc_file cache) as [| |[| | | | |cached]] eqn:Hfile;
      try discriminate; intros [= <-]; (exact Hfile || reflexivity). }
  destruct (if py_eq (uc_timestamp cache) (JNum 0)
            then load_update_cache cache else Return cache) as [c|e];
    [|injection H as <- <-; split; [now left|discriminate]].
  specialize (Hload c eq_refl).
  destruct (if py_truthy (uc_data c)
            then within_ttl now (uc_timestamp c) (24 * 60 * 60)
            else Return false) as [[|]|e];
    [| |injection H as <- <-; split; [now left|discriminate]].
  - injection H as <- <-. split; [now left|].
    intros e r _ Hr Hnot. exfalso. apply Hnot.
    unfold cached_update in Hr.
    destruct (uc_data c) as [| | | |items|cached]; try discriminate.
    + destruct (get_current_version version_file); discriminate.
    + destruct (get_current_version version_file) as [v|]; [|discriminate].
      cbn [mbind py_bind] in Hr.
      destruct (compare_versions v _) as [newer|]; [|discriminate].
      cbn [mbind py_bind] in Hr. injection Hr as <-.
      unfold py_get. now rewrite dict_get_set_eq.
  - unfold fetch_update in H.
    destruct (get_current_version version_file) as [v|];
      [|injection H as <- <-; split; [now left|discriminate]].
    destruct fetched as [[| | | | |data]|e].
    1-5: injection H as <- <-; split; [now left|discriminate].
    + destruct (compare_versions v (py_get_d "version" v data)) as [newer|];
        injection H as <- <-; (split; [|discriminate]).
      * right. now eexists _, _.
      * now left.
    + split.
      * destruct e; injection H as _ <-; now left.
      * intros e' r _ Hr _. destruct e; injection H as <- _;
          now injection Hr as <-.
Qed.

End World.

(* ===================================================================== *)
(** * The properties on the example data *)
(* ===================================================================== *)

Lemma ref_gzip_round_trip (data : bytes) :
  Ref.gzip_decompress (Ref.gzip_compress data) = Inflated data.
Proof. reflexivity. Qed.

(** The operations of a storage root under the reference functions. *)
Abbreviation ref_archive :=
  (archive_session Ref.py_str Ref.glob_jsonl Ref.gzip_compress
     Ref.text_lines Ref.json_loads).
Abbreviation ref_restore := (restore_session Ref.py_str Ref.gzip_decompress).
Abbreviation ref_run_ops :=
  (run_ops Ref.py_str Ref.glob_jsonl Ref.gzip_compress Ref.gzip_decompress
     Ref.text_lines Ref.json_loads).
Abbreviation ref_sweep :=
  (handle_run_archive Ref.py_str Ref.glob_jsonl Ref.gzip_compress
     Ref.text_lines Ref.json_loads).
Abbreviation ref_transform :=
  (transform_sessions Ref.py_str Ref.pathlib_name Ref.row_status_age
     Ref.row_usage_pct Ref.row_node).

(** C3, on a root whose index holds a row: after the archival of a second
    session the index has two rows, of compressed sizes 5 and 8, and its
    total is 13; after the restoration of the first by its session id, which
    drops no row, the total is still the sum. *)
Lemma index_total_is_sum_witness :
  index_ok (load_archive_index Eg.reused_key)
  /\ idx_sessions (load_archive_index Eg.reused_key) = [Eg.old_main_entry]
  /\ index_ok
       (load_archive_index
          (ref_run_ops [OpArchive 100 "agent:main:main" Eg.new_main_record]
             Eg.reused_key))
  /\ map ae_compressedSize
       (idx_sessions
          (load_archive_index
             (ref_run_ops [OpArchive 100 "agent:main:main" Eg.new_main_record]
                Eg.reused_key)))
     = [5; 8]
  /\ idx_totalSize
       (load_archive_index
          (ref_run_ops [OpArchive 100 "agent:main:main" Eg.new_main_record]
             Eg.reused_key))
     = 13
  /\ index_ok
       (load_archive_index
          (ref_run_ops [OpArchive 100 "agent:main:main" Eg.new_main_record;
                        OpRestore 200 "old"]
             Eg.reused_key))
  /\ map ae_compressedSize
       (idx_sessions
          (load_archive_index
             (ref_run_ops [OpArchive 100 "agent:main:main" Eg.new_main_record;
                           OpRestore 200 "old"]
                Eg.reused_key)))
     = [5; 8].
Proof.
  assert (Hok : index_ok (load_archive_index Eg.reused_key)) by reflexivity.
  split; [exact Hok|]. split; [reflexivity|].
  split.
  { exact (proj1 (index_total_is_sum_of_compressed_sizes Ref.py_str Ref.glob_jsonl
                    Ref.gzip_compress Ref.gzip_decompress Ref.text_lines
                    Ref.json_loads
                    [OpArchive 100 "agent:main:main" Eg.new_main_record]
                    Eg.reused_key) Hok). }
  split; [reflexivity|]. split; [reflexivity|].
  split; [|reflexivity].
  exact (proj1 (index_total_is_sum_of_compressed_sizes Ref.py_str Ref.glob_jsonl
                  Ref.gzip_compress Ref.gzip_decompress Ref.text_lines
                  Ref.json_loads
                  [OpArchive 100 "agent:main:main" Eg.new_main_record;
                   OpRestore 200 "old"]
                  Eg.reused_key) Hok).
Defined.


(** C6, on three sessions around a thirty-day cutoff: the script selects
    the oldest alone, and the server's sweep archives the oldest alone. *)
Lemma retention_selects_witness :
  0 < 30 /\ 0 < Eg.now
  /\ to_archive (cutoff_ms Eg.now 30) Eg.aged_catalog
     = Return [("older", Eg.aged (Eg.now - 31 * Eg.day))]
  /\ In ("older", Eg.aged (Eg.now - 31 * Eg.day))
        [("older", Eg.aged (Eg.now - 31 * Eg.day))]
  /\ ~ In ("newer", Eg.aged (Eg.now - 29 * Eg.day))
          [("older", Eg.aged (Eg.now - 31 * Eg.day))]
  /\ ~ In ("at-cutoff", Eg.aged (Eg.now - 30 * Eg.day))
          [("older", Eg.aged (Eg.now - 31 * Eg.day))]
  /\ ref_sweep (Days 30) Eg.now (fun _ => 7) Eg.aged_root
     = (SweepDone 1 None,
        snd (ref_archive 7 "older" (Eg.aged (Eg.now - 31 * Eg.day)) Eg.aged_root))
  /\ map ae_key
       (idx_sessions
          (load_archive_index
             (snd (ref_sweep (Days 30) Eg.now (fun _ => 7) Eg.aged_root))))
     = ["older"]
  /\ sessions_json (snd (ref_sweep (Days 30) Eg.now (fun _ => 7) Eg.aged_root))
     = Parsed (Catalog [("at-cutoff", Eg.aged (Eg.now - 30 * Eg.day));
                        ("newer", Eg.aged (Eg.now - 29 * Eg.day))]).
Proof.
  assert (Hd : 0 < 30) by reflexivity.
  assert (Hnow : 0 < Eg.now) by reflexivity.
  assert (Hsel : to_archive (cutoff_ms Eg.now 30) Eg.aged_catalog
                 = Return [("older", Eg.aged (Eg.now - 31 * Eg.day))])
    by reflexivity.
  destruct (retention_selects_strictly_older Ref.py_str Ref.glob_jsonl
              Ref.gzip_compress Ref.text_lines Ref.json_loads
              30 Eg.now Hd Hnow) as (Hcut & H & Hloop & Hhandler).
  specialize (H Eg.aged_catalog _ Hsel).
  assert (Hsweep : ref_sweep (Days 30) Eg.now (fun _ => 7) Eg.aged_root
                   = (SweepDone 1 None,
                      snd (ref_archive 7 "older" (Eg.aged (Eg.now - 31 * Eg.day))
                             Eg.aged_root))).
  { rewrite (Hhandler (fun _ => 7) Eg.aged_root Eg.aged_catalog eq_refl).
    rewrite <- Hcut. unfold Eg.aged_catalog.
    destruct (Hloop (fun _ => 7) "older" (Eg.aged (Eg.now - 31 * Eg.day))
                [("at-cutoff", Eg.aged (Eg.now - 30 * Eg.day));
                 ("newer", Eg.aged (Eg.now - 29 * Eg.day))] 0 Eg.aged_root)
      as (Holder & _ & _).
    rewrite (Holder eq_refl).
    destruct (ref_archive 7 "older" (Eg.aged (Eg.now - 31 * Eg.day)) Eg.aged_root)
      as [[result|e] fs1] eqn:Harch; [|discriminate Harch].
    destruct (Hloop (fun _ => 7) "at-cutoff" (Eg.aged (Eg.now - 30 * Eg.day))
                [("newer", Eg.aged (Eg.now - 29 * Eg.day))] (0 + 1) fs1)
      as (_ & _ & Hat).
    rewrite (Hat eq_refl).
    destruct (Hloop (fun _ => 7) "newer" (Eg.aged (Eg.now - 29 * Eg.day))
                [] (0 + 1) fs1) as (_ & Hnewer & _).
    rewrite (Hnewer eq_refl). reflexivity. }
  repeat split; try assumption.
  - apply (H "older" (Eg.aged (Eg.now - 31 * Eg.day))); [now left | reflexivity].
  - destruct (H "newer" (Eg.aged (Eg.now - 29 * Eg.day)))
      as (_ & Hnewer & _); [right; right; now left|].
    apply Hnewer. reflexivity.
  - destruct (H "at-cutoff" (Eg.aged (Eg.now - 30 * Eg.day)))
      as (_ & _ & Hcut'); [right; now left|].
    apply Hcut'. reflexivity.
Defined.

(** C1, on a catalog of two expired sessions of which the first has lost
    its transcript: one session is archived and the sweep answers 2; on the
    catalog of the first alone, nothing is archived and it answers 1. *)
Lemma sweep_counts_a_failed_archival_witness :
  expired (cutoff_ms Eg.now 30) Eg.lost_record = Return true
  /\ ref_archive 7 "agent:main:lost" Eg.lost_record Eg.half_missing
     = (Return (false, Some (TranscriptNotFound "gone.jsonl")), Eg.half_missing)
  /\ (exists fs',
        ref_sweep (Days 30) Eg.now (fun _ => 7) Eg.half_missing
        = (SweepDone 2 None, fs')
        /\ map ae_key (idx_sessions (load_archive_index fs')) = [Eg.signal_key])
  /\ ref_sweep (Days 30) Eg.now (fun _ => 7)
       (set_sessions_json
          (Parsed (Catalog [("agent:main:lost", Eg.lost_record)]))
          Eg.half_missing)
     = (SweepDone 1 None,
        set_sessions_json
          (Parsed (Catalog [("agent:main:lost", Eg.lost_record)]))
          Eg.half_missing).
Proof.
  split; [reflexivity|].
  destruct (sweep_counts_a_failed_archival Ref.py_str Ref.glob_jsonl
              Ref.gzip_compress Ref.text_lines Ref.json_loads
              30 Eg.now (fun _ => 7) "agent:main:lost" Eg.lost_record
              [(Eg.signal_key, Eg.signal_record)] 0 Eg.half_missing
              eq_refl eq_refl eq_refl) as (Harch & Hloop & _).
  split; [exact Harch|]. split.
  - eexists. split.
    + unfold handle_run_archive. cbn [sessions_json Eg.half_missing].
      rewrite Hloop. reflexivity.
    + reflexivity.
  - apply (sweep_counts_a_failed_archival Ref.py_str Ref.glob_jsonl
             Ref.gzip_compress Ref.text_lines Ref.json_loads
             30 Eg.now (fun _ => 7) "agent:main:lost" Eg.lost_record [] 0
             (set_sessions_json
                (Parsed (Catalog [("agent:main:lost", Eg.lost_record)]))
                Eg.half_missing));
      reflexivity.
Defined.

(** C2, on the archived session restored by its session id: the call
    succeeds and the index is what it was. *)
Lemma restore_by_session_id_witness :
  ref_restore 2000 "abc123" Eg.archived
  = (true, snd (ref_restore 2000 "abc123" Eg.archived))
  /\ ae_key Eg.telegram_entry <> "abc123"
  /\ load_archive_index (snd (ref_restore 2000 "abc123" Eg.archived))
     = {| idx_sessions := [Eg.telegram_entry]; idx_totalSize := 13 |}
  /\ In Eg.telegram_entry
        (idx_sessions
           (load_archive_index (snd (ref_restore 2000 "abc123" Eg.archived))))
  /\ artifacts (snd (ref_restore 2000 "abc123" Eg.archived))
       !! "abc123.jsonl.gz" = None.
Proof.
  assert (Hres : ref_restore 2000 "abc123" Eg.archived
                 = (true, snd (ref_restore 2000 "abc123" Eg.archived)))
    by reflexivity.
  assert (Hkey : ae_key Eg.telegram_entry <> "abc123") by discriminate.
  destruct (restore_by_session_id_keeps_the_entry Ref.py_str Ref.gzip_decompress
              2000 "abc123" Eg.telegram_entry Eg.archived _ Hres eq_refl Hkey)
    as (Hin & Hgone & _).
  repeat split; assumption.
Defined.

(** C10, on the archived session restored by its key. *)
Lemma restored_row_fields_witness :
  ref_restore 2000 "agent:main:telegram:42" Eg.archived
  = (true, snd (ref_restore 2000 "agent:main:telegram:42" Eg.archived))
  /\ exists session_info sessions row,
       List.find (entry_matches "agent:main:telegram:42")
                 (idx_sessions (load_archive_index Eg.archived))
       = Some session_info
       /\ sessions_json (snd (ref_restore 2000 "agent:main:telegram:42" Eg.archived))
          = Parsed (Catalog sessions)
       /\ dict_get (ae_key session_info) sessions = Some row
       /\ dict_keys row
          = ["sessionId"; "label"; "updatedAt"; "model"; "channel"; "restoredAt"]
       /\ forall field,
            ~ In field ["sessionId"; "label"; "updatedAt"; "model"; "channel";
                        "restoredAt"] ->
            dict_get field row = None.
Proof.
  assert (Hres : ref_restore 2000 "agent:main:telegram:42" Eg.archived
                 = (true, snd (ref_restore 2000 "agent:main:telegram:42" Eg.archived)))
    by reflexivity.
  split; [exact Hres|].
  exact (restored_row_has_exactly_six_fields Ref.py_str Ref.gzip_decompress
           2000 "agent:main:telegram:42" Eg.archived _ Hres).
Defined.

(** C5 as amended, on the fresh root. *)
Lemma restore_after_archive_witness :
  (forall data, Ref.gzip_decompress (Ref.gzip_compress data) = Inflated data)
  /\ transcripts Eg.fresh !! "s1.jsonl" = Some Eg.hello
  /\ sessions_json Eg.fresh = Parsed (Catalog [(Eg.signal_key, Eg.signal_record)])
  /\ ref_archive 100 Eg.signal_key Eg.signal_record Eg.fresh
     = (Return (true, None),
        snd (ref_archive 100 Eg.signal_key Eg.signal_record Eg.fresh))
  /\ exists fs2 sessions row,
       ref_restore 200 Eg.signal_key
         (snd (ref_archive 100 Eg.signal_key Eg.signal_record Eg.fresh))
       = (true, fs2)
       /\ sessions_json fs2 = Parsed (Catalog sessions)
       /\ dict_get Eg.signal_key sessions = Some row
       /\ py_get "sessionId" row = JStr "s1"
       /\ py_get "model" row = py_get "model" Eg.signal_record
       /\ py_get "updatedAt" row = py_get_d "updatedAt" (JNum 0) Eg.signal_record
       /\ py_get "channel" row
          = py_or (py_get "channel" Eg.signal_record)
                  (py_get "lastChannel" Eg.signal_record)
       /\ transcripts fs2 !! "s1.jsonl" = Some Eg.hello.
Proof.
  split; [exact ref_gzip_round_trip|]. split; [reflexivity|].
  split; [reflexivity|].
  assert (Harch : ref_archive 100 Eg.signal_key Eg.signal_record Eg.fresh
                  = (Return (true, None),
                     snd (ref_archive 100 Eg.signal_key Eg.signal_record Eg.fresh)))
    by reflexivity.
  split; [exact Harch|].
  apply (restore_after_archive_round_trip Ref.py_str Ref.glob_jsonl
           Ref.gzip_compress Ref.gzip_decompress ref_gzip_round_trip
           Ref.text_lines Ref.json_loads 100 200 Eg.signal_key Eg.signal_record
           Eg.hello Eg.fresh _).
  - discriminate.
  - reflexivity.
  - reflexivity.
  - intros e [].
  - right. eexists. reflexivity.
  - exact Harch.
Defined.

(** C8 as amended, on the Signal session of the example. *)
Lemma signal_dm_label_witness :
  dict_get "label" Eg.signal_record = None
  /\ py_eq_str (py_get_d "chatType" (JStr "") Eg.signal_record) "group" = false
  /\ parse_friendly_session_label Ref.py_str Eg.signal_key Eg.signal_record
     = Return "Signal: +1 234 567 8901".
Proof.
  split; [reflexivity|]. split; [reflexivity|].
  destruct (signal_dm_label_comes_from_origin Ref.py_str Eg.signal_record
              eq_refl eq_refl) as (_ & Horigin & _).
  exact (Horigin [("label", JStr "signal:+12345678901")] "+12345678901"
           eq_refl eq_refl).
Defined.

(** C9, on a cron session, one of its runs, and the main session. *)
Lemma run_sessions_are_omitted_witness :
  py_get_d "key" (JStr "") Eg.run_session = JStr "agent:main:cron:job1:run:17"
  /\ Str.contains ":run:" "agent:main:cron:job1:run:17" = true
  /\ ref_transform [] (JStr "Main")
       [Eg.cron_session; Eg.run_session; Eg.main_session]
     = ref_transform [] (JStr "Main") [Eg.cron_session; Eg.main_session]
  /\ exists rows,
       ref_transform [] (JStr "Main")
         [Eg.cron_session; Eg.run_session; Eg.main_session]
       = Return rows
       /\ map (py_get "key") rows
          = [JStr "agent:main:cron:job1"; JStr "agent:main:main"].
Proof.
  split; [reflexivity|]. split; [reflexivity|].
  split.
  - exact (proj1 (run_sessions_are_omitted Ref.py_str Ref.pathlib_name
                    Ref.row_status_age Ref.row_usage_pct Ref.row_node
                    [] (JStr "Main") [Eg.cron_session] [Eg.main_session]
                    Eg.run_session "agent:main:cron:job1:run:17"
                    eq_refl eq_refl)).
  - eexists. split; reflexivity.
Defined.

(** C7 as amended, on a root that holds [main] and on one that does not. *)
Lemma main_agent_listed_witness :
  In "main" (map fst (get_all_agent_sessions_dirs Eg.with_main))
  /\ (agents_base Eg.ops_only
      = Some [ {| de_name := "ops"; de_is_dir := true; de_has_sessions := true |};
               {| de_name := "main"; de_is_dir := true; de_has_sessions := false |} ]
      /\ sessions_dir_exists Eg.ops_only = false
      /\ get_all_agent_sessions_dirs Eg.ops_only = [("ops", AgentSessionsDir "ops")]).
Proof.
  split.
  - apply (proj1 (main_agent_listed_iff Eg.with_main)).
    right. eexists. split; [reflexivity|]. left. simpl. auto.
  - split; [reflexivity|]. split; [reflexivity|].
    apply (proj2 (proj2 (main_agent_listed_iff Eg.ops_only)) _ eq_refl);
      [|reflexivity].
    intros [H|[]]. discriminate.
Defined.

(** C5, as stated, fails. First, a record that names its channel only as
    [lastChannel] comes back with a [channel] it did not have. Second, when
    the index already holds an entry under the key (the main session
    archived earlier, its key since reused), the restore succeeds on that
    older entry: the row carries the older session id and the transcript
    just archived is not brought back. Third, when sessions.json holds a
    JSON string of which the key is no part, the archival succeeds and the
    restore fails: it cannot store a row in a string. *)
Lemma round_trip_counterexample :
  (ref_archive 100 Eg.signal_key Eg.signal_record Eg.fresh
   = (Return (true, None),
      snd (ref_archive 100 Eg.signal_key Eg.signal_record Eg.fresh))
   /\ exists fs2 sessions row,
        ref_restore 200 Eg.signal_key
          (snd (ref_archive 100 Eg.signal_key Eg.signal_record Eg.fresh))
        = (true, fs2)
        /\ sessions_json fs2 = Parsed (Catalog sessions)
        /\ dict_get Eg.signal_key sessions = Some row
        /\ dict_get "channel" Eg.signal_record = None
        /\ dict_get "channel" row = Some (JStr "signal"))
  /\ (ref_archive 100 "agent:main:main" Eg.new_main_record Eg.reused_key
      = (Return (true, None),
         snd (ref_archive 100 "agent:main:main" Eg.new_main_record Eg.reused_key))
      /\ exists fs2 sessions row,
           ref_restore 200 "agent:main:main"
             (snd (ref_archive 100 "agent:main:main" Eg.new_main_record
                     Eg.reused_key))
           = (true, fs2)
           /\ sessions_json fs2 = Parsed (Catalog sessions)
           /\ dict_get "agent:main:main" sessions = Some row
           /\ dict_get "sessionId" Eg.new_main_record = Some (JStr "new")
           /\ dict_get "sessionId" row = Some (JStr "old")
           /\ transcripts Eg.reused_key !! "new.jsonl" = Some (Eg.text "second")
           /\ transcripts fs2 !! "new.jsonl" = None)
  /\ (ref_archive 100 Eg.signal_key Eg.signal_record Eg.text_catalog
      = (Return (true, None),
         snd (ref_archive 100 Eg.signal_key Eg.signal_record Eg.text_catalog))
      /\ fst (ref_restore 200 Eg.signal_key
                (snd (ref_archive 100 Eg.signal_key Eg.signal_record
                        Eg.text_catalog)))
         = false
      /\ sessions_json
           (snd (ref_restore 200 Eg.signal_key
                   (snd (ref_archive 100 Eg.signal_key Eg.signal_record
                           Eg.text_catalog))))
         = Parsed (NoCatalog (SStr "none"))).
Proof.
  split; [|split].
  - split; [reflexivity|]. do 3 eexists. repeat split.
  - split; [reflexivity|]. do 3 eexists. repeat split.
  - repeat split.
Qed.

(** C7, as stated, fails: with an agents root that exists and is empty and
    no [SESSIONS_DIR], the result is empty; with an agents root holding
    only another agent, the result lacks ["main"]. *)
Lemma main_agent_counterexample :
  get_all_agent_sessions_dirs Eg.empty_root = []
  /\ get_all_agent_sessions_dirs Eg.ops_only = [("ops", AgentSessionsDir "ops")]
  /\ ~ In "main" (map fst (get_all_agent_sessions_dirs Eg.ops_only)).
Proof.
  repeat split. intros [H|[]]. discriminate.
Qed.

(** C8, as stated, fails: with no stored label and no origin the key
    resolves to ["Signal DM"]; with the number as origin label it resolves
    to ["Signal: +1 234 567 8901"], four final digits; and a number whose
    digits fit no format and that has no leading [+] comes back unchanged,
    separators included. *)
Lemma signal_label_counterexample :
  parse_friendly_session_label Ref.py_str
    "agent:main:signal:dm:signal:+12345678901" []
  = Return "Signal DM"
  /\ parse_friendly_session_label Ref.py_str
       "agent:main:signal:dm:signal:+12345678901"
       [("origin", JObj [("label", JStr "signal:+12345678901")])]
     = Return "Signal: +1 234 567 8901"
  /\ Return "Signal DM" <> Return "Signal: +1 234 567 890"
  /\ Return "Signal: +1 234 567 8901" <> Return "Signal: +1 234 567 890"
  /\ format_phone_number "555-1234" = "555-1234"
  /\ Str.filter_chars Str.isdigit "555-1234" = "5551234".
Proof. repeat split; discriminate. Qed.

(* ===================================================================== *)
(** * The further properties on the example data *)
(* ===================================================================== *)

Lemma ref_int_of_str_value_error (s : string) (e : exn) :
  Ref.int_of_str s = Raise e -> e = ValueError.
Proof.
  unfold Ref.int_of_str. destruct s as [|a s]; [now intros [= <-]|].
  destruct (Ref.digits_value 0 (String a s)); [discriminate|now intros [= <-]].
Qed.

Abbreviation ref_script_main :=
  (script_main Ref.py_str Ref.glob_jsonl Ref.gzip_compress
     Ref.text_lines Ref.json_loads).
Abbreviation ref_find_transcript := (find_transcript Ref.glob_jsonl).
Abbreviation ref_compare := (compare_versions Ref.int_of_str).
Abbreviation ref_post :=
  (do_POST Ref.py_str Ref.glob_jsonl Ref.gzip_compress Ref.gzip_decompress
     Ref.text_lines Ref.json_loads Ref.int_of_str Ref.sha256_hex).
Abbreviation ref_check_auth := (check_auth Ref.py_str Ref.sha256_hex).
Abbreviation ref_archive_handler :=
  (handle_archive_session Ref.py_str Ref.glob_jsonl Ref.gzip_compress
     Ref.text_lines Ref.json_loads).
Abbreviation ref_history_loop :=
  (history_loop Ref.json_loads (history_text_parts Ref.py_str)).



(** X3, on the fresh root. *)
Lemma archive_moves_the_transcript_witness :
  ref_archive 100 Eg.signal_key Eg.signal_record Eg.fresh
  = (Return (true, None),
     snd (ref_archive 100 Eg.signal_key Eg.signal_record Eg.fresh))
  /\ exists jsonl_file content entry,
       ref_find_transcript Eg.fresh "s1" = Return (Some jsonl_file)
       /\ transcripts Eg.fresh !! jsonl_file = Some content
       /\ transcripts (snd (ref_archive 100 Eg.signal_key Eg.signal_record Eg.fresh))
            !! jsonl_file = None
       /\ artifacts (snd (ref_archive 100 Eg.signal_key Eg.signal_record Eg.fresh))
            !! (path_stem jsonl_file +:+ ".jsonl.gz")
          = Some (Ref.gzip_compress content)
       /\ idx_sessions
            (load_archive_index
               (snd (ref_archive 100 Eg.signal_key Eg.signal_record Eg.fresh)))
          = (idx_sessions (load_archive_index Eg.fresh) ++ [entry])%list
       /\ ae_key entry = Eg.signal_key
       /\ ae_originalSize entry = Z.of_nat (length content).
Proof.
  assert (Harch : ref_archive 100 Eg.signal_key Eg.signal_record Eg.fresh
                  = (Return (true, None),
                     snd (ref_archive 100 Eg.signal_key Eg.signal_record Eg.fresh)))
    by reflexivity.
  split; [exact Harch|].
  destruct (archive_moves_the_transcript Ref.py_str Ref.glob_jsonl
              Ref.gzip_compress Ref.text_lines Ref.json_loads
              100 Eg.signal_key Eg.signal_record Eg.fresh _ Harch)
    as (jsonl_file & content & entry & Hfind & Hdata & Hgone & _ & Hart & Hidx
        & Hkey & _ & _ & Hsize & _).
  exists jsonl_file, content, entry. repeat split; assumption.
Defined.

(** X4, on the root whose index holds a row of size 5: the total becomes
    13. *)
Lemma archive_adds_the_compressed_size_witness :
  index_ok (load_archive_index Eg.reused_key)
  /\ ref_archive 100 "agent:main:main" Eg.new_main_record Eg.reused_key
     = (Return (true, None),
        snd (ref_archive 100 "agent:main:main" Eg.new_main_record Eg.reused_key))
  /\ exists jsonl_file content,
       ref_find_transcript Eg.reused_key "new" = Return (Some jsonl_file)
       /\ transcripts Eg.reused_key !! jsonl_file = Some content
       /\ idx_totalSize
            (load_archive_index
               (snd (ref_archive 100 "agent:main:main" Eg.new_main_record
                       Eg.reused_key)))
          = idx_totalSize (load_archive_index Eg.reused_key)
            + Z.of_nat (length (Ref.gzip_compress content)).
Proof.
  assert (Hok : index_ok (load_archive_index Eg.reused_key)) by reflexivity.
  assert (Harch : ref_archive 100 "agent:main:main" Eg.new_main_record
                    Eg.reused_key
                  = (Return (true, None),
                     snd (ref_archive 100 "agent:main:main" Eg.new_main_record
                            Eg.reused_key)))
    by reflexivity.
  split; [exact Hok|]. split; [exact Harch|].
  exact (archive_adds_the_compressed_size Ref.py_str Ref.glob_jsonl
           Ref.gzip_compress Ref.text_lines Ref.json_loads
           100 "agent:main:main" Eg.new_main_record Eg.reused_key _ Hok Harch).
Defined.



(** X7, on the fresh root with an undecodable sessions.json. *)
Lemma archive_with_corrupt_catalog_witness :
  sessions_json Eg.corrupt_catalog = Corrupt
  /\ ref_find_transcript Eg.corrupt_catalog "s1" = Return (Some "s1.jsonl")
  /\ transcripts Eg.corrupt_catalog !! "s1.jsonl" = Some Eg.hello
  /\ extract_first_user_message Ref.text_lines Ref.json_loads Eg.hello
     = Return (JStr "hello")
  /\ exists fs',
       ref_archive 100 Eg.signal_key Eg.signal_record Eg.corrupt_catalog
       = (Return (false, Some (ArchiveFailed JSONDecodeError)), fs')
       /\ transcripts fs' !! "s1.jsonl" = None
       /\ artifacts fs' !! (path_stem "s1.jsonl" +:+ ".jsonl.gz") = None
       /\ exists entry,
            In entry (idx_sessions (load_archive_index fs'))
            /\ ae_key entry = Eg.signal_key
            /\ ae_originalSize entry = Z.of_nat (length Eg.hello).
Proof.
  split; [reflexivity|]. split; [reflexivity|]. split; [reflexivity|].
  split; [reflexivity|].
  exact (archive_with_corrupt_catalog_loses_the_transcript Ref.py_str
           Ref.glob_jsonl Ref.gzip_compress Ref.text_lines Ref.json_loads
           100 Eg.signal_key Eg.signal_record Eg.corrupt_catalog
           "s1.jsonl" Eg.hello (JStr "hello") eq_refl eq_refl eq_refl eq_refl).
Defined.

(** X8, on a transcript named [chat-s9.jsonl] for the session id [s9]. *)
Lemma glob_archived_session_witness :
  ref_find_transcript Eg.prefixed "s9" = Return (Some "chat-s9.jsonl")
  /\ path_stem "chat-s9.jsonl" <> "s9"
  /\ artifacts Eg.prefixed !! "s9.jsonl.gz" = None
  /\ ref_archive 100 "agent:main:chat" Eg.chat_record Eg.prefixed
     = (Return (true, None),
        snd (ref_archive 100 "agent:main:chat" Eg.chat_record Eg.prefixed))
  /\ ref_restore 200 "agent:main:chat"
       (snd (ref_archive 100 "agent:main:chat" Eg.chat_record Eg.prefixed))
     = (false, snd (ref_archive 100 "agent:main:chat" Eg.chat_record Eg.prefixed)).
Proof.
  assert (Hstem : path_stem "chat-s9.jsonl" <> "s9") by (vm_compute; discriminate).
  assert (Harch : ref_archive 100 "agent:main:chat" Eg.chat_record Eg.prefixed
                  = (Return (true, None),
                     snd (ref_archive 100 "agent:main:chat" Eg.chat_record
                            Eg.prefixed)))
    by reflexivity.
  split; [reflexivity|]. split; [exact Hstem|]. split; [reflexivity|].
  split; [exact Harch|].
  apply (glob_archived_session_is_not_restorable Ref.py_str Ref.glob_jsonl
           Ref.gzip_compress Ref.gzip_decompress Ref.text_lines Ref.json_loads
           100 200 "agent:main:chat" Eg.chat_record Eg.prefixed _ "chat-s9.jsonl").
  - reflexivity.
  - exact Hstem.
  - reflexivity.
  - intros e [].
  - exact Harch.
Defined.

(** X9, on the archive of two generations of the main session: the
    restoration brings back the older one and drops both rows, and the
    compressed file of the newer one stays. *)
Lemma restore_drops_every_row_witness :
  ref_restore 3000 "agent:main:main" Eg.two_generations
  = (true, snd (ref_restore 3000 "agent:main:main" Eg.two_generations))
  /\ In Eg.newer_main_entry (idx_sessions (load_archive_index Eg.two_generations))
  /\ ~ In Eg.newer_main_entry
         (idx_sessions
            (load_archive_index
               (snd (ref_restore 3000 "agent:main:main" Eg.two_generations))))
  /\ artifacts (snd (ref_restore 3000 "agent:main:main" Eg.two_generations))
       !! "new.jsonl.gz"
     = Some (Ref.gzip_compress (Eg.text "second")).
Proof.
  assert (Hres : ref_restore 3000 "agent:main:main" Eg.two_generations
                 = (true, snd (ref_restore 3000 "agent:main:main"
                                 Eg.two_generations)))
    by reflexivity.
  assert (Hin : In Eg.newer_main_entry
                   (idx_sessions (load_archive_index Eg.two_generations)))
    by (right; now left).
  split; [exact Hres|]. split; [exact Hin|].
  destruct (restore_drops_every_row_of_the_key Ref.py_str Ref.gzip_decompress
              3000 "agent:main:main" Eg.two_generations _ Hres)
    as (session_info & Hfind & _ & Hall).
  injection Hfind as <-.
  destruct (Hall Eg.newer_main_entry Hin eq_refl) as [Hnot Hart].
  split; [exact Hnot|].
  assert (Hne : Ref.py_str (ae_sessionId Eg.newer_main_entry)
                <> Ref.py_str (ae_sessionId Eg.old_main_entry)) by discriminate.
  exact (Hart Hne).
Defined.

(** X10, on three versions. *)
Lemma compare_versions_strict_order_witness :
  (forall s e, Ref.int_of_str s = Raise e -> e = ValueError)
  /\ ref_compare (JStr "2.1.0") (JStr "2.1.1") = Return true
  /\ ref_compare (JStr "2.1.1") (JStr "2.2.0") = Return true
  /\ ref_compare (JStr "2.1.0") (JStr "2.1.0") = Return false
  /\ ref_compare (JStr "2.1.1") (JStr "2.1.0") = Return false
  /\ ref_compare (JStr "2.1.0") (JStr "2.2.0") = Return true.
Proof.
  assert (H1 : ref_compare (JStr "2.1.0") (JStr "2.1.1") = Return true)
    by reflexivity.
  assert (H2 : ref_compare (JStr "2.1.1") (JStr "2.2.0") = Return true)
    by reflexivity.
  destruct (compare_versions_is_a_strict_order Ref.int_of_str
              ref_int_of_str_value_error "2.1.0" "2.1.1" "2.2.0")
    as (_ & Hirrefl & Hasym & Htrans & _).
  split; [exact ref_int_of_str_value_error|].
  split; [exact H1|]. split; [exact H2|]. split; [exact Hirrefl|].
  split; [exact (Hasym H1)|exact (Htrans H1 H2)].
Defined.

(** X11, on a version and one of its pre-releases. *)
Lemma compare_versions_suffix_witness :
  (forall s e, Ref.int_of_str s = Raise e -> e = ValueError)
  /\ Str.contains "-" "2.1.0" = false
  /\ ref_compare (JStr "2.0.9") (JStr "2.1.0-beta.1")
     = ref_compare (JStr "2.0.9") (JStr "2.1.0")
  /\ ref_compare (JStr "2.1.0-beta.1") (JStr "2.0.9")
     = ref_compare (JStr "2.1.0") (JStr "2.0.9")
  /\ ref_compare (JStr "2.1.0") (JStr "2.1.0-beta.1") = Return false
  /\ ref_compare (JStr "2.1.0-beta.1") (JStr "2.1.0") = Return false.
Proof.
  split; [exact ref_int_of_str_value_error|]. split; [reflexivity|].
  exact (compare_versions_ignores_the_suffix Ref.int_of_str
           ref_int_of_str_value_error "2.1.0" "beta.1" (JStr "2.0.9") eq_refl).
Defined.

(** X12, on a request for thirty days and a page size of 7. *)
Lemma save_settings_witness :
  exists r settings_file',
    handle_save_settings Ref.int_of_str
      (Return (JObj [("retentionDays", JStr "30"); ("pageSize", JNum 7)]))
      Missing
    = (r, settings_file')
    /\ settings_file'
       = Parsed (JObj [("retentionDays", JNum 30); ("pageSize", JNum 20)])
    /\ ((settings_file' = Missing /\ forall data, r <> SendJson data)
        \/ exists saved stored page_size,
             r = SendJson (JObj [("success", JBool true); ("settings", JObj saved)])
             /\ settings_file' = Parsed (JObj saved)
             /\ (stored = Never /\ py_get "retentionDays" saved = JStr "never"
                 \/ exists n, stored = Days n /\ 1 <= n
                              /\ py_get "retentionDays" saved = JNum n)
             /\ py_get "pageSize" saved = JNum page_size
             /\ In page_size [10; 25; 50; 100; 20]
             /\ forall now clock fs,
                  handle_run_archive_request Ref.py_str Ref.glob_jsonl
                    Ref.gzip_compress Ref.text_lines Ref.json_loads
                    Ref.int_of_str settings_file' now clock fs
                  = handle_run_archive Ref.py_str Ref.glob_jsonl
                      Ref.gzip_compress Ref.text_lines Ref.json_loads
                      stored now clock fs).
Proof.
  eexists _, _. split; [reflexivity|]. split; [reflexivity|].
  apply (save_settings_stores_valid_settings Ref.py_str Ref.glob_jsonl
           Ref.gzip_compress Ref.text_lines Ref.json_loads Ref.int_of_str
           (Return (JObj [("retentionDays", JStr "30"); ("pageSize", JNum 7)]))
           Missing).
  reflexivity.
Defined.

(** X13, on a request to archive that carries no credentials. *)
Lemma unauthorized_post_witness :
  ref_check_auth Eg.locked
    (anonymous_post "/api/archive" (JObj [("sessionKey", JStr Eg.signal_key)]))
  = false
  /\ exists r,
       ref_post Eg.locked 100 (fun _ => 7)
         (anonymous_post "/api/archive" (JObj [("sessionKey", JStr Eg.signal_key)]))
         Eg.fresh Missing
       = (Sent r, Eg.fresh, Missing)
       /\ (Str.startswith "/api/" "/api/archive" = true ->
           "/api/archive" <> "/api/logout" ->
           r = SendError 401 "Unauthorized. Please provide a valid token.").
Proof.
  split; [reflexivity|].
  exact (unauthorized_post_changes_nothing Ref.py_str Ref.glob_jsonl
           Ref.gzip_compress Ref.gzip_decompress Ref.text_lines Ref.json_loads
           Ref.int_of_str Ref.sha256_hex Eg.locked 100 (fun _ => 7)
           (anonymous_post "/api/archive"
              (JObj [("sessionKey", JStr Eg.signal_key)]))
           Eg.fresh Missing eq_refl).
Defined.

(** X14, on a read-only dashboard without a token: the archival is
    refused, and the settings are saved. *)
Lemma read_only_post_witness :
  py_truthy (is_read_only Eg.read_only) = true
  /\ ref_post Eg.read_only 100 (fun _ => 7)
       (anonymous_post "/api/archive" (JObj [("sessionKey", JStr Eg.signal_key)]))
       Eg.fresh Missing
     = (Sent (SendError 403 "Dashboard is in read-only mode"), Eg.fresh, Missing)
  /\ snd (ref_post Eg.read_only 100 (fun _ => 7)
            (anonymous_post "/api/settings" (JObj [("retentionDays", JNum 1)]))
            Eg.fresh Missing)
     = snd (handle_save_settings Ref.int_of_str
              (Return (JObj [("retentionDays", JNum 1)])) Missing).
Proof.
  assert (Hro : py_truthy (is_read_only Eg.read_only) = true) by reflexivity.
  split; [exact Hro|]. split.
  - apply (read_only_post_keeps_the_storage_root Ref.py_str Ref.glob_jsonl
             Ref.gzip_compress Ref.gzip_decompress Ref.text_lines Ref.json_loads
             Ref.int_of_str Ref.sha256_hex Eg.read_only 100 (fun _ => 7)
             (anonymous_post "/api/archive"
                (JObj [("sessionKey", JStr Eg.signal_key)]))
             Eg.fresh Missing Hro).
    + now left.
    + reflexivity.
  - reflexivity.
Defined.

(** X15, on the token passed as the [key] parameter under 'login' and
    under 'key'. *)
Lemma check_auth_ignores_the_mode_witness :
  JStr "login" <> JStr "none"
  /\ JStr "key" <> JStr "none"
  /\ ref_check_auth (dict_set "authMode" (JStr "login") Eg.locked)
       {| req_path := "/api/sessions"; req_authorization := "";
          req_key := Some "secret"; req_cookie := None;
          req_body := Raise ValueError |}
     = ref_check_auth (dict_set "authMode" (JStr "key") Eg.locked)
         {| req_path := "/api/sessions"; req_authorization := "";
            req_key := Some "secret"; req_cookie := None;
            req_body := Raise ValueError |}
  /\ ref_check_auth (dict_set "authMode" (JStr "login") Eg.locked)
       {| req_path := "/api/sessions"; req_authorization := "";
          req_key := Some "secret"; req_cookie := None;
          req_body := Raise ValueError |}
     = true.
Proof.
  assert (H1 : JStr "login" <> JStr "none") by discriminate.
  assert (H2 : JStr "key" <> JStr "none") by discriminate.
  destruct (check_auth_ignores_the_mode Ref.py_str Ref.sha256_hex Eg.locked
              (JStr "login") (JStr "key")
              {| req_path := "/api/sessions"; req_authorization := "";
                 req_key := Some "secret"; req_cookie := None;
                 req_body := Raise ValueError |} H1 H2) as [Hsame Hkey].
  split; [exact H1|]. split; [exact H2|]. split; [exact Hsame|].
  exact (Hkey "secret" eq_refl eq_refl).
Defined.



(** X18, on a transcript of a question, two lines to pass over and an
    answer. *)
Lemma history_witness :
  ref_history_loop Eg.dialogue
  = Return [ [("role", JStr "user"); ("content", JStr "hello");
              ("timestamp", JNull)];
             [("role", JStr "assistant"); ("content", JStr "hi there");
              ("timestamp", JNull)] ]
  /\ Forall (fun item =>
               py_eq_str (py_get "role" item) "toolResult" = false
               /\ py_truthy (py_get "content" item) = true
               /\ dict_keys item = ["role"; "content"; "timestamp"])
            [ [("role", JStr "user"); ("content", JStr "hello");
               ("timestamp", JNull)];
              [("role", JStr "assistant"); ("content", JStr "hi there");
               ("timestamp", JNull)] ].
Proof.
  split; [reflexivity|].
  exact (history_has_no_tool_results_or_empty_messages Ref.json_loads
           (history_text_parts Ref.py_str) Eg.dialogue _ eq_refl).
Defined.

(** X20, on the fresh root. *)
Lemma archived_history_witness :
  (forall data, Ref.gzip_decompress (Ref.gzip_compress data) = Inflated data)
  /\ transcripts Eg.fresh !! "s1.jsonl" = Some Eg.hello
  /\ ref_archive 100 Eg.signal_key Eg.signal_record Eg.fresh
     = (Return (true, None),
        snd (ref_archive 100 Eg.signal_key Eg.signal_record Eg.fresh))
  /\ exists outcome : py (list record),
       handle_session_history Ref.py_str Ref.glob_jsonl Ref.text_lines
         Ref.json_loads [transcripts Eg.fresh] "s1"
       = match outcome with
         | Return history => SendJson (history_body history)
         | Raise e => SendRaised e
         end
       /\ handle_archived_history Ref.py_str Ref.gzip_decompress Ref.text_lines
            Ref.json_loads Eg.signal_key
            (snd (ref_archive 100 Eg.signal_key Eg.signal_record Eg.fresh))
          = match outcome with
            | Return history => SendJson (history_body history)
            | Raise _ =>
                SendJson (JObj [("history", JArr []);
                                ("error", JStr "Archived session not found")])
            end.
Proof.
  split; [exact ref_gzip_round_trip|]. split; [reflexivity|].
  assert (Harch : ref_archive 100 Eg.signal_key Eg.signal_record Eg.fresh
                  = (Return (true, None),
                     snd (ref_archive 100 Eg.signal_key Eg.signal_record Eg.fresh)))
    by reflexivity.
  split; [exact Harch|].
  apply (archived_history_is_the_live_history Ref.py_str Ref.glob_jsonl
           Ref.gzip_compress Ref.gzip_decompress ref_gzip_round_trip
           Ref.text_lines Ref.json_loads 100 Eg.signal_key Eg.signal_record
           Eg.hello Eg.fresh _).
  - discriminate.
  - reflexivity.
  - reflexivity.
  - intros e [].
  - exact Harch.
Defined.

(** X21, on a transcript of a question and an answer, to which a second
    answer is appended. *)
Lemma result_witness :
  result_loop Ref.json_loads ["user: hello"; "assistant: first"] None
  = Return (Some [("content", JStr "first"); ("timestamp", JNull)])
  /\ Str.strip "assistant: second" <> ""
  /\ result_loop Ref.json_loads
       (["user: hello"; "assistant: first"] ++ ["assistant: second"])%list None
     = Return (Some [("content", JStr "second"); ("timestamp", JNull)]).
Proof.
  assert (Hblank : Str.strip "assistant: second" <> "")
    by (vm_compute; discriminate).
  split; [reflexivity|]. split; [exact Hblank|].
  destruct (result_is_the_last_assistant_text Ref.json_loads
              ["user: hello"; "assistant: first"] "assistant: second"
              (JObj [("type", JStr "message");
                     ("message", JObj [("role", JStr "assistant");
                                       ("content", JStr "second")])])
              None _ eq_refl Hblank eq_refl) as [Hfound _].
  exact (proj1 (Hfound _ eq_refl)).
Defined.

(** X22, on the fresh root: the task of the new row is the first user
    message of [s1.jsonl]. *)
Lemma task_summary_witness :
  ref_archive 100 Eg.signal_key Eg.signal_record Eg.fresh
  = (Return (true, None),
     snd (ref_archive 100 Eg.signal_key Eg.signal_record Eg.fresh))
  /\ extract_first_user_message Ref.text_lines Ref.json_loads Eg.hello
     = Return (JStr "hello")
  /\ exists jsonl_file content entry,
       ref_find_transcript Eg.fresh "s1" = Return (Some jsonl_file)
       /\ transcripts Eg.fresh !! jsonl_file = Some content
       /\ last (idx_sessions
                  (load_archive_index
                     (snd (ref_archive 100 Eg.signal_key Eg.signal_record
                             Eg.fresh))))
          = Some entry
       /\ ae_key entry = Eg.signal_key
       /\ extract_first_user_message Ref.text_lines Ref.json_loads content
          = Return (ae_task entry)
       /\ (ae_task entry = JNull
           \/ exists text, ae_task entry = JStr text
                           /\ (String.length text <= 500)%nat).
Proof.
  assert (Harch : ref_archive 100 Eg.signal_key Eg.signal_record Eg.fresh
                  = (Return (true, None),
                     snd (ref_archive 100 Eg.signal_key Eg.signal_record Eg.fresh)))
    by reflexivity.
  split; [exact Harch|]. split; [reflexivity|].
  exact (proj2 (task_summary_is_at_most_500_characters Ref.py_str Ref.glob_jsonl
                  Ref.gzip_compress Ref.text_lines Ref.json_loads
                  100 Eg.signal_key Eg.signal_record Eg.fresh _) Harch).
Defined.

(** X23, on the root that holds a hidden directory and [main]. *)
Lemma agent_directories_witness :
  agents_base Eg.with_main
  = Some [ {| de_name := ".cache"; de_is_dir := true; de_has_sessions := true |};
           {| de_name := "main"; de_is_dir := true; de_has_sessions := true |} ]
  /\ List.NoDup [".cache"; "main"]
  /\ List.NoDup (map fst (get_all_agent_sessions_dirs Eg.with_main))
  /\ get_all_agent_sessions_dirs Eg.with_main = [("main", AgentSessionsDir "main")].
Proof.
  assert (Hnd : List.NoDup [".cache"; "main"]).
  { apply List.NoDup_cons; [intros [H|[]]; discriminate|].
    apply List.NoDup_cons; [intros []|apply List.NoDup_nil]. }
  split; [reflexivity|]. split; [exact Hnd|]. split; [|reflexivity].
  exact (proj1 (agent_directories_are_distinct_visible_agents Eg.with_main _
                  eq_refl Hnd)).
Defined.

(** X24, on a session that carries a path and an internal field. *)
Lemma sanitize_session_witness :
  sanitize_session Ref.pathlib_name Eg.with_paths
  = Return [("key", JStr "agent:main:main"); ("transcriptPath", JStr "s1.jsonl")]
  /\ dict_get "_internal"
       [("key", JStr "agent:main:main"); ("transcriptPath", JStr "s1.jsonl")]
     = None
  /\ dict_get "key"
       [("key", JStr "agent:main:main"); ("transcriptPath", JStr "s1.jsonl")]
     = dict_get "key" Eg.with_paths.
Proof.
  split; [reflexivity|].
  destruct (sanitize_session_hides_paths_and_internal_fields Ref.pathlib_name
              Eg.with_paths _ eq_refl) as (Hinternal & _ & Hother).
  split; [apply Hinternal; now left|].
  apply Hother. cbn. intros H.
  repeat (destruct H as [H|H]; [discriminate|]). exact H.
Defined.

(** X25, on a cron session, one of its runs, and the main session. *)
Lemma session_list_rows_witness :
  exists rows,
    ref_transform [] (JStr "Main")
      [Eg.cron_session; Eg.run_session; Eg.main_session]
    = Return rows
    /\ map (py_get "key") rows
       = [JStr "agent:main:cron:job1"; JStr "agent:main:main"]
    /\ Forall
         (fun row =>
            dict_keys row
            = ["id"; "key"; "label"; "agentName"; "status"; "updatedAt"; "ageMs";
               "channel"; "model"; "totalTokens"; "contextTokens"; "usagePct";
               "node"; "sizeBytes"; "sizeFormatted"; "task"])
         rows.
Proof.
  eexists. split; [reflexivity|].
  exact (session_list_rows_follow_the_input Ref.py_str Ref.pathlib_name
           Ref.row_status_age Ref.row_usage_pct Ref.row_node
           [] (JStr "Main") [Eg.cron_session; Eg.run_session; Eg.main_session]
           _ eq_refl).
Defined.

Abbreviation ref_check_for_updates := (check_for_updates Ref.int_of_str).

(** X27, on two configurations with different tokens. *)
Lemma safe_config_witness :
  py_truthy (JStr "secret") = py_truthy (JStr "another")
  /\ get_safe_config (dict_set "dashboardToken" (JStr "secret") Eg.locked)
     = get_safe_config
         (dict_set "dashboardToken" (JStr "another") Eg.locked)
  /\ dict_get "dashboardToken"
       (get_safe_config
          (dict_set "dashboardToken" (JStr "secret") Eg.locked))
     = None.
Proof.
  split; [reflexivity|].
  exact (safe_config_reveals_only_that_a_token_is_set Eg.locked
           (JStr "secret") (JStr "another") eq_refl).
Defined.

(** X28, on a cache filled a thousand seconds ago: a failing request and
    one that announces a new version are not looked at. *)
Lemma update_check_cache_witness :
  py_truthy (JObj [("latestVersion", JStr "2.2.0")]) = true
  /\ 1000 <> 0
  /\ 2000 - 1000 < 86400
  /\ ref_check_for_updates [] (Parsed (JObj [("version", JStr "2.1.0")]))
       2000 2000 (Raise OSError)
       {| uc_data := JObj [("latestVersion", JStr "2.2.0")];
          uc_timestamp := JNum 1000; uc_file := Missing |}
     = ref_check_for_updates [] (Parsed (JObj [("version", JStr "2.1.0")]))
         2000 2001 (Return (JObj [("version", JStr "9.9.9")]))
         {| uc_data := JObj [("latestVersion", JStr "2.2.0")];
            uc_timestamp := JNum 1000; uc_file := Missing |}
  /\ snd (ref_check_for_updates [] (Parsed (JObj [("version", JStr "2.1.0")]))
            2000 2000 (Raise OSError)
            {| uc_data := JObj [("latestVersion", JStr "2.2.0")];
               uc_timestamp := JNum 1000; uc_file := Missing |})
     = {| uc_data := JObj [("latestVersion", JStr "2.2.0")];
          uc_timestamp := JNum 1000; uc_file := Missing |}.
Proof.
  assert (Ht : 1000 <> 0) by discriminate.
  assert (Hfresh : 2000 - 1000 < 86400) by reflexivity.
  split; [reflexivity|]. split; [exact Ht|]. split; [exact Hfresh|].
  exact (update_check_within_a_day_uses_the_cache Ref.int_of_str []
           (Parsed (JObj [("version", JStr "2.1.0")])) 2000 1000
           {| uc_data := JObj [("latestVersion", JStr "2.2.0")];
              uc_timestamp := JNum 1000; uc_file := Missing |}
           eq_refl eq_refl Ht Hfresh
           2000 (Raise OSError) 2001 (Return (JObj [("version", JStr "9.9.9")]))).
Defined.

(** X29, on a first check that finds version 2.2.0 and a second one four
    thousand seconds later. *)
Lemma repeated_update_check_witness :
  exists r cache1,
    ref_check_for_updates [] (Parsed (JObj [("version", JStr "2.1.0")]))
      1000 1000 (Return (JObj [("version", JStr "2.2.0")]))
      (empty_update_cache Missing)
    = (Return r, cache1)
    /\ py_get "cached" r = JBool false
    /\ py_get "updateAvailable" r = JBool true
    /\ 1000 <> 0
    /\ 5000 - 1000 < 86400
    /\ ref_check_for_updates [] (Parsed (JObj [("version", JStr "2.1.0")]))
         5000 5000 (Raise OSError) cache1
       = (Return (dict_set "cached" (JBool true) r), cache1).
Proof.
  assert (Ht : 1000 <> 0) by discriminate.
  assert (Hfresh : 5000 - 1000 < 86400) by reflexivity.
  eexists _, _. split; [reflexivity|]. split; [reflexivity|].
  split; [reflexivity|]. split; [exact Ht|]. split; [exact Hfresh|].
  exact (repeated_update_check_returns_the_cached_answer Ref.int_of_str []
           (Parsed (JObj [("version", JStr "2.1.0")])) 1000 1000 5000
           (Return (JObj [("version", JStr "2.2.0")]))
           (empty_update_cache Missing) _ _ eq_refl eq_refl Ht Hfresh
           5000 (Raise OSError)).
Defined.

(** X30, on a request that fails while the cache is empty. *)
Lemma update_cache_file_witness :
  exists result cache',
    ref_check_for_updates [] (Parsed (JObj [("version", JStr "2.1.0")]))
      1000 1000 (Raise OSError) (empty_update_cache Missing)
    = (Return result, cache')
    /\ uc_file cache' = Missing
    /\ py_get "updateAvailable" result = JBool false.
Proof.
  eexists _, _. split; [reflexivity|].
  destruct (update_cache_file_is_written_only_by_a_fetch Ref.int_of_str []
              (Parsed (JObj [("version", JStr "2.1.0")])) 1000 1000
              (Raise OSError) (empty_update_cache Missing) _ _ eq_refl)
    as [_ Hfailed].
  split; [reflexivity|].
  apply (Hfailed OSError _ eq_refl eq_refl). discriminate.
Defined.
